(** * lagbaja: the A2A flashcard generator

    A shallow embedding of the request pipeline of [tobey0x/lagbaja]
    ([internal/service/flashcard_service.go], [internal/service/pdf_service.go],
    [internal/handler/a2a_handler.go], [internal/models], and the upload
    endpoint of [main.go]) together with the properties its specification
    states about it and further properties read off the code.

    Go strings are immutable byte sequences; they are embedded as
    [String.string], whose characters are the 256 byte values.  Go's [int]
    is embedded as [Z] (only lengths and indices occur, far below 2^63). *)

From Stdlib Require Import Strings.Byte Ascii String List ZArith NArith Bool Lia DecimalString.
Import ListNotations.
Local Open Scope list_scope.
Local Open Scope string_scope.

(** ** The part of Go's [strings] package the program calls *)
Module GoStrings.

Definition byteOf (c : ascii) : N := N_of_ascii c.

Definition LF : ascii := "010"%char.
Definition nl : string := String LF "".

Definition isByte (c : ascii) (n : N) : bool := N.eqb (byteOf c) n.

(** [asciiSpace] of package [strings]: tab, LF, VT, FF, CR and space. *)
Definition isAsciiSpace (c : ascii) : bool :=
  let b := byteOf c in
  (N.leb 9 b && N.leb b 13) || N.eqb b 32.

(** [unicode.IsSpace] beyond ASCII.  The white-space code points are
    U+0085, U+00A0 (two bytes in UTF-8: C2 85, C2 A0) and U+1680,
    U+2000..U+200A, U+2028, U+2029, U+202F, U+205F, U+3000 (three bytes:
    E1 9A 80, E2 80 80..8A, E2 80 A8, E2 80 A9, E2 80 AF, E2 81 9F,
    E3 80 80).  UTF-8 is prefix free and self-synchronising, and an invalid
    byte decodes to U+FFFD (not a space) with width one, so the rune that
    [utf8.DecodeRuneInString] reads at a position is a space exactly when
    one of these encodings starts there, and the rune that
    [utf8.DecodeLastRuneInString] reads is a space exactly when one of them
    ends the string. *)
Definition isSpace2 (c0 c1 : ascii) : bool :=
  isByte c0 194 && (isByte c1 133 || isByte c1 160).

Definition isSpace3 (c0 c1 c2 : ascii) : bool :=
  let b2 := byteOf c2 in
  (isByte c0 225 && isByte c1 154 && isByte c2 128)
  || (isByte c0 226 && isByte c1 128
        && ((N.leb 128 b2 && N.leb b2 138) || isByte c2 168 || isByte c2 169
            || isByte c2 175))
  || (isByte c0 226 && isByte c1 129 && isByte c2 159)
  || (isByte c0 227 && isByte c1 128 && isByte c2 128).

(** The bytes of a string in reverse order. *)
Fixpoint rev (s : string) : string :=
  match s with
  | "" => ""
  | String c r => rev r ++ String c ""
  end.

Section Runes.
(** Recognisers of the one-, two- and three-byte runes to drop. *)
Variable p1 : ascii -> bool.
Variable p2 : ascii -> ascii -> bool.
Variable p3 : ascii -> ascii -> ascii -> bool.

(** Does a rune of the class start the string? *)
Definition startsRune (s : string) : bool :=
  match s with
  | "" => false
  | String c0 r0 =>
      p1 c0 ||
      match r0 with
      | "" => false
      | String c1 r1 =>
          p2 c0 c1 ||
          match r1 with
          | "" => false
          | String c2 _ => p3 c0 c1 c2
          end
      end
  end.

(** [strings.TrimLeftFunc]: drop runes of the class while one starts the
    string. *)
Fixpoint dropRunes (s : string) : string :=
  match s with
  | "" => ""
  | String c0 r0 =>
      if p1 c0 then dropRunes r0 else
      match r0 with
      | "" => s
      | String c1 r1 =>
          if p2 c0 c1 then dropRunes r1 else
          match r1 with
          | "" => s
          | String c2 r2 => if p3 c0 c1 c2 then dropRunes r2 else s
          end
      end
  end.
End Runes.

Definition TrimLeftSpace : string -> string :=
  dropRunes isAsciiSpace isSpace2 isSpace3.

(** Trailing runes are read on the reversed string, bytes in reverse
    order. *)
Definition dropRunesRev : string -> string :=
  dropRunes isAsciiSpace (fun a b => isSpace2 b a)
            (fun a b c => isSpace3 c b a).

Definition TrimRightSpace (s : string) : string := rev (dropRunesRev (rev s)).

(** [strings.TrimSpace]. *)
Definition TrimSpace (s : string) : string := TrimRightSpace (TrimLeftSpace s).

(** [strings.HasPrefix s prefix]. *)
Fixpoint HasPrefix (s prefix : string) {struct prefix} : bool :=
  match prefix, s with
  | "", _ => true
  | String a p', String b s' => Ascii.eqb a b && HasPrefix s' p'
  | String _ _, "" => false
  end.

(** The slice [s[n:]] (empty when [s] is shorter). *)
Fixpoint drop (n : nat) (s : string) : string :=
  match n, s with
  | O, _ => s
  | S n', String _ r => drop n' r
  | S _, "" => ""
  end.

(** [strings.TrimPrefix s prefix]. *)
Definition TrimPrefix (s prefix : string) : string :=
  if HasPrefix s prefix then drop (String.length prefix) s else s.

(** [strings.Contains s substr]: is there an index where [substr] starts? *)
Fixpoint Contains (s substr : string) : bool :=
  HasPrefix s substr ||
  match s with
  | "" => false
  | String _ r => Contains r substr
  end.

(** [strings.Split s sep] for a non-empty [sep]: the pieces between the
    leftmost, non-overlapping occurrences of [sep].  [skip] counts the
    bytes of a matched separator still to pass over, [cur] is the piece
    being read. *)
Fixpoint splitFrom (sep : string) (skip : nat) (cur s : string) : list string :=
  match s with
  | "" => [cur]
  | String c r =>
      match skip with
      | S k => splitFrom sep k cur r
      | O =>
          if HasPrefix s sep
          then cur :: splitFrom sep (String.length sep - 1) "" r
          else splitFrom sep 0 (cur ++ String c "") r
      end
  end.

Definition Split (s sep : string) : list string := splitFrom sep 0 "" s.

Definition flush (cur : string) : list string :=
  match cur with "" => [] | _ => [cur] end.

(** [strings.Fields]: the maximal runs of bytes between white-space
    runes. *)
Fixpoint fieldsFrom (cur s : string) : list string :=
  match s with
  | "" => flush cur
  | String c0 r0 =>
      if isAsciiSpace c0 then (flush cur ++ fieldsFrom "" r0)%list else
      match r0 with
      | "" => fieldsFrom (cur ++ String c0 "") r0
      | String c1 r1 =>
          if isSpace2 c0 c1 then (flush cur ++ fieldsFrom "" r1)%list else
          match r1 with
          | "" => fieldsFrom (cur ++ String c0 "") r0
          | String c2 r2 =>
              if isSpace3 c0 c1 c2 then (flush cur ++ fieldsFrom "" r2)%list
              else fieldsFrom (cur ++ String c0 "") r0
          end
      end
  end.

Definition Fields (s : string) : list string := fieldsFrom "" s.

Fixpoint inCutset (c : ascii) (cutset : string) : bool :=
  match cutset with
  | "" => false
  | String d r => Ascii.eqb c d || inCutset c r
  end.

(** [strings.TrimRight s cutset] for an ASCII [cutset]: the trailing bytes
    of the set are removed. *)
Fixpoint TrimRight (s cutset : string) : string :=
  match s with
  | "" => ""
  | String c r =>
      match TrimRight r cutset with
      | "" => if inCutset c cutset then "" else String c ""
      | t => String c t
      end
  end.

Definition lowerByte (c : ascii) : ascii :=
  let b := byteOf c in
  if N.leb 65 b && N.leb b 90 then ascii_of_N (b + 32) else c.

(** [strings.ToLower] on the ASCII letters.  Go also maps the letters
    beyond ASCII (and replaces invalid bytes by U+FFFD); that never yields
    one of the bytes of the pattern ".pdf" and never removes a rune, so the
    only query the program makes of the result, [Contains _ ".pdf"], has
    the same answer. *)
Fixpoint ToLower (s : string) : string :=
  match s with
  | "" => ""
  | String c r => String (lowerByte c) (ToLower r)
  end.

(** [fmt.Sprintf "%d"]. *)
Definition itoa (n : Z) : string := NilZero.string_of_int (Z.to_int n).

End GoStrings.

Import GoStrings.


(** ** [internal/models]: the data model *)
Module Models.

(** [flashcard.go] *)
Record Flashcard : Type := mkFlashcard {
  Question : string;
  Answer : string;
  Topic : string
}.

Record FlashcardSet : Type := mkFlashcardSet {
  Title : string;
  Flashcards : list Flashcard;
  Source : string;
  CreatedAt : string;
  TotalCards : Z
}.

(** A value of Go's [interface{}], by dynamic type: what [encoding/json]
    decodes into (nil, bool, float64, string, slice, map) and what the
    handler's type assertions ask for ([[]byte], which may be a nil slice)
    or stores ([*FlashcardSet]).  A float64 is carried by its bits and
    never inspected; [AOther] stands for a value of any other type, on
    which every type assertion of the program fails.  A map is an
    association list read by its first binding of a key. *)
#[local] Set Warnings "-register-all".
Inductive Any : Type :=
| ANil
| ABool (b : bool)
| AFloat64 (bits : N)
| AString (s : string)
| ABytes (b : option (list byte))
| AList (l : list Any)
| AMap (m : list (string * Any))
| AFlashcardSet (fs : FlashcardSet)
| AOther (typeName : string).

Fixpoint mapGet (m : list (string * Any)) (key : string) : option Any :=
  match m with
  | [] => None
  | (k, v) :: rest => if String.eqb k key then Some v else mapGet rest key
  end.

(** The A2A message types.  A field name that several Go structs share
    ([Kind], [Parts], [Status], [Message], [ID]) carries the struct in its
    name here: [partKind], [msgKind], [taskKind], [artifactParts],
    [taskStatus], [statusMessage], [reqID], [respID]. *)
Record MessagePart : Type := mkMessagePart {
  partKind : string;
  Text : string;
  Data : Any
}.

Record Message : Type := mkMessage {
  msgKind : string;
  Role : string;
  Parts : list MessagePart;
  MessageID : string;
  TaskID : string;
  Metadata : Any
}.

Record Status : Type := mkStatus {
  State : string;
  Timestamp : string;
  statusMessage : Message
}.

Record Artifact : Type := mkArtifact {
  ArtifactID : string;
  Name : string;
  artifactParts : list MessagePart
}.

Record TaskResult : Type := mkTaskResult {
  ID : string;
  ContextID : string;
  taskStatus : Status;
  Artifacts : list Artifact;
  History : list Message;
  taskKind : string
}.

Definition StateCompleted : string := "completed".
Definition StateRunning : string := "running".
Definition StateFailed : string := "failed".

Definition RoleUser : string := "user".
Definition RoleAgent : string := "agent".

Definition KindText : string := "text".
Definition KindData : string := "data".
Definition KindMessage : string := "message".

(** [jsonrpc.go] *)
Record JSONRPCRequest : Type := mkRequest {
  reqJSONRPC : string;
  reqID : string;
  Method : string;
  Params : list (string * Any)
}.

Record RPCError : Type := mkRPCError {
  errCode : Z;
  errMessage : string;
  errData : string
}.

Record JSONRPCResponse : Type := mkResponse {
  respJSONRPC : string;
  respID : string;
  Result : option TaskResult;
  Error : option RPCError
}.

Definition ParseError : Z := -32700.
Definition InvalidRequest : Z := -32600.
Definition MethodNotFound : Z := -32601.
Definition InvalidParams : Z := -32602.
Definition InternalError : Z := -32603.

End Models.

Import Models.

(** ** [pkg/errors] *)
Module AppErrors.

(** Modelled from the spec: package [pkg/errors] ([AppError],
    [NewAppError]) is not among the sources.  The specification gives an
    error a kind (the JSON-RPC code), a human message and an optional
    diagnostic; the callers read the fields [Code] and [Message] and pass
    the wrapped error, here by its text, as third argument. *)
Record AppError : Type := mkAppError {
  Code : Z;
  Message : string;
  Err : option string
}.

Definition NewAppError (code : Z) (message : string) (err : option string)
  : AppError := mkAppError code message err.

End AppErrors.

Abbreviation AppError := AppErrors.AppError.
Abbreviation NewAppError := AppErrors.NewAppError.

(** ** The world outside: collaborators and effects *)
Module World.

(** What [http.Client.Get] followed by [io.ReadAll] can give. *)
Inductive HttpOutcome : Type :=
| GetFailed (err : string)
| GetResponse (statusCode : Z) (body : string + list byte).

(** A page of a PDF as [ledongthuc/pdf] shows it: null, or with a plain
    text that can fail to extract. *)
Inductive PdfPage : Type :=
| PageNull
| PagePlainText (text : string + string).

(** A candidate of a [genai.GenerateContentResponse]: its [Content] pointer
    (possibly nil) with the parts, each given by its rendering under
    [fmt.Sprintf "%v"] (for a [genai.Text] part, the text itself). *)
Record Candidate : Type := mkCandidate {
  Content : option (list string)
}.

Record Env : Type := mkEnv {
  (** [s.httpClient.Get url] and the reading of the body *)
  httpGet : string -> HttpOutcome;
  (** [pdf.NewReader] and the pages of the document *)
  pdfNewReader : list byte -> string + list PdfPage;
  (** [s.model.GenerateContent ctx (genai.Text prompt)] *)
  GenerateContent : string -> string + list Candidate;
  (** the n-th [uuid.New().String()] of the run, 36 bytes long *)
  uuidNew : nat -> string;
  (** the n-th reading [time.Now().UTC().Format(time.RFC3339)] *)
  timeNow : nat -> string;
  (** the method [Error] of an [AppError] *)
  errorText : AppError -> string;
  (** [json.NewDecoder(r.Body).Decode(&req)] *)
  decodeRequest : string -> string + JSONRPCRequest;
  (** [json.Unmarshal] of the marshalled [message] object into a
      [models.Message] *)
  unmarshalMessage : list (string * Any) -> string + Message
}.

(** The effects of a run so far: identifiers drawn, clock readings, and
    the prompts sent to the model, latest last. *)
Record Trace : Type := mkTrace {
  uuids : nat;
  ticks : nat;
  prompts : list string
}.

Definition start : Trace := mkTrace 0 0 [].

(** A Go call returns a value, returns an [*AppError], or panics. *)
Inductive Outcome (A : Type) : Type :=
| Ok (a : A)
| Fail (e : AppError)
| Panic.
Arguments Ok {A} a.
Arguments Fail {A} e.
Arguments Panic {A}.

Definition M (A : Type) : Type := Trace -> Outcome A * Trace.

Definition ret {A} (a : A) : M A := fun w => (Ok a, w).
Definition fail {A} (e : AppError) : M A := fun w => (Fail e, w).
Definition panic {A} : M A := fun w => (Panic, w).

Definition bind {A B} (m : M A) (k : A -> M B) : M B :=
  fun w =>
    match m w with
    | (Ok a, w') => k a w'
    | (Fail e, w') => (Fail e, w')
    | (Panic, w') => (Panic, w')
    end.

Definition newUUID (env : Env) : M string :=
  fun w => (Ok (uuidNew env (uuids w)),
            mkTrace (S (uuids w)) (ticks w) (prompts w)).

Definition now (env : Env) : M string :=
  fun w => (Ok (timeNow env (ticks w)),
            mkTrace (uuids w) (S (ticks w)) (prompts w)).

Definition callModel (env : Env) (prompt : string)
  : M (string + list Candidate) :=
  fun w => (Ok (GenerateContent env prompt),
            mkTrace (uuids w) (ticks w) (prompts w ++ [prompt])).

End World.

Import World.

Notation "x <- m ;; k" := (bind m (fun x => k))
  (at level 61, m at next level, right associativity).

(** ** [internal/service/pdf_service.go] *)
Module PDFService.

Definition DownloadPDF (env : Env) (url : string) : M (list byte) :=
  match httpGet env url with
  | GetFailed err =>
      fail (NewAppError InternalError "Failed to download PDF" (Some err))
  | GetResponse statusCode body =>
      if negb (Z.eqb statusCode 200) then
        fail (NewAppError InternalError
                ("Failed to download PDF: status " ++ itoa statusCode) None)
      else
        match body with
        | inl err =>
            fail (NewAppError InternalError "Failed to read PDF data" (Some err))
        | inr data => ret data
        end
  end.

(** The loop of [ExtractText] over the pages [pageNum], [pageNum+1], ... *)
Fixpoint extractPages (pages : list PdfPage) (pageNum : Z) (textBuilder : string)
  : M string :=
  match pages with
  | [] => ret textBuilder
  | PageNull :: rest => extractPages rest (pageNum + 1) textBuilder
  | PagePlainText (inl err) :: _ =>
      fail (NewAppError InternalError
              ("Failed to extract text from page " ++ itoa pageNum) (Some err))
  | PagePlainText (inr text) :: rest =>
      extractPages rest (pageNum + 1) (textBuilder ++ text)
  end.

Definition ExtractText (env : Env) (pdfData : list byte) : M string :=
  match pdfNewReader env pdfData with
  | inl err =>
      fail (NewAppError InternalError "Failed to create PDF reader" (Some err))
  | inr pages => extractPages pages 1 ""
  end.

Fixpoint bytesHasPrefix (data prefix : list byte) : bool :=
  match prefix, data with
  | [], _ => true
  | a :: p', b :: d' => Byte.eqb a b && bytesHasPrefix d' p'
  | _ :: _, [] => false
  end.

(** [ValidatePDF] returns an error or nil. *)
Definition ValidatePDF (data : list byte) : option AppError :=
  if (Z.of_nat (List.length data) <? 4)%Z then
    Some (NewAppError InvalidParams "Invalid PDF: file too small" None)
  else if negb (bytesHasPrefix data (list_byte_of_string "%PDF")) then
    Some (NewAppError InvalidParams "Invalid PDF: incorrect file format" None)
  else None.

End PDFService.

(** ** [internal/service/flashcard_service.go] *)
Module FlashcardService.

Import PDFService.

(** The prompt of [generateFlashcards]: the template with [text] at its
    [%s]. *)
Definition promptFor (text : string) : string :=
  "Create a set of 5-10 high-quality flashcards from the following text. " ++ nl
  ++ "Each flashcard should:" ++ nl
  ++ "- Have a clear, specific question" ++ nl
  ++ "- Include a concise but comprehensive answer" ++ nl
  ++ "- Be categorized with an appropriate topic" ++ nl
  ++ "- Cover key concepts, definitions, and applications" ++ nl
  ++ nl
  ++ "Text to process:" ++ nl
  ++ text ++ nl
  ++ nl
  ++ "Format each flashcard as:" ++ nl
  ++ "Q: [Question]" ++ nl
  ++ "A: [Answer]" ++ nl
  ++ "T: [Topic]" ++ nl
  ++ nl.

(** The variables [question], [answer], [topic] of the loop over the
    lines of a block. *)
Record CardVars : Type := mkCardVars {
  question : string;
  answer : string;
  topic : string
}.

(** One iteration of the loop over [lines]. *)
Definition scanLine (v : CardVars) (line : string) : CardVars :=
  let line := TrimSpace line in
  if HasPrefix line "Q:" then
    mkCardVars (TrimSpace (TrimPrefix line "Q:")) (answer v) (topic v)
  else if HasPrefix line "A:" then
    mkCardVars (question v) (TrimSpace (TrimPrefix line "A:")) (topic v)
  else if HasPrefix line "T:" then
    mkCardVars (question v) (answer v) (TrimSpace (TrimPrefix line "T:"))
  else v.

(** One iteration of the loop over [cards]: the slice [flashcards] after
    the block [card]. *)
Definition parseCard (flashcards : list Flashcard) (card : string)
  : list Flashcard :=
  if negb (Contains card "Q:") || negb (Contains card "A:") then flashcards
  else
    let lines := Split card nl in
    let v := fold_left scanLine lines (mkCardVars "" "" "") in
    if negb (String.eqb (question v) "") && negb (String.eqb (answer v) "")
    then
      let topic := if String.eqb (topic v) "" then "Concept" else topic v in
      (flashcards ++ [mkFlashcard (question v) (answer v) topic])%list
    else flashcards.

(** Lines 130 to 163 of [generateFlashcards]: the response text parsed into
    flashcards. *)
Definition parseFlashcards (responseText : string) : list Flashcard :=
  let cards := Split responseText (nl ++ nl) in
  fold_left parseCard cards [].

Definition generateTitle (source : string) : string :=
  if HasPrefix source "http" then "Flashcards from PDF" else "Study Flashcards".

Definition generateFlashcards (env : Env) (text source : string)
  : M FlashcardSet :=
  if Nat.eqb (String.length (TrimSpace text)) 0 then
    fail (NewAppError InvalidParams "no content to generate flashcards from" None)
  else
    resp <- callModel env (promptFor text) ;;
    match resp with
    | inl err =>
        fail (NewAppError InternalError "failed to generate flashcards" (Some err))
    | inr candidates =>
        match candidates with
        | [] =>
            fail (NewAppError InternalError
                    "no response generated from AI model" None)
        | candidate :: _ =>
            match Content candidate with
            | None => panic
            | Some [] =>
                fail (NewAppError InternalError
                        "no response generated from AI model" None)
            | Some (part :: _) =>
                let flashcards := parseFlashcards part in
                if Nat.eqb (List.length flashcards) 0 then
                  fail (NewAppError InternalError
                          "could not generate meaningful flashcards from the content"
                          None)
                else
                  createdAt <- now env ;;
                  ret (mkFlashcardSet (generateTitle source) flashcards source
                         createdAt (Z.of_nat (List.length flashcards)))
            end
        end
    end.

Definition GenerateFromURL (env : Env) (url : string) : M FlashcardSet :=
  pdfData <- DownloadPDF env url ;;
  match ValidatePDF pdfData with
  | Some err => fail err
  | None =>
      text <- ExtractText env pdfData ;;
      generateFlashcards env text url
  end.

Definition GenerateFromPDFData (env : Env) (pdfData : list byte)
  : M FlashcardSet :=
  match ValidatePDF pdfData with
  | Some err => fail err
  | None =>
      text <- ExtractText env pdfData ;;
      generateFlashcards env text "uploaded_pdf"
  end.

Definition GenerateFromText (env : Env) (text : string) : M FlashcardSet :=
  generateFlashcards env text "user_input".

(** The loop of [FormatAsText] from the card of index [i] on. *)
Fixpoint formatCards (cards : list Flashcard) (i : Z) (builder : string)
  : string :=
  match cards with
  | [] => builder
  | card :: rest =>
      let builder := builder ++ "**Card " ++ itoa (i + 1) ++ "**" in
      let builder :=
        if negb (String.eqb (Topic card) "")
        then builder ++ " (" ++ Topic card ++ ")" else builder in
      let builder := builder ++ nl in
      let builder := builder ++ "Q: " ++ Question card ++ nl in
      let builder := builder ++ "A: " ++ Answer card ++ nl ++ nl in
      formatCards rest (i + 1) builder
  end.

Definition FormatAsText (set : FlashcardSet) : string :=
  let builder := "" in
  let builder := builder ++ "# " ++ Title set ++ nl ++ nl in
  let builder :=
    builder ++ "Generated " ++ itoa (TotalCards set) ++ " flashcards from: "
    ++ Source set ++ nl ++ nl in
  formatCards (Flashcards set) 0 builder.

(** The loop of [ExtractPDFURL] over [words]. *)
Fixpoint firstPDFURL (words : list string) : string :=
  match words with
  | [] => ""
  | word :: rest =>
      let cleaned := TrimRight word ".,;" in
      if HasPrefix cleaned "http" && Contains (ToLower cleaned) ".pdf"
      then cleaned
      else firstPDFURL rest
  end.

Definition ExtractPDFURL (text : string) : string :=
  let words := Fields text in
  firstPDFURL words.

(** [truncate].  With [maxLen] negative the comparison fails for every
    text, and the slice [text[:maxLen]] is a run-time panic. *)
Definition truncate (text : string) (maxLen : Z) : Outcome string :=
  if (Z.of_nat (String.length text) <=? maxLen)%Z then Ok text
  else if (maxLen <? 0)%Z then Panic
  else Ok (substring 0 (Z.to_nat maxLen) text ++ "...").

End FlashcardService.

(** ** [internal/handler/a2a_handler.go] *)
Module A2AHandler.

Import FlashcardService.

(** An incoming HTTP request, as far as the handler reads it. *)
Record HTTPRequest : Type := mkHTTPRequest {
  httpMethod : string;
  Body : string
}.

(** What [writeResponse] puts on the [http.ResponseWriter]. *)
Record HTTPWrite : Type := mkHTTPWrite {
  contentType : string;
  statusCode : Z;
  written : JSONRPCResponse
}.

Definition StatusOK : Z := 200.
Definition MethodPost : string := "POST".

Definition writeResponse (response : JSONRPCResponse) (statusCode : Z)
  : HTTPWrite := mkHTTPWrite "application/json" statusCode response.

Definition sendSuccess (id : string) (result : TaskResult) : HTTPWrite :=
  writeResponse (mkResponse "2.0" id (Some result) None) StatusOK.

Definition sendError (id : string) (code : Z) (message data : string)
  : HTTPWrite :=
  writeResponse (mkResponse "2.0" id None (Some (mkRPCError code message data)))
                StatusOK.

Definition extractMessage (env : Env) (params : list (string * Any))
  : M Message :=
  match mapGet params "message" with
  | Some (AMap messageData) =>
      match unmarshalMessage env messageData with
      | inl err =>
          fail (NewAppError InvalidParams "Invalid message format" (Some err))
      | inr msg => ret msg
      end
  | _ =>
      fail (NewAppError InvalidParams "Missing or invalid 'message' parameter"
              None)
  end.

(** The loop of [extractUserInput] over [msg.Parts]. *)
Fixpoint firstText (parts : list MessagePart) : string :=
  match parts with
  | [] => ""
  | part :: rest =>
      if String.eqb (partKind part) KindText then Text part else firstText rest
  end.

Definition extractUserInput (msg : Message) : string := firstText (Parts msg).

Definition orElse {A : Type} (x y : option A) : option A :=
  match x with
  | Some a => Some a
  | None => y
  end.

(** The body of the loop of [extractPDFData] for one part: [Some b] when it
    returns the slice [b] (a nil slice is [None]), [None] when the loop
    goes on to the next part. *)
Definition partPDFData (part : MessagePart) : option (option (list byte)) :=
  if String.eqb (partKind part) KindData then
    orElse
      match Data part with
      | AMap dataMap =>
          orElse
            match mapGet dataMap "contentType" with
            | Some (AString contentType) =>
                if String.eqb contentType "application/pdf" then
                  match mapGet dataMap "data" with
                  | Some (AString base64Data) =>
                      Some (Some (list_byte_of_string base64Data))
                  | _ => None
                  end
                else None
            | _ => None
            end
            match mapGet dataMap "pdf" with
            | Some (ABytes pdfBytes) => Some pdfBytes
            | _ => None
            end
      | _ => None
      end
      match Data part with
      | ABytes bytes => Some bytes
      | _ => None
      end
  else None.

Fixpoint firstPDFData (parts : list MessagePart) : option (list byte) :=
  match parts with
  | [] => None
  | part :: rest =>
      match partPDFData part with
      | Some bytes => bytes
      | None => firstPDFData rest
      end
  end.

Definition extractPDFData (msg : Message) : option (list byte) :=
  firstPDFData (Parts msg).

Definition buildTaskResult (env : Env) (flashcards : FlashcardSet)
    (userMsg : Message) : M TaskResult :=
  taskID <-
    (if String.eqb (TaskID userMsg) "" then
       u <- newUUID env ;; ret ("task-" ++ substring 0 8 u)
     else ret (TaskID userMsg)) ;;
  let responseText := FormatAsText flashcards in
  u <- newUUID env ;;
  let responseMsg :=
    mkMessage KindMessage RoleAgent
      [mkMessagePart KindText responseText ANil]
      ("msg-" ++ substring 0 8 u) "" ANil in
  u <- newUUID env ;;
  let artifacts :=
    [mkArtifact ("artifact-" ++ u) "flashcardSet"
       [mkMessagePart KindData "" (AFlashcardSet flashcards)]] in
  u <- newUUID env ;;
  timestamp <- now env ;;
  ret (mkTaskResult taskID ("ctx-" ++ u)
         (mkStatus StateCompleted timestamp responseMsg)
         artifacts [userMsg; responseMsg] "task").

(** The routing at the head of [processRequest]: the flashcards come from
    the PDF URL found in the input, else from PDF data in the message, else
    from the input text. *)
Definition generateFor (env : Env) (input : string) (userMsg : Message)
  : M FlashcardSet :=
  let pdfURL := ExtractPDFURL input in
  if negb (String.eqb pdfURL "") then GenerateFromURL env pdfURL
  else
    match extractPDFData userMsg with
    | Some pdfData => GenerateFromPDFData env pdfData
    | None => GenerateFromText env input
    end.

Definition processRequest (env : Env) (input : string) (userMsg : Message)
  : M TaskResult :=
  flashcards <- generateFor env input userMsg ;;
  buildTaskResult env flashcards userMsg.

(** A handler writes one response, or panics before writing. *)
Definition Served : Type := (option HTTPWrite * Trace)%type.

Definition handleMessageSend (env : Env) (req : JSONRPCRequest)
  : Trace -> Served :=
  fun w =>
    match extractMessage env (Params req) w with
    | (Fail appErr, w1) =>
        (Some (sendError (reqID req) (AppErrors.Code appErr)
                 (AppErrors.Message appErr) (errorText env appErr)), w1)
    | (Panic, w1) => (None, w1)
    | (Ok msg, w1) =>
        let userInput := extractUserInput msg in
        if String.eqb userInput "" then
          (Some (sendError (reqID req) InvalidParams "Invalid params"
                   "No text content found in message"), w1)
        else
          match processRequest env userInput msg w1 with
          | (Fail appErr, w2) =>
              (Some (sendError (reqID req) (AppErrors.Code appErr)
                       (AppErrors.Message appErr) (errorText env appErr)), w2)
          | (Panic, w2) => (None, w2)
          | (Ok result, w2) => (Some (sendSuccess (reqID req) result), w2)
          end
    end.

Definition ServeHTTP (env : Env) (r : HTTPRequest) : Trace -> Served :=
  fun w =>
    if negb (String.eqb (httpMethod r) MethodPost) then
      (Some (sendError "unknown" InvalidRequest "Only POST method is supported"
               ""), w)
    else
      match decodeRequest env (Body r) with
      | inl err => (Some (sendError "" ParseError "Parse error" err), w)
      | inr req =>
          if negb (String.eqb (reqJSONRPC req) "2.0") then
            (Some (sendError (reqID req) InvalidRequest "Invalid Request"
                     "jsonrpc must be 2.0"), w)
          else if String.eqb (Method req) "message/send" then
            handleMessageSend env req w
          else
            (Some (sendError (reqID req) MethodNotFound "Method not found"
                     ("Method " ++ Method req ++ " not supported")), w)
      end.

End A2AHandler.

Import FlashcardService A2AHandler.

(** ** [main.go]: the upload endpoint *)
Module Main.

(** The file of the form field [pdf] as [r.FormFile] gives it: the size
    that its header declares, and what the one call [file.Read pdfData]
    does, by the bytes it delivers (a reader fills at most the buffer) and
    the error it returns. *)
Record FormFile : Type := mkFormFile {
  Size : nat;
  delivered : list byte;
  readError : option string
}.

(** An upload request, as far as the handler reads it: the verb, the
    error of [r.ParseMultipartForm (10 << 20)], and [r.FormFile "pdf"]. *)
Record UploadRequest : Type := mkUploadRequest {
  uploadMethod : string;
  parseFormError : option string;
  pdfFormFile : string + FormFile
}.

Inductive UploadBody : Type :=
| PlainText (text : string)
| FlashcardsJSON (set : FlashcardSet).

Record UploadWrite : Type := mkUploadWrite {
  uploadStatus : Z;
  uploadContentType : string;
  uploadBody : UploadBody
}.

(** [http.Error]: a plain-text body, the message on a line. *)
Definition httpError (error : string) (code : Z) : UploadWrite :=
  mkUploadWrite code "text/plain; charset=utf-8" (PlainText (error ++ nl)).

(** [pdfData] after [make([]byte, header.Size)] and the one [file.Read]:
    the bytes delivered, then the zero bytes the call left untouched. *)
Definition readBuffer (file : FormFile) : list byte :=
  let got := firstn (Size file) (delivered file) in
  (got ++ repeat x00 (Size file - List.length got))%list.

Definition uploadHandler (env : Env) (r : UploadRequest)
  : Trace -> option UploadWrite * Trace :=
  fun w =>
    if negb (String.eqb (uploadMethod r) MethodPost) then
      (Some (httpError "Only POST method is allowed" 405), w)
    else
      match parseFormError r with
      | Some _ => (Some (httpError "Failed to parse multipart form" 400), w)
      | None =>
          match pdfFormFile r with
          | inl _ =>
              (Some (httpError "Failed to get PDF file from form" 400), w)
          | inr file =>
              let pdfData := readBuffer file in
              match readError file with
              | Some _ => (Some (httpError "Failed to read PDF file" 500), w)
              | None =>
                  match GenerateFromPDFData env pdfData w with
                  | (Fail err, w1) =>
                      (Some (httpError ("Failed to generate flashcards: "
                                        ++ errorText env err) 500), w1)
                  | (Panic, w1) => (None, w1)
                  | (Ok flashcards, w1) =>
                      (Some (mkUploadWrite 200 "application/json"
                               (FlashcardsJSON flashcards)), w1)
                  end
              end
          end
      end.

End Main.

Import Main.

(** ** The behaviour as the specification words it

    These definitions follow the sentences of the specification, to be
    compared with the functions above, which follow the code. *)
Module Spec.

(** "Discard any block that does not contain both the literal substrings
    Q: and A:". *)
Definition hasBoth (block : string) : bool :=
  Contains block "Q:" && Contains block "A:".

(** The field of a prefix in a block: the trimmed remainder of the last
    trimmed line that has the prefix (later lines overwrite earlier ones),
    empty when no line has it. *)
Definition fieldOf (prefix : string) (lines : list string) : string :=
  match find (fun l => HasPrefix l prefix) (List.rev (map TrimSpace lines)) with
  | Some l => TrimSpace (drop (String.length prefix) l)
  | None => ""
  end.

(** "A block yields a flashcard only if both question and answer are
    non-empty after trimming; topic defaults to Concept". *)
Definition cardOf (block : string) : list Flashcard :=
  let lines := Split block nl in
  let q := fieldOf "Q:" lines in
  let a := fieldOf "A:" lines in
  let t := fieldOf "T:" lines in
  if String.eqb q "" || String.eqb a "" then []
  else [mkFlashcard q a (if String.eqb t "" then "Concept" else t)].

(** The cards of a response, in block order. *)
Definition parse (response : string) : list Flashcard :=
  flat_map cardOf (filter hasBoth (Split response (nl ++ nl))).

Definition startsWith (s prefix : string) : Prop :=
  exists rest, s = prefix ++ rest.

(** [s] contains [sub] up to the case of ASCII letters. *)
Definition containsFold (s sub : string) : Prop :=
  exists pre mid post, s = pre ++ mid ++ post /\ ToLower mid = ToLower sub.

(** A stripped token that the PDF-URL detection accepts. *)
Definition isPDFURL (cleaned : string) : Prop :=
  startsWith cleaned "http" /\ containsFold cleaned ".pdf".

Definition strip (word : string) : string := TrimRight word ".,;".

(** The string has no newline byte. *)
Definition noNewline (s : string) : Prop := Contains s nl = false.

(** A field that trimming leaves as it is, and that is not empty. *)
Definition trimmed (s : string) : Prop := TrimSpace s = s /\ s <> "".

(** A card that the rendering shows on lines of its own. *)
Definition cardOnLines (c : Flashcard) : Prop :=
  noNewline (Question c) /\ noNewline (Answer c) /\ noNewline (Topic c).

(** The first part of kind text of a message is [part]. *)
Definition firstTextPart (msg : Message) (part : MessagePart) : Prop :=
  exists before after,
    Parts msg = (before ++ part :: after)%list
    /\ Forall (fun p => partKind p <> KindText) before
    /\ partKind part = KindText.

(** A part of kind data whose payload is a mapping with content type
    application/pdf and the string [s] under data. *)
Definition inlinePDFPart (part : MessagePart) (s : string) : Prop :=
  partKind part = KindData
  /\ exists dataMap,
       Data part = AMap dataMap
       /\ mapGet dataMap "contentType" = Some (AString "application/pdf")
       /\ mapGet dataMap "data" = Some (AString s).

(** *** The layout of the rendered text *)

Definition blankLine : string := nl ++ nl.

(** The blocks of a rendering, each followed by a blank line. *)
Fixpoint renderBlocks (blocks : list string) : string :=
  match blocks with
  | [] => ""
  | b :: rest => b ++ blankLine ++ renderBlocks rest
  end.

Definition cardLabel (card : Flashcard) (i : Z) : string :=
  "**Card " ++ itoa (i + 1) ++ "**"
  ++ (if negb (String.eqb (Topic card) "") then " (" ++ Topic card ++ ")"
      else "").

(** The block of the card of index [i]: label, question and answer
    lines. *)
Definition cardBlock (card : Flashcard) (i : Z) : string :=
  cardLabel card i ++ nl ++ ("Q: " ++ Question card) ++ nl
  ++ ("A: " ++ Answer card).

Fixpoint cardBlocks (cards : list Flashcard) (i : Z) : list string :=
  match cards with
  | [] => []
  | card :: rest => cardBlock card i :: cardBlocks rest (i + 1)
  end.

Definition titleBlock (set : FlashcardSet) : string := "# " ++ Title set.

Definition summaryBlock (set : FlashcardSet) : string :=
  "Generated " ++ itoa (TotalCards set) ++ " flashcards from: " ++ Source set.

(** A block that holds no blank line and does not end in a newline. *)
Definition oneBlock (b : string) : Prop := Contains (b ++ nl) blankLine = false.

(** What a block adds to the cards. *)
Definition kept (block : string) : list Flashcard :=
  if hasBoth block then cardOf block else [].

Definition pairOf (c : Flashcard) : string * string := (Question c, Answer c).

(** A card ready for the rendering: every field on one line, question and
    answer trimmed and not empty. *)
Definition renderable (c : Flashcard) : Prop :=
  cardOnLines c /\ trimmed (Question c) /\ trimmed (Answer c).

(** The card that re-parsing gives back: the topic is not on a line of its
    own in the rendering, so it comes back as the default. *)
Definition reparsed (c : Flashcard) : Flashcard :=
  mkFlashcard (Question c) (Answer c) "Concept".

(** *** White space at the ends of a string *)

Definition startsSpace : string -> bool :=
  startsRune isAsciiSpace isSpace2 isSpace3.

(** Does a white-space rune end the string whose reverse is given? *)
Definition endsSpaceRev : string -> bool :=
  startsRune isAsciiSpace (fun a b => isSpace2 b a)
             (fun a b c => isSpace3 c b a).

(** An ASCII byte other than white space. *)
Definition plain (c : ascii) : Prop :=
  (byteOf c < 128)%N /\ isAsciiSpace c = false.

End Spec.

(** ** Vocabulary for the properties of the rest of the code *)
Module Props.

(** [piece] occurs in [s]. *)
Definition occursIn (piece s : string) : Prop :=
  exists a b, s = a ++ piece ++ b.

(** The plain text a page adds to the extracted text. *)
Definition pageText (page : PdfPage) : string :=
  match page with
  | PagePlainText (inr text) => text
  | _ => ""
  end.

(** The page is null or its text extracts. *)
Definition readable (page : PdfPage) : Prop :=
  match page with
  | PagePlainText (inl _) => False
  | _ => True
  end.

Fixpoint concatTexts (pages : list PdfPage) : string :=
  match pages with
  | [] => ""
  | page :: rest => pageText page ++ concatTexts rest
  end.

(** A field as the parser leaves it: not empty, left as it is by
    trimming, without newline. *)
Definition cleanField (s : string) : Prop :=
  s <> "" /\ TrimSpace s = s /\ Spec.noNewline s.

Definition cleanCard (c : Flashcard) : Prop :=
  cleanField (Question c) /\ cleanField (Answer c) /\ cleanField (Topic c).

(** The bytes start with the PDF signature. *)
Definition hasPDFSignature (data : list byte) : Prop :=
  exists rest, data = (list_byte_of_string "%PDF" ++ rest)%list.

(** The response is one of the two shapes of JSON-RPC: a result and no
    error, or an error and no result. *)
Definition resultXorError (response : JSONRPCResponse) : Prop :=
  (exists result, Result response = Some result /\ Error response = None)
  \/ (exists err, Result response = None /\ Error response = Some err).

(** The code of the error of a response, if it has one. *)
Definition errorCodeOf (wr : HTTPWrite) : option Z :=
  match Error (written wr) with
  | Some err => Some (errCode err)
  | None => None
  end.

(** No part of the message is of the kind. *)
Definition noPartOfKind (kind : string) (msg : Message) : Prop :=
  Forall (fun p => partKind p <> kind) (Parts msg).

(** The last byte of the string is a newline. *)
Fixpoint endsWithNewline (s : string) : bool :=
  match s with
  | "" => false
  | String c "" => Ascii.eqb LF c
  | String _ r => endsWithNewline r
  end.

(** At most one prompt was sent between two traces. *)
Definition atMostOnePrompt (w w' : Trace) : Prop :=
  prompts w' = prompts w \/ exists p, prompts w' = (prompts w ++ [p])%list.

(** Exactly one prompt was sent between two traces. *)
Definition onePrompt (w w' : Trace) : Prop :=
  exists p, prompts w' = (prompts w ++ [p])%list.

(** What one generation does to the trace: no identifier is drawn; a set
    comes with one prompt and one reading of the clock, anything else
    with at most one prompt and no reading. *)
Definition generationEffect {A : Type} (w : Trace) (r : Outcome A * Trace)
  : Prop :=
  uuids (snd r) = uuids w
  /\ match fst r with
     | Ok _ => ticks (snd r) = S (ticks w) /\ onePrompt w (snd r)
     | _ => ticks (snd r) = ticks w /\ atMostOnePrompt w (snd r)
     end.

(** A byte of the base64 alphabet, padding included. *)
Definition base64Byte (c : ascii) : bool :=
  let b := byteOf c in
  (N.leb 65 b && N.leb b 90) || (N.leb 97 b && N.leb b 122)
  || (N.leb 48 b && N.leb b 57) || N.eqb b 43 || N.eqb b 47 || N.eqb b 61.

Fixpoint allBase64 (s : string) : bool :=
  match s with
  | "" => true
  | String c r => base64Byte c && allBase64 r
  end.

End Props.

(** ** Concrete collaborators and inputs *)
Module Examples.

Definition twoCards : string :=
  "Q: What is 2+2?" ++ nl ++ "A: 4" ++ nl ++ "T: Math" ++ nl ++ nl
  ++ "Q: What is the capital of France?" ++ nl ++ "A: Paris".

(** A message whose first text part is empty and whose second is not. *)
Definition emptyFirstText : Message :=
  mkMessage KindMessage RoleUser
    [mkMessagePart KindData "" ANil;
     mkMessagePart KindText "" ANil;
     mkMessagePart KindText "Generate flashcards about Go." ANil]
    "msg-001" "task-001" ANil.

Definition pdfPayload (data : string) : Any :=
  AMap [("contentType", AString "application/pdf"); ("data", AString data)].

(** A message with a text part and an inline PDF as second part. *)
Definition inlinePDF : Message :=
  mkMessage KindMessage RoleUser
    [mkMessagePart KindText "Make cards from the attachment" ANil;
     mkMessagePart KindData "" (pdfPayload "JVBERi0xLjQK")]
    "msg-002" "" ANil.

(** A message with two inline PDFs. *)
Definition twoInlinePDFs : Message :=
  mkMessage KindMessage RoleUser
    [mkMessagePart KindText "Make cards from the attachments" ANil;
     mkMessagePart KindData "" (pdfPayload "AAAA");
     mkMessagePart KindData "" (pdfPayload "BBBB")]
    "msg-003" "" ANil.

Definition plainText : Message :=
  mkMessage KindMessage RoleUser
    [mkMessagePart KindText "Generate flashcards about basic mathematics." ANil]
    "msg-001" "" ANil.

Definition sendRequest : JSONRPCRequest :=
  mkRequest "2.0" "test-123" "message/send" [("message", AMap [])].

(** Collaborators: the model answers [reply] to every prompt, no network,
    no readable PDF; a body decodes to [sendRequest] and a message object
    to [msg]. *)
Definition env (reply : string) (msg : Message) : Env :=
  mkEnv (fun _ => GetFailed "dial tcp: no route to host")
        (fun _ => inl "not a PDF file: invalid header")
        (fun _ => inr [mkCandidate (Some [reply])])
        (fun _ => "3f2a9c1e-5b7d-4e21-9a10-6c0d2f8b4a77")
        (fun _ => "2025-01-01T00:00:00Z")
        (fun e => AppErrors.Message e)
        (fun _ => inr sendRequest)
        (fun _ => inr msg).

Definition untrimmedSet : FlashcardSet :=
  mkFlashcardSet "Study Flashcards" [mkFlashcard " x" "y" "t"] "user_input"
    "2025-01-01T00:00:00Z" 1.

Definition newlineSourceSet : FlashcardSet :=
  mkFlashcardSet "Study Flashcards" [mkFlashcard "x" "y" "t"]
    ("a" ++ nl ++ "Q: p" ++ nl ++ "A: q")
    "2025-01-01T00:00:00Z" 1.

Definition trimmedSet : FlashcardSet :=
  mkFlashcardSet "Test Flashcards"
    [mkFlashcard "What is 2+2?" "4" "Math";
     mkFlashcard "What is the capital of France?" "Paris" ""]
    "test_source" "2025-01-01T00:00:00Z" 2.

End Examples.

(** ** More collaborators and inputs *)
Module MoreExamples.

Definition pdfBytes : list byte := list_byte_of_string "%PDF-1.4 notes".

Definition threePages : list PdfPage :=
  [PagePlainText (inr "Go is "); PageNull; PagePlainText (inr "a language.")].

Definition brokenPages : list PdfPage :=
  [PagePlainText (inr "Go is "); PageNull;
   PagePlainText (inl "malformed stream"); PagePlainText (inr "lost")].

(** A small web: a PDF, an HTML page under a PDF name, a missing file. *)
Definition web (url : string) : HttpOutcome :=
  if String.eqb url "https://example.com/notes.pdf"
  then GetResponse 200 (inr pdfBytes)
  else if String.eqb url "https://example.com/page.pdf"
  then GetResponse 200 (inr (list_byte_of_string "<html>"))
  else if String.eqb url "https://example.com/gone.pdf"
  then GetResponse 404 (inr [])
  else GetFailed "dial tcp: no route to host".

(** Collaborators over that web: every PDF has the pages [pages], the
    model answers [reply]. *)
Definition envWith (pages : list PdfPage) (reply : string) (msg : Message)
  : Env :=
  mkEnv web
        (fun _ => inr pages)
        (fun _ => inr [mkCandidate (Some [reply])])
        (fun _ => "3f2a9c1e-5b7d-4e21-9a10-6c0d2f8b4a77")
        (fun _ => "2025-01-01T00:00:00Z")
        (fun e => AppErrors.Message e)
        (fun _ => inr Examples.sendRequest)
        (fun _ => inr msg).

(** A model that fails. *)
Definition envDown : Env :=
  mkEnv web
        (fun _ => inr threePages)
        (fun _ => inl "rpc error: code = Unavailable")
        (fun _ => "3f2a9c1e-5b7d-4e21-9a10-6c0d2f8b4a77")
        (fun _ => "2025-01-01T00:00:00Z")
        (fun e => AppErrors.Message e)
        (fun _ => inr Examples.sendRequest)
        (fun _ => inr Examples.plainText).

Definition dataOnly : Message :=
  mkMessage KindMessage RoleUser
    [mkMessagePart KindData "" (Examples.pdfPayload "JVBERi0xLjQK")]
    "msg-004" "" ANil.

Definition urlText : Message :=
  mkMessage KindMessage RoleUser
    [mkMessagePart KindText "Summarise https://example.com/notes.pdf." ANil]
    "msg-005" "task-005" ANil.

(** A message with a text part and, as data string of its inline PDF, the
    bytes of a PDF themselves. *)
Definition rawInlinePDF : Message :=
  mkMessage KindMessage RoleUser
    [mkMessagePart KindText "Make cards from the attachment" ANil;
     mkMessagePart KindData "" (Examples.pdfPayload "%PDF-1.4 notes")]
    "msg-006" "" ANil.

(** A message whose text names a PDF URL and which carries an inline PDF
    as well. *)
Definition urlAndInlinePDF : Message :=
  mkMessage KindMessage RoleUser
    [mkMessagePart KindText "Summarise https://example.com/notes.pdf." ANil;
     mkMessagePart KindData "" (Examples.pdfPayload "JVBERi0xLjQK")]
    "msg-007" "" ANil.

Definition pdfUpload : UploadRequest :=
  mkUploadRequest "POST" None (inr (mkFormFile 14 pdfBytes None)).

Definition htmlUpload : UploadRequest :=
  mkUploadRequest "POST" None
    (inr (mkFormFile 6 (list_byte_of_string "<html>") None)).

(** A file of eight bytes of which the one read delivers four. *)
Definition shortRead : FormFile :=
  mkFormFile 8 (list_byte_of_string "%PDF") None.

End MoreExamples.

(** ** Facts about the string functions *)
Module StringFacts.

Lemma append_nil_r (s : string) : s ++ "" = s.
Proof. induction s as [|c s IH]; simpl; [reflexivity | now rewrite IH]. Qed.

Lemma append_assoc (a b c : string) : (a ++ b) ++ c = a ++ (b ++ c).
Proof. induction a as [|x a IH]; simpl; [reflexivity | now rewrite IH]. Qed.

Lemma length_append (a b : string) :
  String.length (a ++ b) = String.length a + String.length b.
Proof. induction a as [|x a IH]; simpl; [reflexivity | now rewrite IH]. Qed.

Lemma rev_append (a b : string) : rev (a ++ b) = rev b ++ rev a.
Proof.
  induction a as [|x a IH]; simpl.
  - now rewrite append_nil_r.
  - now rewrite IH, append_assoc.
Qed.

Lemma rev_involutive (s : string) : rev (rev s) = s.
Proof.
  induction s as [|c s IH]; simpl; [reflexivity |].
  now rewrite rev_append, IH.
Qed.

Lemma length_rev (s : string) : String.length (rev s) = String.length s.
Proof.
  induction s as [|c s IH]; simpl; [reflexivity |].
  rewrite length_append, IH; simpl; lia.
Qed.

Lemma rev_eq_nil (s : string) : rev s = "" -> s = "".
Proof.
  intros H. apply (f_equal String.length) in H.
  rewrite length_rev in H. destruct s; [reflexivity | discriminate].
Qed.

(** *** Prefixes and substrings *)

Lemma HasPrefix_app (p r : string) : HasPrefix (p ++ r) p = true.
Proof.
  induction p as [|c p IH]; simpl; [now destruct r |].
  now rewrite Ascii.eqb_refl, IH.
Qed.

Lemma HasPrefix_inv (s p : string) :
  HasPrefix s p = true -> s = p ++ drop (String.length p) s.
Proof.
  revert s; induction p as [|c p IH]; intros s H; simpl.
  - reflexivity.
  - destruct s as [|d s]; simpl in H; [discriminate |].
    apply andb_true_iff in H as [Hc Hp].
    apply Ascii.eqb_eq in Hc; subst d.
    simpl. f_equal. now apply IH.
Qed.

Lemma HasPrefix_spec (s p : string) :
  HasPrefix s p = true <-> exists rest, s = p ++ rest.
Proof.
  split.
  - intros H. eexists. now apply HasPrefix_inv.
  - intros [rest ->]. apply HasPrefix_app.
Qed.

Lemma HasPrefix_cons (a b : ascii) (s p : string) :
  HasPrefix (String b s) (String a p) = Ascii.eqb a b && HasPrefix s p.
Proof. reflexivity. Qed.

Lemma Contains_unfold (s sub : string) :
  Contains s sub
  = HasPrefix s sub
    || match s with "" => false | String _ r => Contains r sub end.
Proof. now destruct s. Qed.

Lemma Contains_spec (s sub : string) :
  Contains s sub = true <-> exists pre post, s = pre ++ sub ++ post.
Proof.
  split.
  - induction s as [|c s IH]; rewrite Contains_unfold; intros H;
      apply orb_true_iff in H as [H | H]; try discriminate.
    + apply HasPrefix_spec in H as [rest ->]. now exists "", rest.
    + apply HasPrefix_spec in H as [rest ->]. now exists "", rest.
    + destruct (IH H) as (pre & post & ->).
      now exists (String c pre), post.
  - intros (pre & post & ->).
    induction pre as [|c pre IH].
    + rewrite Contains_unfold. change ("" ++ sub ++ post) with (sub ++ post).
      now rewrite HasPrefix_app.
    + change (String c pre ++ sub ++ post)
        with (String c (pre ++ sub ++ post)).
      rewrite Contains_unfold; cbv beta iota.
      rewrite IH. apply orb_true_r.
Qed.

(** *** Lower-casing *)

Lemma ToLower_append (a b : string) : ToLower (a ++ b) = ToLower a ++ ToLower b.
Proof. induction a as [|c a IH]; simpl; [reflexivity | now rewrite IH]. Qed.

Lemma ToLower_split (s a b : string) :
  ToLower s = a ++ b ->
  exists a' b', s = a' ++ b' /\ ToLower a' = a /\ ToLower b' = b.
Proof.
  revert s; induction a as [|c a IH]; intros s H; simpl in H.
  - now exists "", s.
  - destruct s as [|d s]; simpl in H; [discriminate |].
    injection H as Hc H.
    destruct (IH s H) as (a' & b' & -> & Ha & Hb).
    exists (String d a'), b'. simpl. now rewrite Hc, Ha, Hb.
Qed.

(** [Contains (ToLower s) sub], the test the code makes, is containment up
    to case for a lower-case [sub]. *)
Lemma Contains_ToLower (s sub : string) :
  ToLower sub = sub ->
  Contains (ToLower s) sub = true <-> Spec.containsFold s sub.
Proof.
  intros Hsub. unfold Spec.containsFold. rewrite Contains_spec, Hsub. split.
  - intros (pre & post & H).
    apply ToLower_split in H as (pre' & rest & -> & Hpre & H).
    apply ToLower_split in H as (mid & post' & -> & Hmid & Hpost).
    now exists pre', mid, post'.
  - intros (pre & mid & post & -> & Hmid).
    exists (ToLower pre), (ToLower post).
    now rewrite !ToLower_append, Hmid.
Qed.

End StringFacts.

(** ** Facts about trimming *)
Module TrimFacts.

Import StringFacts Spec.

Section RuneFacts.
Variable p1 : ascii -> bool.
Variable p2 : ascii -> ascii -> bool.
Variable p3 : ascii -> ascii -> ascii -> bool.

Lemma dropRunes_length_bound (n : nat) :
  forall s, String.length s <= n ->
            String.length (dropRunes p1 p2 p3 s) <= String.length s.
Proof.
  induction n as [| n IH]; intros s Hn.
  - destruct s; [simpl; lia | simpl in Hn; lia].
  - destruct s as [| c0 r0]; [simpl; lia |].
    cbn [dropRunes]. simpl in Hn.
    destruct (p1 c0).
    { specialize (IH r0 ltac:(lia)). simpl; lia. }
    destruct r0 as [| c1 r1]; [lia |]. simpl in Hn.
    destruct (p2 c0 c1).
    { specialize (IH r1 ltac:(lia)). simpl; lia. }
    destruct r1 as [| c2 r2]; [lia |]. simpl in Hn.
    destruct (p3 c0 c1 c2); [| lia].
    specialize (IH r2 ltac:(lia)). simpl; lia.
Qed.

Lemma dropRunes_length (s : string) :
  String.length (dropRunes p1 p2 p3 s) <= String.length s.
Proof. now apply (dropRunes_length_bound (String.length s)). Qed.

(** Nothing is dropped from a string that no rune of the class starts. *)
Lemma dropRunes_fixed (s : string) :
  startsRune p1 p2 p3 s = false -> dropRunes p1 p2 p3 s = s.
Proof.
  destruct s as [| c0 r0]; [reflexivity |].
  cbn [startsRune dropRunes]. intros H.
  apply orb_false_iff in H as [H1 H]. rewrite H1.
  destruct r0 as [| c1 r1]; [reflexivity |].
  apply orb_false_iff in H as [H2 H]. rewrite H2.
  destruct r1 as [| c2 r2]; [reflexivity |].
  now rewrite H.
Qed.

Lemma dropRunes_shrinks (s : string) :
  startsRune p1 p2 p3 s = true ->
  String.length (dropRunes p1 p2 p3 s) < String.length s.
Proof.
  destruct s as [| c0 r0]; [discriminate |].
  cbn [startsRune dropRunes]. intros H.
  destruct (p1 c0).
  { pose proof (dropRunes_length r0). simpl; lia. }
  destruct r0 as [| c1 r1]; [discriminate |].
  destruct (p2 c0 c1).
  { pose proof (dropRunes_length r1). simpl; lia. }
  destruct r1 as [| c2 r2]; [discriminate |].
  simpl in H. rewrite H.
  pose proof (dropRunes_length r2). simpl; lia.
Qed.

Lemma dropRunes_same_length (s : string) :
  String.length (dropRunes p1 p2 p3 s) = String.length s ->
  startsRune p1 p2 p3 s = false.
Proof.
  intros H. destruct (startsRune p1 p2 p3 s) eqn:E; [| reflexivity].
  apply dropRunes_shrinks in E. lia.
Qed.
End RuneFacts.

(** A string that trimming leaves as it is has no white-space rune at
    either end. *)
Lemma trimmed_ends (s : string) :
  TrimSpace s = s -> startsSpace s = false /\ endsSpaceRev (rev s) = false.
Proof.
  unfold TrimSpace, TrimRightSpace, TrimLeftSpace, dropRunesRev. intros H.
  pose proof (f_equal String.length H) as HL. rewrite length_rev in HL.
  pose proof (dropRunes_length isAsciiSpace isSpace2 isSpace3 s) as H1.
  pose proof (dropRunes_length isAsciiSpace (fun a b => isSpace2 b a)
                (fun a b c => isSpace3 c b a)
                (rev (dropRunes isAsciiSpace isSpace2 isSpace3 s))) as H2.
  rewrite length_rev in H2.
  assert (Hs : startsSpace s = false).
  { apply dropRunes_same_length. lia. }
  split; [exact Hs |].
  apply dropRunes_same_length.
  rewrite (dropRunes_fixed _ _ _ _ Hs) in HL. now rewrite length_rev.
Qed.

Lemma TrimSpace_fixed (s : string) :
  startsSpace s = false -> endsSpaceRev (rev s) = false -> TrimSpace s = s.
Proof.
  intros H1 H2. unfold TrimSpace, TrimRightSpace, TrimLeftSpace, dropRunesRev.
  rewrite (dropRunes_fixed _ _ _ _ H1), (dropRunes_fixed _ _ _ _ H2).
  apply rev_involutive.
Qed.

(** *** Bytes that belong to no multi-byte white-space rune *)

Lemma isSpace2_ascii_l (c c1 : ascii) :
  (byteOf c < 128)%N -> isSpace2 c c1 = false.
Proof.
  intros H. unfold isSpace2, isByte.
  destruct (N.eqb_spec (byteOf c) 194); [lia | reflexivity].
Qed.

Lemma isSpace3_ascii_l (c c1 c2 : ascii) :
  (byteOf c < 128)%N -> isSpace3 c c1 c2 = false.
Proof.
  intros H. unfold isSpace3, isByte.
  destruct (N.eqb_spec (byteOf c) 225); [lia |].
  destruct (N.eqb_spec (byteOf c) 226); [lia |].
  destruct (N.eqb_spec (byteOf c) 227); [lia | reflexivity].
Qed.

Lemma isSpace3_ascii_m (c0 c c2 : ascii) :
  (byteOf c < 128)%N -> isSpace3 c0 c c2 = false.
Proof.
  intros H. unfold isSpace3, isByte.
  destruct (N.eqb_spec (byteOf c) 154); [lia |].
  destruct (N.eqb_spec (byteOf c) 128); [lia |].
  destruct (N.eqb_spec (byteOf c) 129); [lia |].
  rewrite !andb_false_r. reflexivity.
Qed.

Lemma startsSpace_plain (c : ascii) (s : string) :
  plain c -> startsSpace (String c s) = false.
Proof.
  intros [Hc Hs]. unfold startsSpace. cbn [startsRune]. rewrite Hs.
  destruct s as [| c1 [| c2 r]];
    now rewrite ?isSpace2_ascii_l, ?isSpace3_ascii_l.
Qed.

(** Text in front of a non-empty string, ending in an ASCII byte, does not
    change whether a white-space rune ends it. *)
Lemma endsSpaceRev_app (y x : string) (c : ascii) :
  y <> "" -> (byteOf c < 128)%N ->
  endsSpaceRev y = false -> endsSpaceRev (y ++ String c x) = false.
Proof.
  intros Hy Hc. unfold endsSpaceRev.
  destruct y as [| c0 [| c1 [| c2 r]]]; [contradiction | | |];
    cbn [startsRune append]; intros H.
  - rewrite orb_false_r in H. rewrite H.
    rewrite (isSpace2_ascii_l c c0 Hc).
    destruct x; [reflexivity |]. now rewrite isSpace3_ascii_m.
  - apply orb_false_iff in H as [H1 H2]. rewrite orb_false_r in H2.
    now rewrite H1, H2, isSpace3_ascii_l.
  - exact H.
Qed.

(** Trimming keeps a leading plain byte. *)
Lemma dropRunesRev_snoc_plain (c : ascii) :
  plain c ->
  forall n y, String.length y <= n ->
  exists z, dropRunesRev (y ++ String c "") = z ++ String c "".
Proof.
  intros [Hc Hs]. unfold dropRunesRev.
  induction n as [| n IH]; intros y Hn.
  - destruct y; [| simpl in Hn; lia]. exists "". simpl. now rewrite Hs.
  - destruct y as [| c0 r0].
    { exists "". simpl. now rewrite Hs. }
    simpl in Hn. cbn [append dropRunes].
    destruct (isAsciiSpace c0); [apply IH; lia |].
    destruct r0 as [| c1 r1]; cbn [append].
    { rewrite (isSpace2_ascii_l c c0 Hc). now exists (String c0 ""). }
    simpl in Hn.
    destruct (isSpace2 c1 c0); [apply IH; lia |].
    destruct r1 as [| c2 r2]; cbn [append].
    { rewrite (isSpace3_ascii_l c c1 c0 Hc).
      now exists (String c0 (String c1 "")). }
    simpl in Hn.
    destruct (isSpace3 c2 c1 c0); [apply IH; lia |].
    now exists (String c0 (String c1 (String c2 r2))).
Qed.

Lemma TrimSpace_plain_head (c : ascii) (s : string) :
  plain c -> exists s', TrimSpace (String c s) = String c s'.
Proof.
  intros Hc. unfold TrimSpace, TrimRightSpace, TrimLeftSpace.
  rewrite (dropRunes_fixed _ _ _ _ (startsSpace_plain c s Hc)).
  cbn [rev].
  destruct (dropRunesRev_snoc_plain c Hc _ (rev s) (le_n _)) as [z ->].
  exists (rev z). now rewrite rev_append.
Qed.

(** A trimmed field keeps its shape behind a label such as "Q: ". *)
Lemma TrimSpace_labelled (c d : ascii) (pre s : string) :
  plain c -> (byteOf d < 128)%N -> trimmed s ->
  TrimSpace (String c (pre ++ String d "") ++ s)
  = String c (pre ++ String d "") ++ s.
Proof.
  intros Hc Hd [Hs Hne].
  apply trimmed_ends in Hs as [_ He].
  apply TrimSpace_fixed.
  - apply startsSpace_plain, Hc.
  - rewrite rev_append. cbn [rev]. rewrite rev_append. cbn [rev append].
    apply endsSpaceRev_app; [| exact Hd | exact He].
    intros E. apply Hne, rev_eq_nil, E.
Qed.

(** One space in front of a trimmed field is trimmed away. *)
Lemma TrimSpace_lead_space (s : string) :
  trimmed s -> TrimSpace (String " " s) = s.
Proof.
  intros [Hs _]. pose proof (trimmed_ends s Hs) as [H1 H2].
  unfold TrimSpace, TrimLeftSpace. cbn [dropRunes].
  change (isAsciiSpace " ") with true. cbv iota.
  rewrite (dropRunes_fixed _ _ _ _ H1).
  unfold TrimRightSpace, dropRunesRev.
  rewrite (dropRunes_fixed _ _ _ _ H2). apply rev_involutive.
Qed.

End TrimFacts.

(** ** Properties of the flashcard service *)
Module ServiceFacts.

Import StringFacts.

(** C9. [generateTitle] maps every string that starts with "http" to
    "Flashcards from PDF" and every other string to "Study Flashcards". *)
Theorem generateTitle_two_way (source : string) :
  (Spec.startsWith source "http" ->
   generateTitle source = "Flashcards from PDF")
  /\ (~ Spec.startsWith source "http" ->
      generateTitle source = "Study Flashcards").
Proof.
  unfold generateTitle, Spec.startsWith.
  destruct (HasPrefix source "http") eqn:E; split; intros H; try reflexivity.
  - exfalso. apply H. now apply HasPrefix_spec.
  - apply HasPrefix_spec in H. congruence.
Qed.

Lemma generateTitle_two_way_witness :
  generateTitle "https://example.com/document.pdf" = "Flashcards from PDF"
  /\ generateTitle "user_input" = "Study Flashcards".
Proof.
  split.
  - apply (proj1 (generateTitle_two_way "https://example.com/document.pdf")).
    exists "s://example.com/document.pdf". reflexivity.
  - apply (proj2 (generateTitle_two_way "user_input")).
    intros [rest H]. discriminate H.
Defined.

Lemma length_zero_iff (s : string) : Nat.eqb (String.length s) 0 = true <-> s = "".
Proof. destruct s; simpl; split; intros H; congruence. Qed.

(** C4. A source text whose trimmed form is empty makes the generation
    fail with InvalidParams (-32602) and the message "no content to
    generate flashcards from", and no prompt is sent to the model: the
    trace of effects is left as it was. *)
Theorem empty_text_rejected (env : Env) (text source : string) (w : Trace) :
  TrimSpace text = "" ->
  generateFlashcards env text source w
  = (Fail (AppErrors.mkAppError (-32602)
             "no content to generate flashcards from" None), w)
  /\ prompts (snd (generateFlashcards env text source w)) = prompts w.
Proof.
  intros H. unfold generateFlashcards. rewrite H. simpl. split; reflexivity.
Qed.

Lemma empty_text_rejected_witness :
  TrimSpace ("  " ++ nl ++ " ") = ""
  /\ generateFlashcards (Examples.env Examples.twoCards Examples.plainText)
       ("  " ++ nl ++ " ") "user_input" start
     = (Fail (AppErrors.mkAppError (-32602)
                "no content to generate flashcards from" None), start).
Proof.
  split; [reflexivity |].
  apply (empty_text_rejected
           (Examples.env Examples.twoCards Examples.plainText)
           ("  " ++ nl ++ " ") "user_input" start).
  reflexivity.
Defined.

(** On any other text the model is asked exactly once, with the prompt
    built from the text. *)
Lemma nonempty_text_prompts (env : Env) (text source : string) (w : Trace) :
  TrimSpace text <> "" ->
  prompts (snd (generateFlashcards env text source w))
  = (prompts w ++ [promptFor text])%list.
Proof.
  intros H. unfold generateFlashcards.
  destruct (Nat.eqb (String.length (TrimSpace text)) 0) eqn:E.
  - apply length_zero_iff in E. contradiction.
  - unfold bind, callModel; simpl.
    destruct (GenerateContent env (promptFor text)) as [err | [| c cs]];
      try reflexivity.
    destruct (Content c) as [[| part parts] |]; try reflexivity.
    destruct (Nat.eqb (List.length (parseFlashcards part)) 0); reflexivity.
Qed.

Lemma generateFlashcards_ok (env : Env) (text source : string) (w w' : Trace)
    (set : FlashcardSet) :
  generateFlashcards env text source w = (Ok set, w') ->
  TotalCards set = Z.of_nat (List.length (Flashcards set))
  /\ Flashcards set <> [].
Proof.
  unfold generateFlashcards.
  destruct (Nat.eqb (String.length (TrimSpace text)) 0); [discriminate |].
  unfold bind, callModel, fail, panic, ret, now; simpl.
  destruct (GenerateContent env (promptFor text)) as [err | [| c cs]];
    try discriminate.
  destruct (Content c) as [[| part parts] |]; try discriminate.
  destruct (parseFlashcards part) as [| card cards] eqn:E; simpl;
    [discriminate |].
  intros H. injection H as <- _. simpl. split; [reflexivity | discriminate].
Qed.

Lemma GenerateFromPDFData_ok (env : Env) (pdfData : list byte) (w w' : Trace)
    (set : FlashcardSet) :
  GenerateFromPDFData env pdfData w = (Ok set, w') ->
  exists text w1, generateFlashcards env text "uploaded_pdf" w1 = (Ok set, w').
Proof.
  unfold GenerateFromPDFData.
  destruct (PDFService.ValidatePDF pdfData); [discriminate |].
  unfold bind.
  destruct (PDFService.ExtractText env pdfData w) as [[text | e |] w1];
    try discriminate.
  intros H. now exists text, w1.
Qed.

Lemma GenerateFromURL_ok (env : Env) (url : string) (w w' : Trace)
    (set : FlashcardSet) :
  GenerateFromURL env url w = (Ok set, w') ->
  exists text w1, generateFlashcards env text url w1 = (Ok set, w').
Proof.
  unfold GenerateFromURL, bind.
  destruct (PDFService.DownloadPDF env url w) as [[pdfData | e |] w1];
    try discriminate.
  destruct (PDFService.ValidatePDF pdfData); [discriminate |].
  destruct (PDFService.ExtractText env pdfData w1) as [[text | e |] w2];
    try discriminate.
  intros H. now exists text, w2.
Qed.

(** C2. Every FlashcardSet that [generateFlashcards], and so
    [GenerateFromText], [GenerateFromPDFData] or [GenerateFromURL],
    returns has [TotalCards] equal to the number of its cards and at least
    one card; and when the text of the model's response parses to no card
    the call fails with InternalError (-32603) and the message "could not
    generate meaningful flashcards from the content". *)
Theorem generated_set_never_empty (env : Env) :
  (forall text source w set w',
      generateFlashcards env text source w = (Ok set, w')
      \/ (source = "user_input" /\ GenerateFromText env text w = (Ok set, w'))
      \/ (exists pdfData, GenerateFromPDFData env pdfData w = (Ok set, w'))
      \/ (exists url, GenerateFromURL env url w = (Ok set, w')) ->
      TotalCards set = Z.of_nat (List.length (Flashcards set))
      /\ Flashcards set <> [])
  /\ (forall text source w candidate candidates part parts,
        TrimSpace text <> "" ->
        GenerateContent env (promptFor text) = inr (candidate :: candidates) ->
        Content candidate = Some (part :: parts) ->
        parseFlashcards part = [] ->
        fst (generateFlashcards env text source w)
        = Fail (AppErrors.mkAppError (-32603)
                  "could not generate meaningful flashcards from the content"
                  None)).
Proof.
  split.
  - intros text source w set w' [H | [[_ H] | [[pdfData H] | [url H]]]].
    + eapply generateFlashcards_ok; eauto.
    + eapply generateFlashcards_ok; eauto.
    + apply GenerateFromPDFData_ok in H as (t & w1 & H).
      eapply generateFlashcards_ok; eauto.
    + apply GenerateFromURL_ok in H as (t & w1 & H).
      eapply generateFlashcards_ok; eauto.
  - intros text source w candidate candidates part parts Ht Hg Hc Hp.
    unfold generateFlashcards.
    destruct (Nat.eqb (String.length (TrimSpace text)) 0) eqn:E.
    + apply length_zero_iff in E. contradiction.
    + unfold bind, callModel; simpl. rewrite Hg, Hc, Hp. reflexivity.
Qed.

Lemma generated_set_never_empty_witness :
  (exists set w',
      generateFlashcards (Examples.env Examples.twoCards Examples.plainText)
        "some notes" "user_input" start = (Ok set, w')
      /\ TotalCards set = Z.of_nat (List.length (Flashcards set))
      /\ Flashcards set <> [])
  /\ fst (generateFlashcards
            (Examples.env "I can not help with that." Examples.plainText)
            "some notes" "user_input" start)
     = Fail (AppErrors.mkAppError (-32603)
               "could not generate meaningful flashcards from the content"
               None).
Proof.
  split.
  - eexists. eexists. split; [lazy; reflexivity |].
    apply (proj1 (generated_set_never_empty
                    (Examples.env Examples.twoCards Examples.plainText))
             "some notes" "user_input" start _
             (mkTrace 0 1 [promptFor "some notes"])).
    left. reflexivity.
  - apply (proj2 (generated_set_never_empty
                    (Examples.env "I can not help with that." Examples.plainText))
             "some notes" "user_input" start
             (mkCandidate (Some ["I can not help with that."])) []
             "I can not help with that." []).
    + discriminate.
    + reflexivity.
    + reflexivity.
    + reflexivity.
Defined.

(** The test that [ExtractPDFURL] makes on a stripped token is the one the
    specification words. *)
Lemma isPDFURL_test (cleaned : string) :
  HasPrefix cleaned "http" && Contains (ToLower cleaned) ".pdf" = true
  <-> Spec.isPDFURL cleaned.
Proof.
  unfold Spec.isPDFURL, Spec.startsWith.
  rewrite andb_true_iff, HasPrefix_spec, Contains_ToLower; reflexivity.
Qed.

Lemma firstPDFURL_none (words : list string) :
  Forall (fun w => ~ Spec.isPDFURL (Spec.strip w)) words ->
  firstPDFURL words = "".
Proof.
  induction 1 as [| word words Hw _ IH]; cbn [firstPDFURL]; [reflexivity |].
  destruct (HasPrefix (TrimRight word ".,;") "http"
            && Contains (ToLower (TrimRight word ".,;")) ".pdf") eqn:E.
  - apply isPDFURL_test in E. contradiction.
  - exact IH.
Qed.

Lemma firstPDFURL_first (before after : list string) (word : string) :
  Forall (fun w => ~ Spec.isPDFURL (Spec.strip w)) before ->
  Spec.isPDFURL (Spec.strip word) ->
  firstPDFURL (before ++ word :: after) = Spec.strip word.
Proof.
  intros Hb Hw. induction Hb as [| w before Hn _ IH]; cbn [app firstPDFURL].
  - apply isPDFURL_test in Hw. unfold Spec.strip in Hw. now rewrite Hw.
  - destruct (HasPrefix (TrimRight w ".,;") "http"
              && Contains (ToLower (TrimRight w ".,;")) ".pdf") eqn:E.
    + apply isPDFURL_test in E. contradiction.
    + exact IH.
Qed.

(** C3. [ExtractPDFURL] goes through the white-space delimited tokens of
    the text in order, strips the trailing '.', ',' and ';' of each, and
    returns the first stripped token that starts with "http" and contains
    ".pdf" up to case; it returns the empty string when no token does.  On
    "See https://example.com/first.pdf and https://example.com/second.pdf"
    that is "https://example.com/first.pdf". *)
Theorem ExtractPDFURL_first_match (text : string) :
  (Forall (fun w => ~ Spec.isPDFURL (Spec.strip w)) (Fields text) ->
   ExtractPDFURL text = "")
  /\ (forall before word after,
        Fields text = (before ++ word :: after)%list ->
        Forall (fun w => ~ Spec.isPDFURL (Spec.strip w)) before ->
        Spec.isPDFURL (Spec.strip word) ->
        ExtractPDFURL text = Spec.strip word)
  /\ ExtractPDFURL
       "See https://example.com/first.pdf and https://example.com/second.pdf"
     = "https://example.com/first.pdf".
Proof.
  split; [| split].
  - apply firstPDFURL_none.
  - intros before word after Hf Hb Hw. unfold ExtractPDFURL. rewrite Hf.
    now apply firstPDFURL_first.
  - reflexivity.
Qed.

Lemma ExtractPDFURL_first_match_witness :
  Fields "Check out https://example.com/file.PDF, it's interesting."
  = (["Check"; "out"] ++ "https://example.com/file.PDF,"
       :: ["it's"; "interesting."])%list
  /\ ExtractPDFURL "Check out https://example.com/file.PDF, it's interesting."
     = "https://example.com/file.PDF"
  /\ ExtractPDFURL "Visit https://example.com for more info." = "".
Proof.
  split; [reflexivity |]. split.
  - apply (proj1 (proj2 (ExtractPDFURL_first_match
             "Check out https://example.com/file.PDF, it's interesting."))
             ["Check"; "out"] "https://example.com/file.PDF,"
             ["it's"; "interesting."] eq_refl).
    + repeat apply Forall_cons; try apply Forall_nil;
        intros H; apply isPDFURL_test in H; vm_compute in H; discriminate H.
    + apply isPDFURL_test. reflexivity.
  - apply (proj1 (ExtractPDFURL_first_match
                    "Visit https://example.com for more info.")).
    set (words := Fields _). vm_compute in words. subst words.
    repeat apply Forall_cons; try apply Forall_nil;
      intros H; apply isPDFURL_test in H; vm_compute in H; discriminate H.
Defined.

(** *** The parser *)

Lemma fieldOf_snoc (prefix : string) (lines : list string) (line : string) :
  Spec.fieldOf prefix (lines ++ [line])
  = if HasPrefix (TrimSpace line) prefix
    then TrimSpace (drop (String.length prefix) (TrimSpace line))
    else Spec.fieldOf prefix lines.
Proof.
  unfold Spec.fieldOf. rewrite map_app.
  change (map TrimSpace [line]) with [TrimSpace line].
  rewrite rev_unit. cbn [find].
  now destruct (HasPrefix (TrimSpace line) prefix).
Qed.

(** No line starts with two of the prefixes. *)
Lemma prefixes_exclusive (line : string) :
  (HasPrefix line "Q:" = true ->
   HasPrefix line "A:" = false /\ HasPrefix line "T:" = false)
  /\ (HasPrefix line "A:" = true -> HasPrefix line "T:" = false).
Proof.
  destruct line as [| c line]; [split; discriminate |].
  rewrite !HasPrefix_cons.
  destruct (Ascii.eqb_spec "Q" c) as [<- | _];
    [split; [split; reflexivity | discriminate] |].
  destruct (Ascii.eqb_spec "A" c) as [<- | _];
    [split; [discriminate | reflexivity] |].
  split; discriminate.
Qed.

(** The loop over the lines leaves in each variable the field of its
    prefix. *)
Lemma scanLines_fields (lines : list string) :
  fold_left scanLine lines (mkCardVars "" "" "")
  = mkCardVars (Spec.fieldOf "Q:" lines) (Spec.fieldOf "A:" lines)
               (Spec.fieldOf "T:" lines).
Proof.
  induction lines as [| line lines IH] using rev_ind; [reflexivity |].
  rewrite fold_left_app, IH. simpl. rewrite !fieldOf_snoc.
  unfold scanLine, TrimPrefix.
  destruct (prefixes_exclusive (TrimSpace line)) as [HQ HA].
  destruct (HasPrefix (TrimSpace line) "Q:") eqn:EQ.
  - destruct (HQ eq_refl) as [-> ->]. reflexivity.
  - destruct (HasPrefix (TrimSpace line) "A:") eqn:EA.
    + rewrite (HA eq_refl). reflexivity.
    + destruct (HasPrefix (TrimSpace line) "T:"); reflexivity.
Qed.

Lemma parseCard_cardOf (flashcards : list Flashcard) (card : string) :
  parseCard flashcards card
  = (flashcards ++ if Spec.hasBoth card then Spec.cardOf card else [])%list.
Proof.
  unfold parseCard, Spec.hasBoth, Spec.cardOf.
  destruct (Contains card "Q:"); simpl; [| now rewrite app_nil_r].
  destruct (Contains card "A:"); simpl; [| now rewrite app_nil_r].
  rewrite scanLines_fields. simpl.
  destruct (String.eqb (Spec.fieldOf "Q:" (Split card nl)) ""); simpl;
    [now rewrite app_nil_r |].
  destruct (String.eqb (Spec.fieldOf "A:" (Split card nl)) ""); simpl;
    [now rewrite app_nil_r | reflexivity].
Qed.

Lemma parseCards_flat_map (cards : list string) (flashcards : list Flashcard) :
  fold_left parseCard cards flashcards
  = (flashcards ++ flat_map Spec.cardOf (filter Spec.hasBoth cards))%list.
Proof.
  revert flashcards; induction cards as [| card cards IH]; intros flashcards;
    simpl; [now rewrite app_nil_r |].
  rewrite IH, parseCard_cardOf.
  destruct (Spec.hasBoth card); simpl.
  - now rewrite app_assoc.
  - now rewrite app_nil_r.
Qed.

(** C1. For every response text the parser returns exactly the cards that
    the specification describes: the text is split on two consecutive
    newlines; a block without both "Q:" and "A:" is discarded; in a block
    kept, the lines are trimmed and the trimmed remainder after "Q:", "A:"
    or "T:" of the last such line is the question, answer or topic; a card
    is made only when question and answer are not empty, with "Concept"
    for an empty topic; the cards come in the order of their blocks. *)
Theorem parseFlashcards_refines (responseText : string) :
  parseFlashcards responseText = Spec.parse responseText.
Proof.
  unfold parseFlashcards, Spec.parse. now rewrite parseCards_flat_map.
Qed.

End ServiceFacts.

(** ** Rendering and parsing back *)
Module RoundTrip.

Import StringFacts TrimFacts ServiceFacts Spec.

(** *** Strings without newline *)

Lemma HasPrefix_nl (c : ascii) (s : string) :
  HasPrefix (String c s) nl = Ascii.eqb LF c.
Proof. unfold nl. rewrite HasPrefix_cons. apply andb_true_r. Qed.

Lemma HasPrefix_blank (c : ascii) (s : string) :
  HasPrefix (String c s) blankLine = Ascii.eqb LF c && HasPrefix s nl.
Proof. reflexivity. Qed.

Lemma noNewline_cons (c : ascii) (s : string) :
  noNewline (String c s) <-> Ascii.eqb LF c = false /\ noNewline s.
Proof.
  unfold noNewline. rewrite Contains_unfold, HasPrefix_nl.
  apply orb_false_iff.
Qed.

Lemma noNewline_app (a b : string) :
  noNewline (a ++ b) <-> noNewline a /\ noNewline b.
Proof.
  induction a as [| c a IH]; cbn [append].
  - split; [intros H; split; [reflexivity | exact H] | now intros [_ H]].
  - rewrite !noNewline_cons, IH. tauto.
Qed.

Lemma noNewline_uint (d : Decimal.uint) :
  noNewline (NilEmpty.string_of_uint d).
Proof.
  induction d; cbn [NilEmpty.string_of_uint];
    [reflexivity | apply noNewline_cons; split; [reflexivity | assumption] ..].
Qed.

Lemma noNewline_itoa (n : Z) : noNewline (itoa n).
Proof.
  unfold itoa, NilZero.string_of_int, NilZero.string_of_uint.
  destruct (Z.to_int n) as [d | d].
  - destruct d; try reflexivity; apply (noNewline_uint (_ d)).
  - apply noNewline_cons. split; [reflexivity |].
    destruct d; try reflexivity; apply (noNewline_uint (_ d)).
Qed.

(** *** Splitting *)

Lemma splitFrom_cons (sep cur r : string) (c : ascii) :
  splitFrom sep 0 cur (String c r)
  = if HasPrefix (String c r) sep
    then cur :: splitFrom sep (String.length sep - 1) "" r
    else splitFrom sep 0 (cur ++ String c "") r.
Proof. reflexivity. Qed.

Lemma append_snoc (cur s : string) (c : ascii) :
  (cur ++ String c "") ++ s = cur ++ String c s.
Proof. now rewrite append_assoc. Qed.

(** A line without newline, followed by a newline, is one piece. *)
Lemma splitFrom_line (x rest cur : string) :
  noNewline x ->
  splitFrom nl 0 cur (x ++ nl ++ rest) = (cur ++ x) :: splitFrom nl 0 "" rest.
Proof.
  revert cur; induction x as [| c x IH]; intros cur Hx.
  - rewrite append_nil_r. reflexivity.
  - apply noNewline_cons in Hx as [Hc Hx]. cbn [append].
    rewrite splitFrom_cons, HasPrefix_nl, Hc.
    rewrite (IH _ Hx), append_snoc. reflexivity.
Qed.

Lemma splitFrom_last (x cur : string) :
  noNewline x -> splitFrom nl 0 cur x = [cur ++ x].
Proof.
  revert cur; induction x as [| c x IH]; intros cur Hx.
  - now rewrite append_nil_r.
  - apply noNewline_cons in Hx as [Hc Hx].
    rewrite splitFrom_cons, HasPrefix_nl, Hc.
    rewrite (IH _ Hx), append_snoc. reflexivity.
Qed.

(** A block, followed by a blank line, is one piece. *)
Lemma splitFrom_block (b rest cur : string) :
  oneBlock b ->
  splitFrom blankLine 0 cur (b ++ blankLine ++ rest)
  = (cur ++ b) :: splitFrom blankLine 0 "" rest.
Proof.
  unfold oneBlock.
  revert cur; induction b as [| c b IH]; intros cur Hb.
  - rewrite append_nil_r. reflexivity.
  - cbn [append] in Hb. rewrite Contains_unfold in Hb.
    apply orb_false_iff in Hb as [Hp Hb].
    cbn [append]. rewrite splitFrom_cons.
    assert (Hq : HasPrefix (String c (b ++ blankLine ++ rest)) blankLine = false).
    { rewrite HasPrefix_blank in Hp |- *.
      destruct (Ascii.eqb LF c); [| reflexivity]. cbn [andb] in Hp |- *.
      destruct b as [| c' b]; cbn [append] in Hp |- *.
      - discriminate Hp.
      - rewrite HasPrefix_nl in Hp |- *. exact Hp. }
    rewrite Hq, (IH _ Hb), append_snoc. reflexivity.
Qed.

Lemma Split_renderBlocks (blocks : list string) :
  Forall oneBlock blocks ->
  Split (renderBlocks blocks) blankLine = (blocks ++ [""])%list.
Proof.
  unfold Split. induction 1 as [| b blocks Hb _ IH]; [reflexivity |].
  cbn [renderBlocks]. rewrite (splitFrom_block _ _ _ Hb), IH. reflexivity.
Qed.

(** *** Blank lines inside blocks *)

Lemma Contains_blank_app (x y : string) :
  noNewline x -> Contains (x ++ y) blankLine = Contains y blankLine.
Proof.
  induction x as [| c x IH]; intros Hx; [reflexivity |].
  apply noNewline_cons in Hx as [Hc Hx]. cbn [append].
  rewrite Contains_unfold, HasPrefix_blank, Hc, IH by exact Hx.
  reflexivity.
Qed.

Lemma Contains_blank_nl (c : ascii) (y : string) :
  Ascii.eqb LF c = false ->
  Contains (nl ++ String c y) blankLine = Contains (String c y) blankLine.
Proof.
  intros Hc. unfold nl at 1. cbn [append].
  rewrite Contains_unfold, HasPrefix_blank, HasPrefix_nl, Hc, andb_false_r.
  reflexivity.
Qed.

Lemma oneBlock_line (x : string) : noNewline x -> oneBlock x.
Proof. intros Hx. unfold oneBlock. now rewrite Contains_blank_app. Qed.

Lemma noNewline_cardLabel (card : Flashcard) (i : Z) :
  noNewline (Topic card) -> noNewline (cardLabel card i).
Proof.
  intros Ht. unfold cardLabel.
  repeat (apply noNewline_app; split); try reflexivity.
  - apply noNewline_itoa.
  - destruct (negb (String.eqb (Topic card) "")); [| reflexivity].
    repeat (apply noNewline_app; split); try reflexivity. exact Ht.
Qed.

(** A line in front of a block that does not start with a newline. *)
Lemma oneBlock_cons_line (l b : string) (c : ascii) :
  noNewline l -> Ascii.eqb LF c = false -> oneBlock (String c b) ->
  oneBlock (l ++ nl ++ String c b).
Proof.
  unfold oneBlock. intros Hl Hc Hb.
  rewrite !append_assoc, (Contains_blank_app _ _ Hl).
  cbn [append] in Hb |- *.
  change (String LF (String c (b ++ nl))) with (nl ++ String c (b ++ nl)).
  now rewrite Contains_blank_nl.
Qed.

Lemma noNewline_labelled (label s : string) :
  noNewline label -> noNewline s -> noNewline (label ++ s).
Proof. intros Hl Hs. apply noNewline_app. now split. Qed.

Lemma oneBlock_cardBlock (card : Flashcard) (i : Z) :
  cardOnLines card -> oneBlock (cardBlock card i).
Proof.
  intros (Hq & Ha & Ht).
  refine (oneBlock_cons_line (cardLabel card i)
            ((": " ++ Question card) ++ nl ++ ("A: " ++ Answer card)) "Q"
            (noNewline_cardLabel card i Ht) eq_refl _).
  refine (oneBlock_cons_line ("Q: " ++ Question card)
            (": " ++ Answer card) "A"
            (noNewline_labelled "Q: " _ eq_refl Hq) eq_refl _).
  apply oneBlock_line. exact (noNewline_labelled "A: " _ eq_refl Ha).
Qed.

(** *** The rendering as blocks *)

Lemma formatCards_render (cards : list Flashcard) :
  forall i builder,
    formatCards cards i builder
    = builder ++ renderBlocks (cardBlocks cards i).
Proof.
  induction cards as [| card cards IH]; intros i builder.
  - simpl. now rewrite append_nil_r.
  - cbn [formatCards cardBlocks renderBlocks]. rewrite IH.
    unfold cardBlock, cardLabel, blankLine.
    destruct (negb (String.eqb (Topic card) ""));
      rewrite !append_assoc; reflexivity.
Qed.

Lemma FormatAsText_render (set : FlashcardSet) :
  FormatAsText set
  = renderBlocks (titleBlock set :: summaryBlock set
                    :: cardBlocks (Flashcards set) 0).
Proof.
  unfold FormatAsText. rewrite formatCards_render.
  cbn [renderBlocks]. unfold titleBlock, summaryBlock, blankLine.
  rewrite !append_assoc. reflexivity.
Qed.

(** *** The blocks parsed back *)

Lemma parse_kept (blocks : list string) :
  flat_map cardOf (filter hasBoth blocks) = flat_map kept blocks.
Proof.
  induction blocks as [| b blocks IH]; [reflexivity |].
  cbn [filter flat_map]. unfold kept at 1.
  destruct (hasBoth b); cbn [flat_map app]; now rewrite IH.
Qed.

Lemma cardOf_no_question (block : string) :
  fieldOf "Q:" (Split block nl) = "" -> cardOf block = [].
Proof. intros H. unfold cardOf. now rewrite H. Qed.

(** A block of one line that starts with a plain byte other than Q makes
    no card. *)
Lemma kept_single_line (c : ascii) (s : string) :
  plain c -> Ascii.eqb "Q" c = false -> noNewline (String c s) ->
  kept (String c s) = [].
Proof.
  intros Hc Hq Hn. unfold kept.
  destruct (hasBoth (String c s)); [| reflexivity].
  apply cardOf_no_question.
  unfold Split. rewrite (splitFrom_last _ _ Hn).
  unfold fieldOf. cbn [map List.rev app find append].
  destruct (TrimSpace_plain_head c s Hc) as [s' ->].
  now rewrite HasPrefix_cons, Hq.
Qed.

Lemma plain_star : plain "*".
Proof. split; reflexivity. Qed.

Lemma Split_cardBlock (card : Flashcard) (i : Z) :
  cardOnLines card ->
  Split (cardBlock card i) nl
  = [cardLabel card i; "Q: " ++ Question card; "A: " ++ Answer card].
Proof.
  intros (Hq & Ha & Ht). unfold Split, cardBlock.
  rewrite (splitFrom_line _ _ _ (noNewline_cardLabel card i Ht)).
  rewrite (splitFrom_line _ _ _ (noNewline_labelled "Q: " _ eq_refl Hq)).
  rewrite (splitFrom_last _ _ (noNewline_labelled "A: " _ eq_refl Ha)).
  reflexivity.
Qed.

Lemma hasBoth_cardBlock (card : Flashcard) (i : Z) :
  hasBoth (cardBlock card i) = true.
Proof.
  unfold hasBoth. apply andb_true_iff. split; apply Contains_spec.
  - exists (cardLabel card i ++ nl),
      (" " ++ Question card ++ nl ++ "A: " ++ Answer card).
    unfold cardBlock. rewrite !append_assoc. reflexivity.
  - exists (cardLabel card i ++ nl ++ "Q: " ++ Question card ++ nl),
      (" " ++ Answer card).
    unfold cardBlock. rewrite !append_assoc. reflexivity.
Qed.

(** The block of a renderable card gives the card back, with the default
    topic. *)
Lemma kept_cardBlock (card : Flashcard) (i : Z) :
  renderable card -> kept (cardBlock card i) = [reparsed card].
Proof.
  intros (Hl & Hq & Ha). unfold kept, cardOf.
  rewrite hasBoth_cardBlock, (Split_cardBlock card i Hl).
  assert (TQ : TrimSpace ("Q: " ++ Question card) = "Q: " ++ Question card).
  { apply (TrimSpace_labelled "Q" " " ":"); [split | | assumption];
      reflexivity. }
  assert (TA : TrimSpace ("A: " ++ Answer card) = "A: " ++ Answer card).
  { apply (TrimSpace_labelled "A" " " ":"); [split | | assumption];
      reflexivity. }
  assert (TL : exists s', TrimSpace (cardLabel card i) = String "*" s').
  { apply (TrimSpace_plain_head "*"), plain_star. }
  destruct TL as [s' TL].
  unfold fieldOf. cbn [map List.rev app]. rewrite TQ, TA, TL.
  cbn [find append HasPrefix Ascii.eqb Bool.eqb andb String.length drop].
  rewrite !(TrimSpace_lead_space _ Hq), !(TrimSpace_lead_space _ Ha).
  destruct Hq as [_ Hq], Ha as [_ Ha].
  apply String.eqb_neq in Hq, Ha. rewrite Hq, Ha. reflexivity.
Qed.

Lemma kept_cardBlocks (cards : list Flashcard) :
  Forall renderable cards ->
  forall i, flat_map kept (cardBlocks cards i ++ [""]) = map reparsed cards.
Proof.
  induction 1 as [| card cards Hc _ IH]; intros i; [reflexivity |].
  cbn [cardBlocks app flat_map map].
  now rewrite (kept_cardBlock card i Hc), IH.
Qed.

Lemma oneBlock_cardBlocks (cards : list Flashcard) :
  Forall renderable cards ->
  forall i, Forall oneBlock (cardBlocks cards i).
Proof.
  induction 1 as [| card cards [Hc _] _ IH]; intros i; constructor.
  - now apply oneBlock_cardBlock.
  - apply IH.
Qed.

(** C5, as the code has it.  When title and source of a FlashcardSet hold
    no newline and every card has question, answer and topic without
    newline, with question and answer left as they are by trimming and not
    empty, parsing the text that [FormatAsText] renders gives back the
    cards in order with the same questions and answers; every topic comes
    back as "Concept". *)
Theorem reparse_rendered (set : FlashcardSet) :
  noNewline (Title set) ->
  noNewline (Source set) ->
  Forall renderable (Flashcards set) ->
  parseFlashcards (FormatAsText set) = map reparsed (Flashcards set)
  /\ map pairOf (parseFlashcards (FormatAsText set))
     = map pairOf (Flashcards set).
Proof.
  intros Ht Hs Hc.
  assert (Htb : noNewline (titleBlock set)).
  { apply (noNewline_labelled "# "); [reflexivity | exact Ht]. }
  assert (Hsb : noNewline (summaryBlock set)).
  { unfold summaryBlock. repeat apply noNewline_labelled;
      try reflexivity; [apply noNewline_itoa | exact Hs]. }
  assert (H : parseFlashcards (FormatAsText set)
              = map reparsed (Flashcards set)).
  { unfold parseFlashcards. rewrite parseCards_flat_map, parse_kept.
    cbn [app]. rewrite FormatAsText_render.
    change (nl ++ nl) with blankLine. rewrite Split_renderBlocks.
    - cbn [app flat_map].
      assert (K1 : kept (titleBlock set) = [])
        by exact (kept_single_line "#" _ (conj eq_refl eq_refl) eq_refl Htb).
      assert (K2 : kept (summaryBlock set) = [])
        by exact (kept_single_line "G" _ (conj eq_refl eq_refl) eq_refl Hsb).
      rewrite K1, K2. cbn [app]. now apply kept_cardBlocks.
    - repeat constructor; try now apply oneBlock_line.
      now apply oneBlock_cardBlocks. }
  split; [exact H |].
  rewrite H, map_map. reflexivity.
Qed.

Lemma reparse_rendered_witness :
  Forall renderable (Flashcards Examples.trimmedSet)
  /\ parseFlashcards (FormatAsText Examples.trimmedSet)
     = [mkFlashcard "What is 2+2?" "4" "Concept";
        mkFlashcard "What is the capital of France?" "Paris" "Concept"].
Proof.
  assert (Hc : Forall renderable (Flashcards Examples.trimmedSet)).
  { repeat constructor; try reflexivity; discriminate. }
  split; [exact Hc |].
  exact (proj1 (reparse_rendered Examples.trimmedSet eq_refl eq_refl Hc)).
Defined.

(** C5 as stated fails: a question with a space in front comes back
    without it, and a source with newlines brings a card of its own. *)
Lemma untrimmed_not_reproduced :
  (Forall (fun c => cardOnLines c
                    /\ TrimSpace (Question c) <> ""
                    /\ TrimSpace (Answer c) <> ""
                    /\ TrimSpace (Topic c) <> "")
          (Flashcards Examples.untrimmedSet)
   /\ map pairOf (parseFlashcards (FormatAsText Examples.untrimmedSet))
      = [("x", "y")]
   /\ map pairOf (parseFlashcards (FormatAsText Examples.untrimmedSet))
      <> map pairOf (Flashcards Examples.untrimmedSet))
  /\ (Forall (fun c => cardOnLines c
                       /\ TrimSpace (Question c) <> ""
                       /\ TrimSpace (Answer c) <> ""
                       /\ TrimSpace (Topic c) <> "")
             (Flashcards Examples.newlineSourceSet)
      /\ map pairOf (parseFlashcards (FormatAsText Examples.newlineSourceSet))
         = [("p", "q"); ("x", "y")]
      /\ map pairOf (parseFlashcards (FormatAsText Examples.newlineSourceSet))
         <> map pairOf (Flashcards Examples.newlineSourceSet)).
Proof.
  split; (split; [| split; [reflexivity | discriminate]]);
    repeat constructor; try reflexivity; discriminate.
Qed.

End RoundTrip.

(** ** Properties of the A2A handler *)
Module HandlerFacts.

Import StringFacts.

Lemma buildTaskResult_spec (env : Env) (flashcards : FlashcardSet)
    (userMsg : Message) (w : Trace) :
  exists result w',
    buildTaskResult env flashcards userMsg w = (Ok result, w')
    /\ ID result
       = (if String.eqb (TaskID userMsg) ""
          then "task-" ++ substring 0 8 (uuidNew env (uuids w))
          else TaskID userMsg)
    /\ State (taskStatus result) = "completed"
    /\ History result = [userMsg; statusMessage (taskStatus result)]
    /\ Role (statusMessage (taskStatus result)) = "agent"
    /\ Parts (statusMessage (taskStatus result))
       = [mkMessagePart "text" (FormatAsText flashcards) ANil]
    /\ exists artifactID,
         Artifacts result
         = [mkArtifact artifactID "flashcardSet"
              [mkMessagePart "data" "" (AFlashcardSet flashcards)]].
Proof.
  unfold buildTaskResult, bind, newUUID, now, ret.
  destruct (String.eqb (TaskID userMsg) ""); simpl;
    do 2 eexists; (split; [reflexivity |]); simpl;
    repeat (split; [reflexivity |]); eexists; reflexivity.
Qed.

Lemma processRequest_ok (env : Env) (input : string) (userMsg : Message)
    (w w' : Trace) (result : TaskResult) :
  processRequest env input userMsg w = (Ok result, w') ->
  exists flashcards w1,
    generateFor env input userMsg w = (Ok flashcards, w1)
    /\ buildTaskResult env flashcards userMsg w1 = (Ok result, w').
Proof.
  unfold processRequest, bind.
  destruct (generateFor env input userMsg w) as [[fs | e |] w1];
    try discriminate.
  intros H. now exists fs, w1.
Qed.

(** C6. For every successful request the TaskResult in the response has
    the task id of the user message when that is not empty and one made
    from a newly drawn UUID otherwise, the state "completed", the history
    of exactly the user message followed by the new agent message (whose
    only part is the rendered text), and exactly one artifact, named
    "flashcardSet", with the generated FlashcardSet as data of its only
    part. *)
Theorem task_result_assembled (env : Env) (req : JSONRPCRequest)
    (w w' : Trace) (wr : HTTPWrite) (result : TaskResult) :
  handleMessageSend env req w = (Some wr, w') ->
  Result (written wr) = Some result ->
  exists userMsg flashcards w0 w1,
    extractMessage env (Params req) w = (Ok userMsg, w0)
    /\ generateFor env (extractUserInput userMsg) userMsg w0
       = (Ok flashcards, w1)
    /\ ID result
       = (if String.eqb (TaskID userMsg) ""
          then "task-" ++ substring 0 8 (uuidNew env (uuids w1))
          else TaskID userMsg)
    /\ State (taskStatus result) = "completed"
    /\ History result = [userMsg; statusMessage (taskStatus result)]
    /\ Role (statusMessage (taskStatus result)) = "agent"
    /\ Parts (statusMessage (taskStatus result))
       = [mkMessagePart "text" (FormatAsText flashcards) ANil]
    /\ exists artifactID,
         Artifacts result
         = [mkArtifact artifactID "flashcardSet"
              [mkMessagePart "data" "" (AFlashcardSet flashcards)]].
Proof.
  unfold handleMessageSend.
  destruct (extractMessage env (Params req) w) as [[userMsg | e |] w0] eqn:Em;
    try (intros H; injection H as <- _; discriminate);
    try discriminate.
  destruct (String.eqb (extractUserInput userMsg) "");
    try (intros H; injection H as <- _; discriminate).
  destruct (processRequest env (extractUserInput userMsg) userMsg w0)
    as [[res | e |] w2] eqn:Ep;
    try (intros H; injection H as <- _; discriminate);
    try discriminate.
  intros H Hres. injection H as <- <-. simpl in Hres.
  injection Hres as ->.
  apply processRequest_ok in Ep as (flashcards & w1 & Hg & Hb).
  destruct (buildTaskResult_spec env flashcards userMsg w1)
    as (result' & w'' & Hb' & Hprops).
  rewrite Hb in Hb'. injection Hb' as <- <-.
  exists userMsg, flashcards, w0, w1. auto.
Qed.

Lemma task_result_assembled_witness :
  exists wr w' result,
    handleMessageSend (Examples.env Examples.twoCards Examples.plainText)
      Examples.sendRequest start = (Some wr, w')
    /\ Result (written wr) = Some result
    /\ ID result = "task-3f2a9c1e"
    /\ History result = [Examples.plainText; statusMessage (taskStatus result)].
Proof.
  do 3 eexists. split; [lazy; reflexivity |]. split; [reflexivity |].
  destruct (task_result_assembled
              (Examples.env Examples.twoCards Examples.plainText)
              Examples.sendRequest start _ _ _ eq_refl eq_refl)
    as (userMsg & flashcards & w0 & w1 & Hm & _ & Hid & _ & Hh & _).
  injection Hm as <- _.
  split; [exact Hid | exact Hh].
Defined.

(** C7, as the code has it.  Every response that the message endpoint
    writes has HTTP status 200 and carries the id "unknown" after a verb
    other than POST, the empty id after a body that does not decode, and
    the id of the decoded request otherwise; a verb other than POST is
    answered by the InvalidRequest (-32600) error "Only POST method is
    supported". *)
Theorem every_response_status_200 (env : Env) (r : HTTPRequest) (w : Trace) :
  (forall wr w',
      ServeHTTP env r w = (Some wr, w') ->
      statusCode wr = 200%Z
      /\ respID (written wr)
         = (if String.eqb (httpMethod r) "POST"
            then match decodeRequest env (Body r) with
                 | inl _ => ""
                 | inr req => reqID req
                 end
            else "unknown"))
  /\ (httpMethod r <> "POST" ->
      ServeHTTP env r w
      = (Some (mkHTTPWrite "application/json" 200
                 (mkResponse "2.0" "unknown" None
                    (Some (mkRPCError (-32600)
                             "Only POST method is supported" "")))), w)).
Proof.
  split.
  - intros wr w'. unfold ServeHTTP, MethodPost.
    destruct (String.eqb (httpMethod r) "POST"); simpl.
    + destruct (decodeRequest env (Body r)) as [err | req].
      * intros H; injection H as <- _. split; reflexivity.
      * destruct (negb (String.eqb (reqJSONRPC req) "2.0")).
        { intros H; injection H as <- _. split; reflexivity. }
        destruct (String.eqb (Method req) "message/send").
        2: { intros H; injection H as <- _. split; reflexivity. }
        unfold handleMessageSend.
        destruct (extractMessage env (Params req) w) as [[msg | e |] w0];
          try discriminate;
          try (intros H; injection H as <- _; split; reflexivity).
        destruct (String.eqb (extractUserInput msg) "");
          try (intros H; injection H as <- _; split; reflexivity).
        destruct (processRequest env (extractUserInput msg) msg w0)
          as [[res | e |] w2];
          try discriminate;
          intros H; injection H as <- _; split; reflexivity.
    + intros H; injection H as <- _. split; reflexivity.
  - intros H. unfold ServeHTTP, MethodPost.
    destruct (String.eqb_spec (httpMethod r) "POST") as [E | E];
      [contradiction | reflexivity].
Qed.

Lemma every_response_status_200_witness :
  statusCode
    (mkHTTPWrite "application/json" 200
       (mkResponse "2.0" "unknown" None
          (Some (mkRPCError (-32600) "Only POST method is supported" ""))))
  = 200%Z
  /\ ServeHTTP (Examples.env Examples.twoCards Examples.plainText)
       (mkHTTPRequest "DELETE" "") start
     = (Some (mkHTTPWrite "application/json" 200
                (mkResponse "2.0" "unknown" None
                   (Some (mkRPCError (-32600)
                            "Only POST method is supported" "")))), start).
Proof.
  pose proof (every_response_status_200
                (Examples.env Examples.twoCards Examples.plainText)
                (mkHTTPRequest "DELETE" "") start) as [Hall Hverb].
  assert (Hd : httpMethod (mkHTTPRequest "DELETE" "") <> "POST")
    by discriminate.
  split.
  - exact (proj1 (Hall _ _ (Hverb Hd))).
  - exact (Hverb Hd).
Defined.

(** C7 as stated fails: after a GET the response carries the id "unknown",
    not the empty string. *)
Lemma non_post_id_is_not_empty :
  httpMethod (mkHTTPRequest "GET" "") <> "POST"
  /\ exists wr,
       ServeHTTP (Examples.env Examples.twoCards Examples.plainText)
         (mkHTTPRequest "GET" "") start = (Some wr, start)
       /\ respID (written wr) = "unknown"
       /\ respID (written wr) <> "".
Proof.
  split; [discriminate |].
  eexists. split; [reflexivity |]. split; [reflexivity | discriminate].
Qed.

Lemma firstText_first (before after : list MessagePart) (part : MessagePart) :
  Forall (fun p => partKind p <> KindText) before ->
  partKind part = KindText ->
  firstText (before ++ part :: after) = Text part.
Proof.
  intros Hb Hp. induction Hb as [| p before Hk _ IH]; simpl.
  - now rewrite Hp.
  - destruct (String.eqb_spec (partKind p) KindText); [contradiction | exact IH].
Qed.

(** C10. When the first part of kind text of the message carries the empty
    text, message/send answers with the InvalidParams (-32602) error whose
    data is "No text content found in message", whatever the later parts
    are. *)
Theorem empty_first_text_rejected (env : Env) (req : JSONRPCRequest)
    (w w1 : Trace) (msg : Message) (part : MessagePart) :
  extractMessage env (Params req) w = (Ok msg, w1) ->
  Spec.firstTextPart msg part ->
  Text part = "" ->
  handleMessageSend env req w
  = (Some (mkHTTPWrite "application/json" 200
             (mkResponse "2.0" (reqID req) None
                (Some (mkRPCError (-32602) "Invalid params"
                         "No text content found in message")))), w1).
Proof.
  intros Hm (before & after & Hparts & Hb & Hk) Ht.
  unfold handleMessageSend. rewrite Hm.
  unfold extractUserInput. rewrite Hparts, (firstText_first _ _ _ Hb Hk), Ht.
  reflexivity.
Qed.

Lemma empty_first_text_rejected_witness :
  Spec.firstTextPart Examples.emptyFirstText (mkMessagePart KindText "" ANil)
  /\ handleMessageSend
       (Examples.env Examples.twoCards Examples.emptyFirstText)
       Examples.sendRequest start
     = (Some (mkHTTPWrite "application/json" 200
                (mkResponse "2.0" "test-123" None
                   (Some (mkRPCError (-32602) "Invalid params"
                            "No text content found in message")))), start).
Proof.
  assert (Hf : Spec.firstTextPart Examples.emptyFirstText
                 (mkMessagePart KindText "" ANil)).
  { exists [mkMessagePart KindData "" ANil],
      [mkMessagePart KindText "Generate flashcards about Go." ANil].
    split; [reflexivity |]. split; [| reflexivity].
    constructor; [discriminate | constructor]. }
  split; [exact Hf |].
  exact (empty_first_text_rejected
           (Examples.env Examples.twoCards Examples.emptyFirstText)
           Examples.sendRequest start start Examples.emptyFirstText
           (mkMessagePart KindText "" ANil) eq_refl Hf eq_refl).
Defined.

Lemma partPDFData_inline (part : MessagePart) (s : string) :
  Spec.inlinePDFPart part s ->
  partPDFData part = Some (Some (list_byte_of_string s)).
Proof.
  intros (Hk & dataMap & Hd & Hct & Hdata).
  unfold partPDFData. rewrite Hk, Hd, Hct, Hdata. reflexivity.
Qed.

Lemma firstPDFData_first (before after : list MessagePart) (part : MessagePart)
    (bytes : option (list byte)) :
  Forall (fun p => partPDFData p = None) before ->
  partPDFData part = Some bytes ->
  firstPDFData (before ++ part :: after) = bytes.
Proof.
  intros Hb Hp. induction Hb as [| p before Hn _ IH]; simpl.
  - now rewrite Hp.
  - now rewrite Hn.
Qed.

(** C8, as the code has it.  When a part of kind data has a mapping as
    payload, with content type application/pdf and a string under data,
    and no earlier part of the message already gives PDF bytes, the bytes
    that [extractPDFData] returns are the bytes of that string as it
    stands, one byte for each byte of the string: nothing is decoded.
    They are the bytes that [handleMessageSend] hands to
    [GenerateFromPDFData] for a message/send request with this message,
    when the first text part of the message has a text that is not empty
    and holds no PDF URL; the response is then built from what the PDF
    pipeline makes of these bytes. *)
Theorem inline_pdf_not_decoded (msg : Message)
    (before after : list MessagePart) (part : MessagePart) (s : string) :
  Parts msg = (before ++ part :: after)%list ->
  Forall (fun p => partPDFData p = None) before ->
  Spec.inlinePDFPart part s ->
  extractPDFData msg = Some (list_byte_of_string s)
  /\ string_of_list_byte (list_byte_of_string s) = s
  /\ (forall env input,
        ExtractPDFURL input = "" ->
        generateFor env input msg
        = GenerateFromPDFData env (list_byte_of_string s))
  /\ forall env req w w1,
       extractMessage env (Params req) w = (Ok msg, w1) ->
       extractUserInput msg <> "" ->
       ExtractPDFURL (extractUserInput msg) = "" ->
       handleMessageSend env req w
       = match (flashcards <- GenerateFromPDFData env (list_byte_of_string s) ;;
                buildTaskResult env flashcards msg) w1 with
         | (Fail appErr, w2) =>
             (Some (sendError (reqID req) (AppErrors.Code appErr)
                      (AppErrors.Message appErr) (errorText env appErr)), w2)
         | (Panic, w2) => (None, w2)
         | (Ok result, w2) => (Some (sendSuccess (reqID req) result), w2)
         end.
Proof.
  intros Hparts Hb Hp.
  assert (He : extractPDFData msg = Some (list_byte_of_string s)).
  { unfold extractPDFData. rewrite Hparts.
    apply firstPDFData_first; [exact Hb | now apply partPDFData_inline]. }
  split; [exact He |].
  split; [apply string_of_list_byte_of_string |].
  split.
  - intros env input Hurl. unfold generateFor.
    rewrite Hurl, He. reflexivity.
  - intros env req w w1 Hm Hne Hurl.
    unfold handleMessageSend. rewrite Hm.
    destruct (String.eqb_spec (extractUserInput msg) "") as [E | _];
      [contradiction |].
    unfold processRequest, generateFor. rewrite Hurl, He. reflexivity.
Qed.

Lemma inline_pdf_not_decoded_witness :
  Spec.inlinePDFPart
    (mkMessagePart KindData "" (Examples.pdfPayload "%PDF-1.4 notes"))
    "%PDF-1.4 notes"
  /\ extractPDFData MoreExamples.rawInlinePDF
     = Some (list_byte_of_string "%PDF-1.4 notes")
  /\ extractUserInput MoreExamples.rawInlinePDF
     = "Make cards from the attachment"
  /\ ExtractPDFURL (extractUserInput MoreExamples.rawInlinePDF) = ""
  /\ exists result w',
       handleMessageSend
         (MoreExamples.envWith MoreExamples.threePages Examples.twoCards
            MoreExamples.rawInlinePDF)
         Examples.sendRequest start
       = (Some (sendSuccess "test-123" result), w')
       /\ prompts w' = [promptFor "Go is a language."]
       /\ History result <> [].
Proof.
  assert (Hp : Spec.inlinePDFPart
                 (mkMessagePart KindData ""
                    (Examples.pdfPayload "%PDF-1.4 notes"))
                 "%PDF-1.4 notes").
  { split; [reflexivity |]. eexists. split; [reflexivity |].
    split; reflexivity. }
  assert (Hb : Forall (fun p => partPDFData p = None)
                 [mkMessagePart KindText "Make cards from the attachment" ANil]).
  { constructor; [reflexivity | constructor]. }
  pose proof (inline_pdf_not_decoded MoreExamples.rawInlinePDF
                [mkMessagePart KindText "Make cards from the attachment" ANil]
                [] _ "%PDF-1.4 notes" eq_refl Hb Hp)
    as (He & _ & _ & Hh).
  split; [exact Hp |]. split; [exact He |].
  split; [reflexivity |]. split; [reflexivity |].
  do 2 eexists. split.
  - rewrite (Hh (MoreExamples.envWith MoreExamples.threePages
                   Examples.twoCards MoreExamples.rawInlinePDF)
               Examples.sendRequest start start eq_refl);
      [lazy; reflexivity | discriminate | reflexivity].
  - split; [reflexivity | discriminate].
Defined.

(** C8 as stated fails in three ways.  A later part of that shape is never
    read once an earlier one has given bytes.  No part is read at all when
    the text of the message names a PDF URL: the download goes to the PDF
    pipeline instead.  And a message without a text is answered with an
    error before anything is handed to the PDF pipeline. *)
Lemma later_inline_pdf_ignored :
  (In (mkMessagePart KindData "" (Examples.pdfPayload "BBBB"))
      (Parts Examples.twoInlinePDFs)
   /\ Spec.inlinePDFPart
        (mkMessagePart KindData "" (Examples.pdfPayload "BBBB")) "BBBB"
   /\ extractPDFData Examples.twoInlinePDFs
      = Some (list_byte_of_string "AAAA")
   /\ extractPDFData Examples.twoInlinePDFs
      <> Some (list_byte_of_string "BBBB"))
  /\ Spec.inlinePDFPart
       (mkMessagePart KindData "" (Examples.pdfPayload "JVBERi0xLjQK"))
       "JVBERi0xLjQK"
  /\ (In (mkMessagePart KindData "" (Examples.pdfPayload "JVBERi0xLjQK"))
         (Parts MoreExamples.urlAndInlinePDF)
      /\ extractUserInput MoreExamples.urlAndInlinePDF
         = "Summarise https://example.com/notes.pdf."
      /\ forall env,
           generateFor env (extractUserInput MoreExamples.urlAndInlinePDF)
             MoreExamples.urlAndInlinePDF
           = GenerateFromURL env "https://example.com/notes.pdf")
  /\ (In (mkMessagePart KindData "" (Examples.pdfPayload "JVBERi0xLjQK"))
         (Parts MoreExamples.dataOnly)
      /\ ExtractPDFURL (extractUserInput MoreExamples.dataOnly) = ""
      /\ handleMessageSend
           (MoreExamples.envWith MoreExamples.threePages Examples.twoCards
              MoreExamples.dataOnly)
           Examples.sendRequest start
         = (Some (sendError "test-123" InvalidParams "Invalid params"
                    "No text content found in message"), start)).
Proof.
  split.
  { split; [simpl; auto |].
    split.
    { split; [reflexivity |]. eexists. split; [reflexivity |].
      split; reflexivity. }
    split; [reflexivity | discriminate]. }
  split.
  { split; [reflexivity |]. eexists. split; [reflexivity |].
    split; reflexivity. }
  split.
  { split; [simpl; auto |]. split; [reflexivity |].
    intros env. reflexivity. }
  split; [simpl; auto |].
  split; reflexivity.
Qed.

End HandlerFacts.

(** ** More facts about strings *)
Module MoreStringFacts.

Import StringFacts TrimFacts RoundTrip Spec Props.

Lemma substring_0_length (n : nat) (s : string) :
  String.length (substring 0 n s) = Nat.min n (String.length s).
Proof.
  revert s; induction n as [| n IH]; intros [| c s]; simpl; try reflexivity.
  now rewrite IH.
Qed.

Lemma substring_0_split (n : nat) (s : string) :
  s = substring 0 n s ++ drop n s.
Proof.
  revert s; induction n as [| n IH]; intros [| c s]; simpl; try reflexivity.
  now rewrite <- IH.
Qed.

Lemma substring_0_app (t x : string) :
  substring 0 (String.length t) (t ++ x) = t.
Proof.
  induction t as [| c t IH]; simpl; [now destruct x | now rewrite IH].
Qed.

(** *** Occurrences *)

Lemma occursIn_Contains (piece s : string) :
  occursIn piece s <-> Contains s piece = true.
Proof. symmetry. apply Contains_spec. Qed.

Lemma occursIn_refl (s : string) : occursIn s s.
Proof. exists "", "". simpl. now rewrite append_nil_r. Qed.

Lemma occursIn_trans (a b c : string) :
  occursIn a b -> occursIn b c -> occursIn a c.
Proof.
  intros (p & q & ->) (p' & q' & ->).
  exists (p' ++ p), (q ++ q'). now rewrite !append_assoc.
Qed.

Lemma occursIn_app_r (piece a b : string) :
  occursIn piece b -> occursIn piece (a ++ b).
Proof.
  intros (p & q & ->). exists (a ++ p), q. now rewrite !append_assoc.
Qed.

Lemma occursIn_app_l (piece a b : string) :
  occursIn piece a -> occursIn piece (a ++ b).
Proof.
  intros (p & q & ->). exists p, (q ++ b). now rewrite !append_assoc.
Qed.

Lemma occursIn_cons (piece s : string) (c : ascii) :
  occursIn piece s -> occursIn piece (String c s).
Proof. apply (occursIn_app_r piece (String c "") s). Qed.

(** Every piece of a split occurs in the string split. *)
Lemma splitFrom_pieces (sep s : string) :
  (forall cur piece,
      In piece (splitFrom sep 0 cur s) -> occursIn piece (cur ++ s))
  /\ (forall k piece,
        In piece (splitFrom sep k "" s) -> occursIn piece s).
Proof.
  induction s as [| c r [IH0 IHk]].
  - split.
    + intros cur piece [<- | []]. rewrite append_nil_r. apply occursIn_refl.
    + intros k piece [<- | []]. apply occursIn_refl.
  - assert (H0 : forall cur piece,
               In piece (splitFrom sep 0 cur (String c r)) ->
               occursIn piece (cur ++ String c r)).
    { intros cur piece. rewrite splitFrom_cons.
      destruct (HasPrefix (String c r) sep).
      - intros [<- | H].
        + apply occursIn_app_l, occursIn_refl.
        + apply occursIn_app_r, occursIn_cons, (IHk _ _ H).
      - intros H. apply IH0 in H. now rewrite append_snoc in H. }
    split; [exact H0 |].
    intros [| k] piece H.
    + apply (H0 "" piece H).
    + apply occursIn_cons, (IHk k piece H).
Qed.

Lemma Split_pieces (s sep piece : string) :
  In piece (Split s sep) -> occursIn piece s.
Proof. intros H. apply (proj1 (splitFrom_pieces sep s) "" piece H). Qed.

(** *** Newlines *)

Lemma noNewline_occursIn (piece s : string) :
  occursIn piece s -> noNewline s -> noNewline piece.
Proof.
  intros (a & b & ->) H.
  apply noNewline_app in H as [_ H]. now apply noNewline_app in H as [H _].
Qed.

Lemma noNewline_rev (s : string) : noNewline s -> noNewline (rev s).
Proof.
  induction s as [| c s IH]; intros H; [exact H |].
  apply noNewline_cons in H as [Hc Hs]. cbn [rev].
  apply noNewline_app. split; [now apply IH |].
  apply noNewline_cons. now split.
Qed.

(** The pieces of a split on the newline hold no newline. *)
Lemma splitFrom_lines (s : string) :
  forall cur piece,
    noNewline cur -> In piece (splitFrom nl 0 cur s) -> noNewline piece.
Proof.
  induction s as [| c r IH]; intros cur piece Hc.
  - intros [<- | []]. exact Hc.
  - rewrite splitFrom_cons, HasPrefix_nl.
    destruct (Ascii.eqb LF c) eqn:E.
    + intros [<- | H]; [exact Hc |]. now apply (IH "" piece).
    + apply IH. apply noNewline_app. split; [exact Hc |].
      apply noNewline_cons. now split.
Qed.

(** *** Trimming *)

Section MoreRuneFacts.
Variable p1 : ascii -> bool.
Variable p2 : ascii -> ascii -> bool.
Variable p3 : ascii -> ascii -> ascii -> bool.

(** What is left after the drop ends the string, and no rune of the class
    starts it. *)
Lemma dropRunes_result (n : nat) :
  forall s, String.length s <= n ->
    (exists p, s = p ++ dropRunes p1 p2 p3 s)
    /\ startsRune p1 p2 p3 (dropRunes p1 p2 p3 s) = false.
Proof.
  induction n as [| n IH]; intros s Hn.
  - destruct s; [| simpl in Hn; lia]. split; [now exists "" | reflexivity].
  - destruct s as [| c0 r0]; [split; [now exists "" | reflexivity] |].
    simpl in Hn. cbn [dropRunes].
    destruct (p1 c0) eqn:E1.
    { destruct (IH r0 ltac:(lia)) as [[p Hp] Hs]. split; [| exact Hs].
      exists (String c0 p). simpl. now rewrite <- Hp. }
    destruct r0 as [| c1 r1].
    { split; [now exists "" |]. cbn [startsRune]. now rewrite E1. }
    simpl in Hn. destruct (p2 c0 c1) eqn:E2.
    { destruct (IH r1 ltac:(lia)) as [[p Hp] Hs]. split; [| exact Hs].
      exists (String c0 (String c1 p)). simpl. now rewrite <- Hp. }
    destruct r1 as [| c2 r2].
    { split; [now exists "" |]. cbn [startsRune]. now rewrite E1, E2. }
    simpl in Hn. destruct (p3 c0 c1 c2) eqn:E3.
    { destruct (IH r2 ltac:(lia)) as [[p Hp] Hs]. split; [| exact Hs].
      exists (String c0 (String c1 (String c2 p))). simpl. now rewrite <- Hp. }
    split; [now exists "" |]. cbn [startsRune]. now rewrite E1, E2, E3.
Qed.

Lemma dropRunes_suffix (s : string) : exists p, s = p ++ dropRunes p1 p2 p3 s.
Proof. apply (dropRunes_result (String.length s) s (le_n _)). Qed.

Lemma dropRunes_done (s : string) :
  startsRune p1 p2 p3 (dropRunes p1 p2 p3 s) = false.
Proof. apply (dropRunes_result (String.length s) s (le_n _)). Qed.

(** A rune that starts a string starts every extension of it. *)
Lemma startsRune_app (s x : string) :
  startsRune p1 p2 p3 s = true -> startsRune p1 p2 p3 (s ++ x) = true.
Proof.
  destruct s as [| c0 [| c1 [| c2 r]]]; cbn [startsRune append];
    try discriminate.
  - rewrite orb_false_r. now intros ->.
  - rewrite orb_false_r. intros H.
    apply orb_true_iff in H as [-> | ->]; [reflexivity |].
    rewrite orb_true_l. apply orb_true_r.
  - trivial.
Qed.
End MoreRuneFacts.

(** What [TrimSpace] returns occurs in its argument. *)
Lemma TrimSpace_occursIn (s : string) : occursIn (TrimSpace s) s.
Proof.
  unfold TrimSpace, TrimRightSpace, TrimLeftSpace, dropRunesRev.
  destruct (dropRunes_suffix isAsciiSpace isSpace2 isSpace3 s) as [p Hp].
  set (t := dropRunes isAsciiSpace isSpace2 isSpace3 s) in *.
  destruct (dropRunes_suffix isAsciiSpace (fun a b => isSpace2 b a)
              (fun a b c => isSpace3 c b a) (rev t)) as [q Hq].
  set (u := dropRunes _ _ _ (rev t)) in *.
  exists p, (rev q). rewrite Hp at 1. f_equal.
  rewrite <- (rev_involutive t), Hq, rev_append. reflexivity.
Qed.

(** [TrimSpace] is idempotent. *)
Lemma TrimSpace_idempotent (s : string) :
  TrimSpace (TrimSpace s) = TrimSpace s.
Proof.
  apply TrimSpace_fixed.
  - unfold TrimSpace, TrimRightSpace, TrimLeftSpace, dropRunesRev, startsSpace.
    set (t := dropRunes isAsciiSpace isSpace2 isSpace3 s).
    pose proof (dropRunes_done isAsciiSpace isSpace2 isSpace3 s) as Ht.
    fold t in Ht.
    destruct (dropRunes_suffix isAsciiSpace (fun a b => isSpace2 b a)
                (fun a b c => isSpace3 c b a) (rev t)) as [q Hq].
    set (u := dropRunes _ _ _ (rev t)) in *.
    destruct (startsRune isAsciiSpace isSpace2 isSpace3 (rev u)) eqn:E;
      [| reflexivity].
    apply (startsRune_app _ _ _ _ (rev q)) in E.
    rewrite <- rev_append, <- Hq, rev_involutive in E. congruence.
  - unfold TrimSpace, TrimRightSpace, endsSpaceRev, dropRunesRev.
    rewrite rev_involutive. apply dropRunes_done.
Qed.

Lemma drop_occursIn (n : nat) (s : string) : occursIn (drop n s) s.
Proof.
  exists (substring 0 n s), "". rewrite append_nil_r. apply substring_0_split.
Qed.

Lemma TrimRight_cons (c : ascii) (r cutset : string) :
  TrimRight (String c r) cutset
  = match TrimRight r cutset with
    | "" => if inCutset c cutset then "" else String c ""
    | t => String c t
    end.
Proof. reflexivity. Qed.

(** [TrimRight] is idempotent. *)
Lemma TrimRight_idempotent (s cutset : string) :
  TrimRight (TrimRight s cutset) cutset = TrimRight s cutset.
Proof.
  induction s as [| c s IH]; [reflexivity |].
  rewrite TrimRight_cons. destruct (TrimRight s cutset) as [| d t] eqn:E.
  - destruct (inCutset c cutset) eqn:Ec; [reflexivity |].
    rewrite TrimRight_cons. cbn [TrimRight]. now rewrite Ec.
  - rewrite TrimRight_cons, IH. reflexivity.
Qed.

End MoreStringFacts.

(** ** More properties of the services *)
Module ServiceMore.

Import StringFacts TrimFacts RoundTrip MoreStringFacts ServiceFacts Spec Props.
Import PDFService.

(** *** [truncate] *)

(** X1. With a [maxLen] that is not negative, [truncate] returns the text
    itself when it has at most [maxLen] bytes, and otherwise its first
    [maxLen] bytes followed by "...", [maxLen + 3] bytes in all. *)
Theorem truncate_shape (text : string) (maxLen : Z) :
  (0 <= maxLen)%Z ->
  exists r,
    truncate text maxLen = Ok r
    /\ ((Z.of_nat (String.length text) <= maxLen)%Z -> r = text)
    /\ ((maxLen < Z.of_nat (String.length text))%Z ->
        exists pre rest,
          text = pre ++ rest
          /\ Z.of_nat (String.length pre) = maxLen
          /\ r = pre ++ "..."
          /\ Z.of_nat (String.length r) = (maxLen + 3)%Z).
Proof.
  intros Hm. unfold truncate.
  destruct (Z.leb_spec (Z.of_nat (String.length text)) maxLen) as [Hle | Hgt].
  - exists text. split; [reflexivity |]. split; [reflexivity | lia].
  - destruct (Z.ltb_spec maxLen 0) as [Hneg | _]; [lia |].
    eexists. split; [reflexivity |]. split; [lia |]. intros _.
    exists (substring 0 (Z.to_nat maxLen) text), (drop (Z.to_nat maxLen) text).
    assert (HL : String.length (substring 0 (Z.to_nat maxLen) text)
                 = Z.to_nat maxLen).
    { rewrite substring_0_length. lia. }
    split; [apply substring_0_split |]. split; [lia |].
    split; [reflexivity |]. rewrite length_append, HL. simpl. lia.
Qed.

Lemma truncate_shape_witness :
  (0 <= 20)%Z
  /\ truncate "This is a very long text that needs to be truncated" 20
     = Ok "This is a very long ...".
Proof.
  split; [lia |].
  destruct (truncate_shape
              "This is a very long text that needs to be truncated" 20
              ltac:(lia)) as (r & Hr & _ & Hlong).
  rewrite Hr. f_equal.
  destruct (Hlong ltac:(simpl; lia)) as (pre & rest & Ht & Hl & -> & _).
  f_equal.
  assert (E : pre = substring 0 (String.length pre)
                      "This is a very long text that needs to be truncated").
  { rewrite Ht. symmetry. apply substring_0_app. }
  rewrite E. replace (String.length pre) with 20 by lia. reflexivity.
Defined.

(** X2. [truncate] is idempotent: truncating its result again, to the same
    length, changes nothing. *)
Theorem truncate_idempotent (text r : string) (maxLen : Z) :
  truncate text maxLen = Ok r -> truncate r maxLen = Ok r.
Proof.
  unfold truncate.
  destruct (Z.leb_spec (Z.of_nat (String.length text)) maxLen) as [Hle | Hgt].
  - intros H. injection H as <-.
    destruct (Z.leb_spec (Z.of_nat (String.length text)) maxLen); [| lia].
    reflexivity.
  - destruct (Z.ltb_spec maxLen 0) as [Hneg | Hpos]; [discriminate |].
    intros H. injection H as <-.
    assert (HL : String.length (substring 0 (Z.to_nat maxLen) text)
                 = Z.to_nat maxLen).
    { rewrite substring_0_length. lia. }
    rewrite length_append, HL.
    destruct (Z.leb_spec (Z.of_nat (Z.to_nat maxLen + String.length "..."))
                maxLen) as [H | _]; [simpl in H; lia |].
    destruct (Z.ltb_spec maxLen 0); [lia |].
    rewrite <- HL at 1. now rewrite substring_0_app.
Qed.

Lemma truncate_idempotent_witness :
  truncate "This is a very long text that needs to be truncated" 20
  = Ok "This is a very long ..."
  /\ truncate "This is a very long ..." 20 = Ok "This is a very long ...".
Proof.
  split; [reflexivity |].
  apply (truncate_idempotent
           "This is a very long text that needs to be truncated").
  reflexivity.
Defined.

(** X3. [truncate] panics exactly when [maxLen] is negative, whatever the
    text, the empty one included. *)
Theorem truncate_panics_iff (text : string) (maxLen : Z) :
  truncate text maxLen = Panic <-> (maxLen < 0)%Z.
Proof.
  unfold truncate.
  destruct (Z.leb_spec (Z.of_nat (String.length text)) maxLen) as [Hle | Hgt].
  - split; [discriminate | lia].
  - destruct (Z.ltb_spec maxLen 0); split; try discriminate; try lia; trivial.
Qed.

Lemma truncate_panics_iff_witness :
  (-1 < 0)%Z /\ truncate "" (-1) = Panic.
Proof.
  split; [lia |]. apply (proj2 (truncate_panics_iff "" (-1))). lia.
Defined.

(** *** [ValidatePDF] *)

Lemma bytesHasPrefix_spec (data prefix : list byte) :
  bytesHasPrefix data prefix = true
  <-> exists rest, data = (prefix ++ rest)%list.
Proof.
  revert data; induction prefix as [| a p IH]; intros data.
  - split; [intros _; now exists data | now destruct data].
  - destruct data as [| b d]; simpl.
    + split; [discriminate | intros [rest H]; discriminate H].
    + rewrite andb_true_iff, IH. split.
      * intros [Hb [rest ->]]. apply Byte.byte_dec_bl in Hb. subst.
        now exists rest.
      * intros [rest H]. injection H as -> ->. split; [| now exists rest].
        apply Byte.byte_dec_lb. reflexivity.
Qed.

Lemma ValidatePDF_spec (data : list byte) :
  (ValidatePDF data = None <-> hasPDFSignature data)
  /\ (forall e,
         ValidatePDF data = Some e ->
         AppErrors.Code e = (-32602)%Z
         /\ (AppErrors.Message e = "Invalid PDF: file too small"
             <-> List.length data < 4)).
Proof.
  unfold ValidatePDF, hasPDFSignature.
  destruct (Z.ltb_spec (Z.of_nat (List.length data)) 4) as [Hs | Hl].
  - split.
    + split; [discriminate |]. intros [rest ->].
      rewrite length_app in Hs. simpl in Hs. lia.
    + intros e H. injection H as <-. simpl. split; [reflexivity |].
      split; [lia | reflexivity].
  - destruct (bytesHasPrefix data (list_byte_of_string "%PDF")) eqn:E;
      cbn [negb].
    + split; [| discriminate].
      split; [intros _; now apply bytesHasPrefix_spec | reflexivity].
    + split.
      * split; [discriminate |]. intros H.
        apply bytesHasPrefix_spec in H. congruence.
      * intros e H. injection H as <-. simpl. split; [reflexivity |].
        split; [discriminate | lia].
Qed.

(** X4. [ValidatePDF] accepts exactly the data that start with the four
    bytes "%PDF"; every rejection is an InvalidParams (-32602) error,
    "file too small" exactly for fewer than four bytes. *)
Theorem ValidatePDF_accepts_iff (data : list byte) :
  (ValidatePDF data = None <-> hasPDFSignature data)
  /\ (forall e,
         ValidatePDF data = Some e ->
         AppErrors.Code e = (-32602)%Z
         /\ (AppErrors.Message e = "Invalid PDF: file too small"
             <-> List.length data < 4)).
Proof. exact (ValidatePDF_spec data). Qed.

Lemma ValidatePDF_accepts_iff_witness :
  hasPDFSignature (list_byte_of_string "%PDF-1.4")
  /\ ValidatePDF (list_byte_of_string "%PDF-1.4") = None
  /\ AppErrors.Code
       (NewAppError InvalidParams "Invalid PDF: file too small" None)
     = (-32602)%Z.
Proof.
  assert (H : hasPDFSignature (list_byte_of_string "%PDF-1.4")).
  { exists (list_byte_of_string "-1.4"). reflexivity. }
  split; [exact H |]. split.
  - apply (proj2 (proj1 (ValidatePDF_accepts_iff _)) H).
  - apply (proj2 (ValidatePDF_accepts_iff (list_byte_of_string "abc")) _
             eq_refl).
Defined.

(** Data without the signature stop [GenerateFromPDFData] at once. *)
Lemma GenerateFromPDFData_rejects (env : Env) (data : list byte) (w : Trace) :
  ~ hasPDFSignature data ->
  exists e,
    GenerateFromPDFData env data w = (Fail e, w)
    /\ AppErrors.Code e = (-32602)%Z.
Proof.
  intros H. unfold GenerateFromPDFData.
  destruct (ValidatePDF data) as [e |] eqn:E.
  - exists e. split; [reflexivity |].
    apply (proj2 (ValidatePDF_spec data) e E).
  - apply (proj1 (ValidatePDF_spec data)) in E. contradiction.
Qed.

(** *** [DownloadPDF] *)

Lemma DownloadPDF_spec (env : Env) (url : string) (w : Trace) :
  (forall data w',
      DownloadPDF env url w = (Ok data, w')
      <-> httpGet env url = GetResponse 200 (inr data) /\ w' = w)
  /\ (forall e w',
        DownloadPDF env url w = (Fail e, w') ->
        AppErrors.Code e = (-32603)%Z /\ w' = w)
  /\ fst (DownloadPDF env url w) <> Panic
  /\ (forall status body,
        httpGet env url = GetResponse status body -> status <> 200%Z ->
        DownloadPDF env url w
        = (Fail (AppErrors.mkAppError (-32603)
                   ("Failed to download PDF: status " ++ itoa status) None),
           w)).
Proof.
  unfold DownloadPDF, fail, ret.
  destruct (httpGet env url) as [err | status [err | data]];
    [| destruct (Z.eqb_spec status 200) as [-> | Hs]; cbn [negb] ..];
    repeat match goal with
           | |- _ /\ _ => split
           | |- _ <-> _ => split
           | |- _ <> _ => intro
           | |- forall _, _ => intro
           | H : _ /\ _ |- _ => destruct H
           | H : (_, _) = (_, _) |- _ => inversion H; clear H; subst
           | H : GetResponse _ _ = GetResponse _ _ |- _ =>
               inversion H; clear H; subst
           end;
    simpl in *; try congruence; try reflexivity; try discriminate.
Qed.

(** X5. [DownloadPDF] returns data exactly when the server answers 200 and
    the body reads to the end, and then the body as it is; every other
    outcome is an InternalError (-32603), with the status in the message
    when the answer is not 200.  It never panics and leaves no effect. *)
Theorem DownloadPDF_outcomes (env : Env) (url : string) (w : Trace) :
  (forall data w',
      DownloadPDF env url w = (Ok data, w')
      <-> httpGet env url = GetResponse 200 (inr data) /\ w' = w)
  /\ (forall e w',
        DownloadPDF env url w = (Fail e, w') ->
        AppErrors.Code e = (-32603)%Z /\ w' = w)
  /\ fst (DownloadPDF env url w) <> Panic
  /\ (forall status body,
        httpGet env url = GetResponse status body -> status <> 200%Z ->
        DownloadPDF env url w
        = (Fail (AppErrors.mkAppError (-32603)
                   ("Failed to download PDF: status " ++ itoa status) None),
           w)).
Proof. exact (DownloadPDF_spec env url w). Qed.

Lemma DownloadPDF_outcomes_witness :
  DownloadPDF (MoreExamples.envWith MoreExamples.threePages "" Examples.plainText)
    "https://example.com/notes.pdf" start
  = (Ok MoreExamples.pdfBytes, start)
  /\ DownloadPDF
       (MoreExamples.envWith MoreExamples.threePages "" Examples.plainText)
       "https://example.com/gone.pdf" start
     = (Fail (AppErrors.mkAppError (-32603)
                "Failed to download PDF: status 404" None), start).
Proof.
  split.
  - apply (proj1 (DownloadPDF_outcomes _ "https://example.com/notes.pdf" start)).
    split; reflexivity.
  - apply (proj2 (proj2 (proj2 (DownloadPDF_outcomes
             (MoreExamples.envWith MoreExamples.threePages "" Examples.plainText)
             "https://example.com/gone.pdf" start))) 404%Z (inr [])).
    + reflexivity.
    + discriminate.
Defined.

(** *** [ExtractText] *)

Lemma extractPages_readable (pages : list PdfPage) :
  Forall readable pages ->
  forall pageNum builder w,
    extractPages pages pageNum builder w
    = (Ok (builder ++ concatTexts pages), w).
Proof.
  induction 1 as [| page pages Hp _ IH]; intros pageNum builder w.
  - simpl. now rewrite append_nil_r.
  - destruct page as [| [err | text]]; [| destruct Hp |];
      cbn [extractPages concatTexts pageText]; rewrite IH.
    + reflexivity.
    + now rewrite append_assoc.
Qed.

Lemma extractPages_fails (pre post : list PdfPage) (err : string) :
  Forall readable pre ->
  forall pageNum builder w,
    extractPages (pre ++ PagePlainText (inl err) :: post) pageNum builder w
    = (Fail (NewAppError InternalError
               ("Failed to extract text from page "
                ++ itoa (pageNum + Z.of_nat (List.length pre)))
               (Some err)), w).
Proof.
  induction 1 as [| page pre Hp _ IH]; intros pageNum builder w.
  - cbn [app extractPages List.length]. now rewrite Z.add_0_r.
  - destruct page as [| [e | text]]; [| destruct Hp |];
      cbn [app extractPages]; rewrite IH; cbn [List.length];
      replace (pageNum + 1 + Z.of_nat (List.length pre))%Z
        with (pageNum + Z.of_nat (S (List.length pre)))%Z by lia;
      reflexivity.
Qed.

(** X6. When the reader opens the document, [ExtractText] returns the plain
    texts of the pages joined in page order, null pages adding nothing;
    when the text of a page fails to extract, it fails with InternalError
    naming the number of the first such page, null pages counted. *)
Theorem ExtractText_pages (env : Env) (pdfData : list byte)
    (pages : list PdfPage) (w : Trace) :
  pdfNewReader env pdfData = inr pages ->
  (Forall readable pages ->
   ExtractText env pdfData w = (Ok (concatTexts pages), w))
  /\ (forall pre err post,
        pages = (pre ++ PagePlainText (inl err) :: post)%list ->
        Forall readable pre ->
        ExtractText env pdfData w
        = (Fail (AppErrors.mkAppError (-32603)
                   ("Failed to extract text from page "
                    ++ itoa (Z.of_nat (List.length pre) + 1))
                   (Some err)), w)).
Proof.
  intros Hr. unfold ExtractText. rewrite Hr. split.
  - intros H. now rewrite (extractPages_readable pages H).
  - intros pre err post -> H. rewrite (extractPages_fails pre post err H).
    unfold NewAppError, InternalError.
    now rewrite (Z.add_comm 1).
Qed.

Lemma ExtractText_pages_witness :
  ExtractText (MoreExamples.envWith MoreExamples.threePages "" Examples.plainText)
    MoreExamples.pdfBytes start
  = (Ok "Go is a language.", start)
  /\ ExtractText
       (MoreExamples.envWith MoreExamples.brokenPages "" Examples.plainText)
       MoreExamples.pdfBytes start
     = (Fail (AppErrors.mkAppError (-32603)
                "Failed to extract text from page 3"
                (Some "malformed stream")), start).
Proof.
  split.
  - apply (proj1 (ExtractText_pages
                    (MoreExamples.envWith MoreExamples.threePages ""
                       Examples.plainText)
                    MoreExamples.pdfBytes MoreExamples.threePages start
                    eq_refl)).
    repeat constructor.
  - apply (proj2 (ExtractText_pages
                    (MoreExamples.envWith MoreExamples.brokenPages ""
                       Examples.plainText)
                    MoreExamples.pdfBytes MoreExamples.brokenPages start
                    eq_refl)
             [PagePlainText (inr "Go is "); PageNull] "malformed stream"
             [PagePlainText (inr "lost")] eq_refl).
    repeat constructor.
Defined.

(** *** The URL pipeline *)

(** X7. [GenerateFromURL] stops at the first stage that fails, before the
    model is asked: a download that does not end in data gives
    InternalError (-32603), and downloaded data that do not start with
    "%PDF" give InvalidParams (-32602); the trace of effects is left as it
    was. *)
Theorem GenerateFromURL_stops_early (env : Env) (url : string) (w : Trace) :
  ((forall data, httpGet env url <> GetResponse 200 (inr data)) ->
   exists e,
     GenerateFromURL env url w = (Fail e, w)
     /\ AppErrors.Code e = (-32603)%Z)
  /\ (forall data,
        httpGet env url = GetResponse 200 (inr data) ->
        ~ hasPDFSignature data ->
        exists e,
          GenerateFromURL env url w = (Fail e, w)
          /\ AppErrors.Code e = (-32602)%Z).
Proof.
  destruct (DownloadPDF_spec env url w) as (Hok & Hfail & Hpanic & _).
  unfold GenerateFromURL, bind. split.
  - intros Hget.
    destruct (DownloadPDF env url w) as [[data | e |] w'] eqn:E.
    + destruct (proj1 (Hok data w') eq_refl) as [E' _].
      now apply Hget in E'.
    + destruct (Hfail e w' eq_refl) as [Hc ->]. now exists e.
    + exfalso. apply Hpanic. reflexivity.
  - intros data Hget Hsig.
    rewrite (proj2 (Hok data w) (conj Hget eq_refl)).
    destruct (ValidatePDF data) as [e |] eqn:E.
    + exists e. split; [reflexivity |].
      apply (proj2 (ValidatePDF_spec data) e E).
    + apply (proj1 (ValidatePDF_spec data)) in E. contradiction.
Qed.

Lemma GenerateFromURL_stops_early_witness :
  (exists e,
      GenerateFromURL
        (MoreExamples.envWith MoreExamples.threePages Examples.twoCards
           Examples.plainText)
        "https://example.com/gone.pdf" start = (Fail e, start)
      /\ AppErrors.Code e = (-32603)%Z)
  /\ (exists e,
        GenerateFromURL
          (MoreExamples.envWith MoreExamples.threePages Examples.twoCards
             Examples.plainText)
          "https://example.com/page.pdf" start = (Fail e, start)
        /\ AppErrors.Code e = (-32602)%Z).
Proof.
  split.
  - apply (proj1 (GenerateFromURL_stops_early
                    (MoreExamples.envWith MoreExamples.threePages
                       Examples.twoCards Examples.plainText)
                    "https://example.com/gone.pdf" start)).
    intros data H. discriminate H.
  - apply (proj2 (GenerateFromURL_stops_early
                    (MoreExamples.envWith MoreExamples.threePages
                       Examples.twoCards Examples.plainText)
                    "https://example.com/page.pdf" start)
             (list_byte_of_string "<html>") eq_refl).
    intros [rest H]. discriminate H.
Defined.

End ServiceMore.

(** ** More properties of the generation and of the parser *)
Module GenerationMore.

Import StringFacts TrimFacts RoundTrip MoreStringFacts ServiceFacts Spec Props.

(** The trace after the one call of the model. *)
Lemma generateFlashcards_cases (env : Env) (text source : string) (w : Trace) :
  let asked := mkTrace (uuids w) (ticks w) (prompts w ++ [promptFor text]) in
  (TrimSpace text = ""
   /\ generateFlashcards env text source w
      = (Fail (NewAppError InvalidParams
                 "no content to generate flashcards from" None), w))
  \/ (TrimSpace text <> ""
      /\ ((exists e,
              generateFlashcards env text source w = (Fail e, asked)
              /\ AppErrors.Code e = (-32603)%Z)
          \/ generateFlashcards env text source w = (Panic, asked)
          \/ (exists candidate candidates part parts,
                 GenerateContent env (promptFor text)
                 = inr (candidate :: candidates)
                 /\ Content candidate = Some (part :: parts)
                 /\ parseFlashcards part <> []
                 /\ generateFlashcards env text source w
                    = (Ok (mkFlashcardSet (generateTitle source)
                             (parseFlashcards part) source
                             (timeNow env (ticks w))
                             (Z.of_nat (List.length (parseFlashcards part)))),
                       mkTrace (uuids w) (S (ticks w))
                         (prompts w ++ [promptFor text]))))).
Proof.
  intros asked. unfold generateFlashcards.
  destruct (Nat.eqb (String.length (TrimSpace text)) 0) eqn:E.
  - left. apply length_zero_iff in E. now split.
  - right. split.
    { intros H. rewrite H in E. discriminate E. }
    unfold bind, callModel, fail, panic, ret, now; cbn [fst snd].
    destruct (GenerateContent env (promptFor text)) as [err | [| c cs]].
    + left. eexists. split; reflexivity.
    + left. eexists. split; reflexivity.
    + destruct (Content c) as [[| part parts] |] eqn:Ec.
      * left. eexists. split; reflexivity.
      * destruct (parseFlashcards part) as [| card cards] eqn:Ep.
        { left. eexists. split; reflexivity. }
        right; right. exists c, cs, part, parts.
        repeat split; try reflexivity; try assumption.
        -- rewrite Ep. discriminate.
        -- rewrite Ep. reflexivity.
      * right; left. reflexivity.
Qed.

(** X8. [generateFlashcards] fails with InvalidParams (-32602) exactly on
    a text that is empty after trimming, and then without any effect;
    every other failure is an InternalError (-32603) that comes after
    exactly one prompt, built from the text, was sent to the model. *)
Theorem generateFlashcards_failures (env : Env) (text source : string)
    (w w' : Trace) (e : AppError) :
  generateFlashcards env text source w = (Fail e, w') ->
  (TrimSpace text = "" /\ AppErrors.Code e = (-32602)%Z /\ w' = w)
  \/ (TrimSpace text <> "" /\ AppErrors.Code e = (-32603)%Z
      /\ w' = mkTrace (uuids w) (ticks w) (prompts w ++ [promptFor text])).
Proof.
  intros H.
  destruct (generateFlashcards_cases env text source w)
    as [[Ht Hg] | [Ht [(e' & Hg & Hc) | [Hg | (c & cs & p & ps & _ & _ & _ & Hg)]]]];
    rewrite Hg in H; try discriminate H.
  - left. injection H as <- <-. now repeat split.
  - right. injection H as <- <-. now repeat split.
Qed.

Lemma generateFlashcards_failures_witness :
  generateFlashcards MoreExamples.envDown "some notes" "user_input" start
  = (Fail (NewAppError InternalError "failed to generate flashcards"
             (Some "rpc error: code = Unavailable")),
     mkTrace 0 0 [promptFor "some notes"])
  /\ AppErrors.Code
       (NewAppError InternalError "failed to generate flashcards"
          (Some "rpc error: code = Unavailable")) = (-32603)%Z.
Proof.
  split; [reflexivity |].
  destruct (generateFlashcards_failures MoreExamples.envDown "some notes"
              "user_input" start _ _ eq_refl) as [[H _] | (_ & H & _)].
  - discriminate H.
  - exact H.
Defined.

Lemma text_in_prompt (text : string) : occursIn text (promptFor text).
Proof.
  unfold promptFor. do 15 apply occursIn_app_r.
  apply occursIn_app_l, occursIn_refl.
Qed.

(** X9. When [generateFlashcards] returns a set, exactly one prompt was
    sent, which holds the text word for word, and the clock was read once;
    the cards are the parse of the first part of the first candidate of
    the answer, whatever other candidates and parts there are; source and
    title are the tag given and its title. *)
Theorem generateFlashcards_success (env : Env) (text source : string)
    (w w' : Trace) (set : FlashcardSet) :
  generateFlashcards env text source w = (Ok set, w') ->
  w' = mkTrace (uuids w) (S (ticks w)) (prompts w ++ [promptFor text])
  /\ occursIn text (promptFor text)
  /\ Source set = source
  /\ Title set = generateTitle source
  /\ CreatedAt set = timeNow env (ticks w)
  /\ exists candidate candidates part parts,
       GenerateContent env (promptFor text) = inr (candidate :: candidates)
       /\ Content candidate = Some (part :: parts)
       /\ Flashcards set = parseFlashcards part.
Proof.
  intros H.
  destruct (generateFlashcards_cases env text source w)
    as [[Ht Hg] | [Ht [(e' & Hg & Hc) | [Hg | (c & cs & p & ps & Hgen & Hcon & _ & Hg)]]]];
    rewrite Hg in H; try discriminate H.
  injection H as <- <-. cbn [Source Title CreatedAt Flashcards].
  repeat split; try reflexivity; [apply text_in_prompt |].
  now exists c, cs, p, ps.
Qed.

Lemma generateFlashcards_success_witness :
  exists set,
    generateFlashcards
      (MoreExamples.envWith MoreExamples.threePages Examples.twoCards
         Examples.plainText)
      "some notes" "user_input" start
    = (Ok set, mkTrace 0 1 [promptFor "some notes"])
    /\ Source set = "user_input"
    /\ Title set = "Study Flashcards".
Proof.
  eexists. split; [lazy; reflexivity |].
  destruct (generateFlashcards_success
              (MoreExamples.envWith MoreExamples.threePages Examples.twoCards
                 Examples.plainText)
              "some notes" "user_input" start _ _ eq_refl)
    as (_ & _ & Hs & Ht & _).
  split; [exact Hs | exact Ht].
Defined.

(** *** What the parser returns *)

Lemma cleanField_Concept : cleanField "Concept".
Proof. split; [discriminate |]. split; reflexivity. Qed.

Lemma fieldOf_clean (prefix : string) (lines : list string) :
  Forall noNewline lines ->
  fieldOf prefix lines = "" \/ cleanField (fieldOf prefix lines).
Proof.
  intros Hl. unfold fieldOf.
  destruct (find (fun l => HasPrefix l prefix) (List.rev (map TrimSpace lines)))
    as [l |] eqn:E; [| now left].
  destruct (string_dec (TrimSpace (drop (String.length prefix) l)) "")
    as [H | H]; [now left | right].
  split; [exact H |]. split; [apply TrimSpace_idempotent |].
  apply find_some in E as [E _]. apply in_rev, in_map_iff in E
    as (line & <- & Hin).
  rewrite Forall_forall in Hl.
  apply (noNewline_occursIn _ line); [| now apply Hl].
  eapply occursIn_trans; [apply TrimSpace_occursIn |].
  eapply occursIn_trans; [apply drop_occursIn |].
  apply TrimSpace_occursIn.
Qed.

Lemma Split_lines (block : string) : Forall noNewline (Split block nl).
Proof.
  apply Forall_forall. intros piece H.
  now apply (splitFrom_lines block "" piece).
Qed.

Lemma cardOf_clean (block : string) : Forall cleanCard (cardOf block).
Proof.
  unfold cardOf.
  destruct (fieldOf_clean "Q:" _ (Split_lines block)) as [-> | Hq];
    [constructor |].
  destruct (fieldOf_clean "A:" _ (Split_lines block)) as [-> | Ha].
  { rewrite orb_true_r. constructor. }
  destruct (String.eqb _ "" || String.eqb _ ""); constructor; [| constructor].
  split; [exact Hq |]. split; [exact Ha |]. cbn [Topic].
  destruct (String.eqb_spec (fieldOf "T:" (Split block nl)) "") as [E | E].
  - apply cleanField_Concept.
  - destruct (fieldOf_clean "T:" _ (Split_lines block)); [contradiction |].
    assumption.
Qed.

Lemma parseFlashcards_clean (text : string) :
  Forall cleanCard (parseFlashcards text).
Proof.
  unfold parseFlashcards. rewrite parseCards_flat_map. cbn [app].
  apply Forall_flat_map, Forall_forall. intros block _. apply cardOf_clean.
Qed.

(** X10. Every card that the parser returns has a question, an answer and
    a topic that are not empty, hold no newline and are left as they are
    by trimming. *)
Theorem parsed_cards_clean (responseText : string) :
  Forall cleanCard (parseFlashcards responseText).
Proof. exact (parseFlashcards_clean responseText). Qed.

Lemma hasBoth_occurs (block text : string) :
  occursIn block text -> hasBoth block = true ->
  Contains text "Q:" = true /\ Contains text "A:" = true.
Proof.
  unfold hasBoth. intros Hb H. apply andb_true_iff in H as [HQ HA].
  split; apply occursIn_Contains; (eapply occursIn_trans; [| exact Hb]);
    now apply occursIn_Contains.
Qed.

Lemma flat_map_length_le {A B : Type} (f : A -> list B) (l : list A) :
  (forall a, List.length (f a) <= 1) ->
  List.length (flat_map f l) <= List.length l.
Proof.
  intros Hf. induction l as [| a l IH]; [reflexivity |].
  cbn [flat_map]. rewrite length_app. specialize (Hf a). simpl. lia.
Qed.

Lemma cardOf_length (block : string) : List.length (cardOf block) <= 1.
Proof. unfold cardOf. destruct (_ || _); simpl; lia. Qed.

Lemma filter_length_le {A : Type} (f : A -> bool) (l : list A) :
  List.length (filter f l) <= List.length l.
Proof.
  induction l as [| a l IH]; [reflexivity |].
  simpl. destruct (f a); simpl; lia.
Qed.

(** X11. A response in which "Q:" never occurs, or "A:" never occurs,
    parses to no card at all; and no response gives more cards than it has
    blocks between blank lines. *)
Theorem parser_needs_markers (responseText : string) :
  (Contains responseText "Q:" = false \/ Contains responseText "A:" = false ->
   parseFlashcards responseText = [])
  /\ List.length (parseFlashcards responseText)
     <= List.length (Split responseText (nl ++ nl)).
Proof.
  unfold parseFlashcards. rewrite parseCards_flat_map. cbn [app]. split.
  - intros H.
    assert (Hf : filter hasBoth (Split responseText (nl ++ nl)) = []).
    { destruct (filter hasBoth _) as [| b bs] eqn:E; [reflexivity |].
      assert (Hin : In b (filter hasBoth (Split responseText (nl ++ nl))))
        by (rewrite E; now left).
      apply filter_In in Hin as [Hin Hb].
      apply Split_pieces in Hin.
      destruct (hasBoth_occurs _ _ Hin Hb) as [HQ HA].
      destruct H as [H | H]; congruence. }
    now rewrite Hf.
  - etransitivity; [apply flat_map_length_le, cardOf_length |].
    apply filter_length_le.
Qed.

Lemma parser_needs_markers_witness :
  Contains "I can not help with that. Q: why?" "A:" = false
  /\ parseFlashcards "I can not help with that. Q: why?" = [].
Proof.
  split; [reflexivity |].
  apply (proj1 (parser_needs_markers "I can not help with that. Q: why?")).
  right. reflexivity.
Defined.

End GenerationMore.

(** ** More properties of the rendering and of the URL detection *)
Module RenderingMore.

Import StringFacts TrimFacts RoundTrip MoreStringFacts ServiceFacts.
Import GenerationMore Spec Props.

Lemma cleanCard_renderable (c : Flashcard) : cleanCard c -> renderable c.
Proof.
  intros ((Hq & Tq & Nq) & (Ha & Ta & Na) & (_ & _ & Nt)).
  repeat split; assumption.
Qed.

(** Rendering cards that are ready for it and parsing the text back. *)
Lemma reparse_renderable (set : FlashcardSet) :
  noNewline (Title set) -> noNewline (Source set) ->
  Forall renderable (Flashcards set) ->
  parseFlashcards (FormatAsText set) = map reparsed (Flashcards set).
Proof.
  intros Ht Hs Hc.
  assert (K1 : kept (titleBlock set) = []).
  { refine (kept_single_line "#" _ (conj eq_refl eq_refl) eq_refl _).
    apply (noNewline_labelled "# "); [reflexivity | exact Ht]. }
  assert (Hsb : noNewline (summaryBlock set)).
  { unfold summaryBlock. repeat apply noNewline_labelled;
      try reflexivity; [apply noNewline_itoa | exact Hs]. }
  assert (K2 : kept (summaryBlock set) = [])
    by exact (kept_single_line "G" _ (conj eq_refl eq_refl) eq_refl Hsb).
  unfold parseFlashcards. rewrite parseCards_flat_map, parse_kept.
  cbn [app]. rewrite FormatAsText_render.
  change (nl ++ nl) with blankLine. rewrite Split_renderBlocks.
  - cbn [app flat_map]. rewrite K1, K2. cbn [app]. now apply kept_cardBlocks.
  - constructor; [apply oneBlock_line, (noNewline_labelled "# ");
                  [reflexivity | exact Ht] |].
    constructor; [now apply oneBlock_line |].
    now apply oneBlock_cardBlocks.
Qed.

Lemma noNewline_generateTitle (source : string) :
  noNewline (generateTitle source).
Proof. unfold generateTitle. now destruct (HasPrefix source "http"). Qed.

(** X12. The text rendered from any set that [generateFlashcards] returns
    for a source without newline parses back to the same cards in the same
    order, question and answer unchanged, each with the topic
    "Concept". *)
Theorem generated_set_round_trip (env : Env) (text source : string)
    (w w' : Trace) (set : FlashcardSet) :
  generateFlashcards env text source w = (Ok set, w') ->
  noNewline source ->
  parseFlashcards (FormatAsText set) = map reparsed (Flashcards set)
  /\ map pairOf (parseFlashcards (FormatAsText set))
     = map pairOf (Flashcards set).
Proof.
  intros H Hs.
  destruct (generateFlashcards_cases env text source w)
    as [[Ht Hg] | [Ht [(e' & Hg & Hc) | [Hg | (c & cs & p & ps & _ & _ & _ & Hg)]]]];
    rewrite Hg in H; try discriminate H.
  injection H as <- _.
  assert (R : parseFlashcards
                (FormatAsText
                   (mkFlashcardSet (generateTitle source) (parseFlashcards p)
                      source (timeNow env (ticks w))
                      (Z.of_nat (List.length (parseFlashcards p)))))
              = map reparsed (parseFlashcards p)).
  { apply reparse_renderable; cbn [Title Source Flashcards].
    - apply noNewline_generateTitle.
    - exact Hs.
    - eapply Forall_impl; [| apply parseFlashcards_clean].
      apply cleanCard_renderable. }
  split; [exact R |]. rewrite R, map_map. reflexivity.
Qed.

Lemma generated_set_round_trip_witness :
  exists set,
    generateFlashcards
      (MoreExamples.envWith MoreExamples.threePages
         ("Q:   What is Go? " ++ nl ++ "A: A language" ++ nl ++ "T: Basics")
         Examples.plainText)
      "some notes" "user_input" start
    = (Ok set, mkTrace 0 1 [promptFor "some notes"])
    /\ parseFlashcards (FormatAsText set)
       = [mkFlashcard "What is Go?" "A language" "Concept"].
Proof.
  eexists. split; [lazy; reflexivity |].
  exact (proj1 (generated_set_round_trip
                  (MoreExamples.envWith MoreExamples.threePages
                     ("Q:   What is Go? " ++ nl ++ "A: A language" ++ nl
                      ++ "T: Basics")
                     Examples.plainText)
                  "some notes" "user_input" start _ _ eq_refl eq_refl)).
Defined.

(** *** The layout of the rendering *)

Lemma In_renderBlocks (b : string) (blocks : list string) :
  In b blocks -> occursIn b (renderBlocks blocks).
Proof.
  induction blocks as [| b' blocks IH]; [intros [] |].
  intros [-> | H]; cbn [renderBlocks].
  - apply occursIn_app_l, occursIn_refl.
  - apply occursIn_app_r, occursIn_app_r, IH, H.
Qed.

Lemma cardBlocks_nth (cards : list Flashcard) :
  forall i j card,
    nth_error cards i = Some card ->
    In (cardBlock card (j + Z.of_nat i)) (cardBlocks cards j).
Proof.
  induction cards as [| c cards IH]; intros [| i] j card H;
    try discriminate H.
  - injection H as ->. left. now rewrite Z.add_0_r.
  - right. cbn [nth_error] in H.
    replace (j + Z.of_nat (S i))%Z with (j + 1 + Z.of_nat i)%Z by lia.
    now apply IH.
Qed.

(** X13. The text of [FormatAsText] is the title block, the summary block
    (with the [TotalCards] field as count) and one block per card, in
    order, each followed by a blank line; the block of the card of index
    [i] is the label "**Card i+1**" (with the topic in parentheses when it
    is not empty), the line "Q: " with the question and the line "A: "
    with the answer. *)
Theorem FormatAsText_layout (set : FlashcardSet) :
  FormatAsText set
  = renderBlocks (("# " ++ Title set)
                  :: ("Generated " ++ itoa (TotalCards set)
                      ++ " flashcards from: " ++ Source set)
                  :: cardBlocks (Flashcards set) 0)
  /\ forall i card,
       nth_error (Flashcards set) i = Some card ->
       occursIn
         ("**Card " ++ itoa (Z.of_nat i + 1) ++ "**"
          ++ (if String.eqb (Topic card) "" then ""
              else " (" ++ Topic card ++ ")")
          ++ nl ++ "Q: " ++ Question card ++ nl ++ "A: " ++ Answer card)
         (FormatAsText set).
Proof.
  split; [apply FormatAsText_render |].
  intros i card H. rewrite FormatAsText_render.
  apply In_renderBlocks. right; right.
  pose proof (cardBlocks_nth _ i 0 card H) as Hin.
  replace (cardBlock card (0 + Z.of_nat i))
    with ("**Card " ++ itoa (Z.of_nat i + 1) ++ "**"
          ++ (if String.eqb (Topic card) "" then ""
              else " (" ++ Topic card ++ ")")
          ++ nl ++ "Q: " ++ Question card ++ nl ++ "A: " ++ Answer card)
    in Hin; [exact Hin |].
  unfold cardBlock, cardLabel. rewrite Z.add_0_l.
  destruct (String.eqb (Topic card) ""); cbn [negb];
    rewrite !append_assoc; reflexivity.
Qed.

Lemma FormatAsText_layout_witness :
  nth_error (Flashcards Examples.trimmedSet) 1
  = Some (mkFlashcard "What is the capital of France?" "Paris" "")
  /\ occursIn
       ("**Card 2**" ++ nl ++ "Q: What is the capital of France?" ++ nl
        ++ "A: Paris")
       (FormatAsText Examples.trimmedSet).
Proof.
  split; [reflexivity |].
  exact (proj2 (FormatAsText_layout Examples.trimmedSet) 1
           (mkFlashcard "What is the capital of France?" "Paris" "") eq_refl).
Defined.

(** *** The URL that [ExtractPDFURL] returns *)

Lemma firstPDFURL_shape (words : list string) (url : string) :
  firstPDFURL words = url -> url <> "" ->
  HasPrefix url "http" = true
  /\ containsFold url ".pdf"
  /\ TrimRight url ".,;" = url
  /\ exists word, In word words /\ url = TrimRight word ".,;".
Proof.
  induction words as [| word words IH]; cbn [firstPDFURL].
  - intros <- H. contradiction.
  - destruct (HasPrefix (TrimRight word ".,;") "http"
              && Contains (ToLower (TrimRight word ".,;")) ".pdf") eqn:E.
    + intros <- _. apply andb_true_iff in E as [E1 E2].
      split; [exact E1 |].
      split; [now apply Contains_ToLower |].
      split; [apply TrimRight_idempotent |].
      exists word. split; [now left | reflexivity].
    + intros H Hn. destruct (IH H Hn) as (H1 & H2 & H3 & w & Hin & Hw).
      repeat split; try assumption. exists w. split; [now right | exact Hw].
Qed.

(** X14. What [ExtractPDFURL] returns is empty or a token of the text,
    stripped of its trailing '.', ',' and ';': it starts with "http",
    contains ".pdf" up to case, and ends with none of the three
    characters, so that stripping it again changes nothing. *)
Theorem ExtractPDFURL_shape (text url : string) :
  ExtractPDFURL text = url -> url <> "" ->
  HasPrefix url "http" = true
  /\ containsFold url ".pdf"
  /\ TrimRight url ".,;" = url
  /\ exists word, In word (Fields text) /\ url = TrimRight word ".,;".
Proof. apply firstPDFURL_shape. Qed.

Lemma ExtractPDFURL_shape_witness :
  ExtractPDFURL "Read https://example.com/a.PDF;, please" 
  = "https://example.com/a.PDF"
  /\ TrimRight "https://example.com/a.PDF" ".,;" = "https://example.com/a.PDF".
Proof.
  split; [reflexivity |].
  destruct (ExtractPDFURL_shape "Read https://example.com/a.PDF;, please"
              "https://example.com/a.PDF" eq_refl ltac:(discriminate))
    as (_ & _ & H & _).
  exact H.
Defined.

End RenderingMore.

(** ** More properties of the A2A handler *)
Module HandlerMore.

Import StringFacts MoreStringFacts ServiceFacts ServiceMore GenerationMore.
Import RenderingMore HandlerFacts Spec Props.
Import PDFService.

(** *** The envelope *)

(** X15. Every response of the message endpoint has the version "2.0",
    the content type application/json, and either a result and no error
    or an error and no result. *)
Theorem response_envelope (env : Env) (r : HTTPRequest) (w w' : Trace)
    (wr : HTTPWrite) :
  ServeHTTP env r w = (Some wr, w') ->
  respJSONRPC (written wr) = "2.0"
  /\ contentType wr = "application/json"
  /\ resultXorError (written wr).
Proof.
  unfold ServeHTTP, handleMessageSend, resultXorError.
  destruct (negb (String.eqb (httpMethod r) MethodPost)).
  { intros H; injection H as <- _. repeat split. right. now eexists. }
  destruct (decodeRequest env (Body r)) as [err | req].
  { intros H; injection H as <- _. repeat split. right. now eexists. }
  destruct (negb (String.eqb (reqJSONRPC req) "2.0")).
  { intros H; injection H as <- _. repeat split. right. now eexists. }
  destruct (String.eqb (Method req) "message/send").
  2: { intros H; injection H as <- _. repeat split. right. now eexists. }
  destruct (extractMessage env (Params req) w) as [[msg | e |] w0];
    try discriminate.
  2: { intros H; injection H as <- _. repeat split. right. now eexists. }
  destruct (String.eqb (extractUserInput msg) "").
  { intros H; injection H as <- _. repeat split. right. now eexists. }
  destruct (processRequest env (extractUserInput msg) msg w0)
    as [[res | e |] w2]; try discriminate;
    intros H; injection H as <- _; repeat split;
    [left | right]; now eexists.
Qed.

Lemma response_envelope_witness :
  exists wr w',
    ServeHTTP (Examples.env Examples.twoCards Examples.plainText)
      (mkHTTPRequest "POST" "{}") start = (Some wr, w')
    /\ resultXorError (written wr).
Proof.
  do 2 eexists. split; [lazy; reflexivity |].
  exact (proj2 (proj2 (response_envelope
                         (Examples.env Examples.twoCards Examples.plainText)
                         (mkHTTPRequest "POST" "{}") start _ _ eq_refl))).
Defined.

(** X16. A POST request is checked in this order, and the first check that
    fails answers without any effect: a body that does not decode gives
    ParseError (-32700) with the empty id and the decoder's text as data;
    a version other than "2.0" gives InvalidRequest (-32600), whatever the
    method; a method other than "message/send" gives MethodNotFound
    (-32601) with the method named in the data. *)
Theorem protocol_errors (env : Env) (r : HTTPRequest) (w : Trace) :
  httpMethod r = "POST" ->
  (forall err,
      decodeRequest env (Body r) = inl err ->
      ServeHTTP env r w = (Some (sendError "" (-32700) "Parse error" err), w))
  /\ (forall req,
        decodeRequest env (Body r) = inr req ->
        reqJSONRPC req <> "2.0" ->
        ServeHTTP env r w
        = (Some (sendError (reqID req) (-32600) "Invalid Request"
                   "jsonrpc must be 2.0"), w))
  /\ (forall req,
        decodeRequest env (Body r) = inr req ->
        reqJSONRPC req = "2.0" ->
        Method req <> "message/send" ->
        ServeHTTP env r w
        = (Some (sendError (reqID req) (-32601) "Method not found"
                   ("Method " ++ Method req ++ " not supported")), w)).
Proof.
  intros Hm. unfold ServeHTTP, MethodPost. rewrite Hm. cbn [String.eqb negb].
  change (String.eqb "POST" "POST") with true. cbn [negb].
  repeat split.
  - intros err ->. reflexivity.
  - intros req -> Hv.
    destruct (String.eqb_spec (reqJSONRPC req) "2.0"); [contradiction |].
    reflexivity.
  - intros req -> -> Hmeth. cbn.
    destruct (String.eqb_spec (Method req) "message/send");
      [contradiction | reflexivity].
Qed.

Lemma protocol_errors_witness :
  ServeHTTP
    (mkEnv MoreExamples.web (fun _ => inr [])
       (fun _ => inr []) (fun _ => "") (fun _ => "") (fun _ => "")
       (fun _ => inr (mkRequest "1.0" "123" "unknown/method" []))
       (fun _ => inl "no message"))
    (mkHTTPRequest "POST" "{...}") start
  = (Some (sendError "123" (-32600) "Invalid Request" "jsonrpc must be 2.0"),
     start).
Proof.
  apply (proj1 (proj2 (protocol_errors
           (mkEnv MoreExamples.web (fun _ => inr [])
              (fun _ => inr []) (fun _ => "") (fun _ => "") (fun _ => "")
              (fun _ => inr (mkRequest "1.0" "123" "unknown/method" []))
              (fun _ => inl "no message"))
           (mkHTTPRequest "POST" "{...}") start eq_refl))
           (mkRequest "1.0" "123" "unknown/method" []) eq_refl).
  discriminate.
Defined.

(** *** The message of a request *)

(** X17. When the parameters hold no object under "message", message/send
    answers InvalidParams (-32602) "Missing or invalid 'message'
    parameter"; when the object does not decode into a message, it
    answers InvalidParams "Invalid message format".  Neither has any
    effect. *)
Theorem message_parameter_errors (env : Env) (req : JSONRPCRequest) (w : Trace) :
  ((forall messageData,
       mapGet (Params req) "message" <> Some (AMap messageData)) ->
   handleMessageSend env req w
   = (Some (sendError (reqID req) (-32602)
              "Missing or invalid 'message' parameter"
              (errorText env
                 (AppErrors.mkAppError (-32602)
                    "Missing or invalid 'message' parameter" None))), w))
  /\ (forall messageData err,
        mapGet (Params req) "message" = Some (AMap messageData) ->
        unmarshalMessage env messageData = inl err ->
        handleMessageSend env req w
        = (Some (sendError (reqID req) (-32602) "Invalid message format"
                   (errorText env
                      (AppErrors.mkAppError (-32602) "Invalid message format"
                         (Some err)))), w)).
Proof.
  unfold handleMessageSend, extractMessage. split.
  - intros H.
    destruct (mapGet (Params req) "message") as [[| | | | | | m | |] |];
      try reflexivity.
    now contradiction (H m).
  - intros m err -> ->. reflexivity.
Qed.

Lemma message_parameter_errors_witness :
  handleMessageSend (Examples.env Examples.twoCards Examples.plainText)
    (mkRequest "2.0" "7" "message/send" [("message", AString "not an object")])
    start
  = (Some (sendError "7" (-32602) "Missing or invalid 'message' parameter"
             "Missing or invalid 'message' parameter"), start).
Proof.
  apply (proj1 (message_parameter_errors
                  (Examples.env Examples.twoCards Examples.plainText)
                  (mkRequest "2.0" "7" "message/send"
                     [("message", AString "not an object")]) start)).
  intros m H. discriminate H.
Defined.

Lemma firstText_none (parts : list MessagePart) :
  Forall (fun p => partKind p <> KindText) parts -> firstText parts = "".
Proof.
  induction 1 as [| p parts Hp _ IH]; [reflexivity |].
  cbn [firstText].
  destruct (String.eqb_spec (partKind p) KindText); [contradiction | exact IH].
Qed.

(** X18. A message without any part of kind text is answered InvalidParams
    (-32602) with the data "No text content found in message", also when
    its parts carry PDF data: they are never looked at. *)
Theorem no_text_part_rejected (env : Env) (req : JSONRPCRequest)
    (w w1 : Trace) (msg : Message) :
  extractMessage env (Params req) w = (Ok msg, w1) ->
  noPartOfKind KindText msg ->
  handleMessageSend env req w
  = (Some (sendError (reqID req) (-32602) "Invalid params"
             "No text content found in message"), w1).
Proof.
  intros Hm Hn. unfold handleMessageSend. rewrite Hm.
  unfold extractUserInput. now rewrite (firstText_none _ Hn).
Qed.

Lemma no_text_part_rejected_witness :
  noPartOfKind KindText MoreExamples.dataOnly
  /\ handleMessageSend
       (Examples.env Examples.twoCards MoreExamples.dataOnly)
       Examples.sendRequest start
     = (Some (sendError "test-123" (-32602) "Invalid params"
                "No text content found in message"), start).
Proof.
  assert (H : noPartOfKind KindText MoreExamples.dataOnly).
  { constructor; [discriminate | constructor]. }
  split; [exact H |].
  exact (no_text_part_rejected
           (Examples.env Examples.twoCards MoreExamples.dataOnly)
           Examples.sendRequest start start MoreExamples.dataOnly eq_refl H).
Defined.

(** *** Effects of a request *)

Lemma extractPages_trace (pages : list PdfPage) :
  forall pageNum builder w,
    snd (extractPages pages pageNum builder w) = w.
Proof.
  induction pages as [| [| [err | text]] pages IH]; intros n b w;
    cbn [extractPages]; try reflexivity; apply IH.
Qed.

Lemma ExtractText_trace (env : Env) (pdfData : list byte) (w : Trace) :
  snd (ExtractText env pdfData w) = w.
Proof.
  unfold ExtractText. destruct (pdfNewReader env pdfData); [reflexivity |].
  apply extractPages_trace.
Qed.

Lemma DownloadPDF_trace (env : Env) (url : string) (w : Trace) :
  snd (DownloadPDF env url w) = w.
Proof.
  unfold DownloadPDF.
  destruct (httpGet env url) as [err | status [err | data]]; try reflexivity;
    destruct (negb (Z.eqb status 200)); reflexivity.
Qed.

Lemma generateFlashcards_effect (env : Env) (text source : string) (w : Trace) :
  generationEffect w (generateFlashcards env text source w).
Proof.
  unfold generationEffect, atMostOnePrompt, onePrompt.
  destruct (generateFlashcards_cases env text source w)
    as [[Ht Hg] | [Ht [(e' & Hg & Hc) | [Hg | (c & cs & p & ps & _ & _ & _ & Hg)]]]];
    rewrite Hg; cbn [fst snd uuids ticks prompts];
    repeat split; try (now left); try (right; now eexists); now eexists.
Qed.

Lemma generationEffect_fail {A : Type} (w : Trace) (e : AppError) :
  @generationEffect A w (Fail e, w).
Proof. repeat split. now left. Qed.

Lemma GenerateFromPDFData_effect (env : Env) (pdfData : list byte) (w : Trace) :
  generationEffect w (GenerateFromPDFData env pdfData w).
Proof.
  unfold GenerateFromPDFData.
  destruct (ValidatePDF pdfData); [apply generationEffect_fail |].
  unfold bind. pose proof (ExtractText_trace env pdfData w) as Ht.
  destruct (ExtractText env pdfData w) as [[text | e |] w1];
    cbn [snd] in Ht; subst w1.
  - apply generateFlashcards_effect.
  - apply generationEffect_fail.
  - repeat split. now left.
Qed.

Lemma GenerateFromURL_effect (env : Env) (url : string) (w : Trace) :
  generationEffect w (GenerateFromURL env url w).
Proof.
  unfold GenerateFromURL, bind.
  pose proof (DownloadPDF_trace env url w) as Hd.
  destruct (DownloadPDF env url w) as [[data | e |] w1];
    cbn [snd] in Hd; subst w1.
  - destruct (ValidatePDF data); [apply generationEffect_fail |].
    pose proof (ExtractText_trace env data w) as Ht.
    destruct (ExtractText env data w) as [[text | e |] w1];
      cbn [snd] in Ht; subst w1.
    + apply generateFlashcards_effect.
    + apply generationEffect_fail.
    + repeat split. now left.
  - apply generationEffect_fail.
  - repeat split. now left.
Qed.

Lemma generateFor_effect (env : Env) (input : string) (msg : Message)
    (w : Trace) :
  generationEffect w (generateFor env input msg w).
Proof.
  unfold generateFor.
  destruct (negb (String.eqb (ExtractPDFURL input) ""));
    [apply GenerateFromURL_effect |].
  destruct (extractPDFData msg);
    [apply GenerateFromPDFData_effect | apply generateFlashcards_effect].
Qed.

Lemma buildTaskResult_effect (env : Env) (flashcards : FlashcardSet)
    (userMsg : Message) (w : Trace) :
  exists result,
    buildTaskResult env flashcards userMsg w
    = (Ok result,
       mkTrace (uuids w + (if String.eqb (TaskID userMsg) "" then 4 else 3))
               (S (ticks w)) (prompts w)).
Proof.
  unfold buildTaskResult, bind, newUUID, now, ret.
  destruct (String.eqb (TaskID userMsg) ""); cbn [uuids ticks prompts];
    eexists; repeat f_equal; lia.
Qed.

(** X19. One request asks the model at most once.  A response with an
    error has drawn no identifier and read no clock; a response with a
    result has sent exactly one prompt and read the clock twice, and it
    has drawn four identifiers when the message of the request came
    without task id, three when it came with one. *)
Theorem request_effects (env : Env) (r : HTTPRequest) (w w' : Trace)
    (wr : HTTPWrite) :
  ServeHTTP env r w = (Some wr, w') ->
  atMostOnePrompt w w'
  /\ (Result (written wr) = None ->
      uuids w' = uuids w /\ ticks w' = ticks w)
  /\ (Result (written wr) <> None ->
      onePrompt w w' /\ ticks w' = ticks w + 2
      /\ exists req msg,
           decodeRequest env (Body r) = inr req
           /\ extractMessage env (Params req) w = (Ok msg, w)
           /\ uuids w'
              = uuids w + (if String.eqb (TaskID msg) "" then 4 else 3)).
Proof.
  assert (Quiet : forall id code m d,
             (Some wr, w') = (Some (sendError id code m d), w) ->
             atMostOnePrompt w w'
             /\ (Result (written wr) = None ->
                 uuids w' = uuids w /\ ticks w' = ticks w)
             /\ (Result (written wr) <> None ->
                 onePrompt w w' /\ ticks w' = ticks w + 2
                 /\ exists req msg,
                      decodeRequest env (Body r) = inr req
                      /\ extractMessage env (Params req) w = (Ok msg, w)
                      /\ uuids w'
                         = uuids w
                           + (if String.eqb (TaskID msg) "" then 4 else 3))).
  { intros id code m d H. injection H as -> ->.
    split; [now left |]. split; [now split |]. intros H. now contradiction H. }
  unfold ServeHTTP, handleMessageSend.
  destruct (negb (String.eqb (httpMethod r) MethodPost));
    [intros H; symmetry in H; eauto |].
  destruct (decodeRequest env (Body r)) as [err | req] eqn:Ed;
    [intros H; symmetry in H; eauto |].
  destruct (negb (String.eqb (reqJSONRPC req) "2.0"));
    [intros H; symmetry in H; eauto |].
  destruct (String.eqb (Method req) "message/send");
    [| intros H; symmetry in H; eauto].
  assert (Hm : exists o, extractMessage env (Params req) w = (o, w)).
  { unfold extractMessage.
    destruct (mapGet (Params req) "message") as [[| | | | | | m | |] |];
      try (now eexists).
    destruct (unmarshalMessage env m); now eexists. }
  destruct Hm as [o Hm]. rewrite Hm.
  destruct o as [msg | e |]; try discriminate.
  2: { intros H; symmetry in H; eauto. }
  destruct (String.eqb (extractUserInput msg) "");
    [intros H; symmetry in H; eauto |].
  unfold processRequest, bind.
  pose proof (generateFor_effect env (extractUserInput msg) msg w) as Hg.
  destruct (generateFor env (extractUserInput msg) msg w)
    as [[fs | e |] w1]; try discriminate.
  - destruct (buildTaskResult_effect env fs msg w1) as [res ->].
    destruct Hg as (Hu & Ht & p & Hp). cbn [fst snd] in *.
    intros H. injection H as <- <-. cbn [uuids ticks prompts written Result].
    split; [right; now exists p |].
    split; [discriminate |]. intros _.
    split; [now exists p |]. split; [lia |].
    exists req, msg. split; [reflexivity |]. split; [exact Hm |].
    now rewrite Hu.
  - destruct Hg as (Hu & Ht & Hp). cbn [fst snd] in *.
    intros H. injection H as <- <-. cbn [written Result].
    split; [exact Hp |]. split; [now split |].
    intros H. now contradiction H.
Qed.

Lemma request_effects_witness :
  exists wr,
    ServeHTTP (Examples.env Examples.twoCards Examples.plainText)
      (mkHTTPRequest "POST" "{}") start
    = (Some wr,
       mkTrace 4 2 [promptFor "Generate flashcards about basic mathematics."])
    /\ Result (written wr) <> None
    /\ TaskID Examples.plainText = ""
    /\ onePrompt start
         (mkTrace 4 2
            [promptFor "Generate flashcards about basic mathematics."]).
Proof.
  eexists. split; [lazy; reflexivity |].
  split; [discriminate |].
  split; [reflexivity |].
  refine (proj1 (proj2 (proj2 (request_effects
            (Examples.env Examples.twoCards Examples.plainText)
            (mkHTTPRequest "POST" "{}") start _ _ eq_refl)) _)).
  discriminate.
Defined.

(** *** Where the cards come from *)

Lemma generateFlashcards_tags (env : Env) (text source : string)
    (w w' : Trace) (set : FlashcardSet) :
  generateFlashcards env text source w = (Ok set, w') ->
  Source set = source /\ Title set = generateTitle source.
Proof.
  intros H.
  destruct (generateFlashcards_cases env text source w)
    as [[Ht Hg] | [Ht [(e' & Hg & Hc) | [Hg | (c & cs & p & ps & _ & _ & _ & Hg)]]]];
    rewrite Hg in H; try discriminate H.
  injection H as <- _. split; reflexivity.
Qed.

(** X20. The set of a routed generation tells its route: with a PDF URL in
    the text, the source is that URL and the title "Flashcards from PDF",
    whatever else the message carries; otherwise, with PDF data in the
    message, the source is "uploaded_pdf", and without, "user_input", both
    under the title "Study Flashcards". *)
Theorem generated_set_route (env : Env) (input : string) (msg : Message)
    (w w' : Trace) (set : FlashcardSet) :
  generateFor env input msg w = (Ok set, w') ->
  (ExtractPDFURL input <> ""
   /\ Source set = ExtractPDFURL input
   /\ Title set = "Flashcards from PDF")
  \/ (ExtractPDFURL input = "" /\ extractPDFData msg <> None
      /\ Source set = "uploaded_pdf" /\ Title set = "Study Flashcards")
  \/ (ExtractPDFURL input = "" /\ extractPDFData msg = None
      /\ Source set = "user_input" /\ Title set = "Study Flashcards").
Proof.
  unfold generateFor.
  destruct (String.eqb_spec (ExtractPDFURL input) "") as [E | E]; cbn [negb].
  - destruct (extractPDFData msg) as [data |] eqn:Ed; intros H.
    + right; left. apply GenerateFromPDFData_ok in H as (t & w1 & H).
      apply generateFlashcards_tags in H as [Hs Ht].
      repeat split; try assumption. discriminate.
    + right; right. apply generateFlashcards_tags in H as [Hs Ht].
      now repeat split.
  - intros H. left. apply GenerateFromURL_ok in H as (t & w1 & H).
    apply generateFlashcards_tags in H as [Hs Ht].
    split; [exact E |]. split; [exact Hs |]. rewrite Ht.
    destruct (firstPDFURL_shape _ _ eq_refl E) as [Hh _].
    unfold generateTitle, ExtractPDFURL. now rewrite Hh.
Qed.

Lemma generated_set_route_witness :
  exists set w',
    generateFor
      (MoreExamples.envWith MoreExamples.threePages Examples.twoCards
         MoreExamples.urlText)
      "Summarise https://example.com/notes.pdf." Examples.inlinePDF start
    = (Ok set, w')
    /\ Source set = "https://example.com/notes.pdf"
    /\ Title set = "Flashcards from PDF".
Proof.
  do 2 eexists. split; [lazy; reflexivity |].
  destruct (generated_set_route
              (MoreExamples.envWith MoreExamples.threePages Examples.twoCards
                 MoreExamples.urlText)
              "Summarise https://example.com/notes.pdf." Examples.inlinePDF
              start _ _ eq_refl)
    as [(_ & Hs & Ht) | [(H & _) | (H & _)]];
    [split; [exact Hs | exact Ht] | discriminate H | discriminate H].
Defined.

(** *** Inline PDF data *)

Lemma signature_of_string (s : string) :
  hasPDFSignature (list_byte_of_string s) -> HasPrefix s "%PDF" = true.
Proof.
  intros [rest H]. apply (f_equal string_of_list_byte) in H.
  rewrite string_of_list_byte_of_string in H. rewrite H.
  apply (HasPrefix_app "%PDF" (string_of_list_byte rest)).
Qed.

Lemma base64_no_signature (s : string) :
  allBase64 s = true -> HasPrefix s "%PDF" = false.
Proof.
  destruct s as [| c s]; [reflexivity |]. cbn [allBase64].
  intros H. apply andb_true_iff in H as [H _].
  rewrite HasPrefix_cons.
  destruct (Ascii.eqb_spec "%" c) as [<- | _]; [discriminate H | reflexivity].
Qed.

(** X21. Inline PDF data reach the PDF pipeline as the bytes of the string,
    so a string that does not itself start with "%PDF" is rejected with
    InvalidParams (-32602) with the trace of effects unchanged: the model
    is not asked.  That holds for every base64 text, whose alphabet has no
    '%'. *)
Theorem inline_pdf_needs_signature (env : Env) (input : string) (msg : Message)
    (before after : list MessagePart) (part : MessagePart) (s : string)
    (w : Trace) :
  Parts msg = (before ++ part :: after)%list ->
  Forall (fun p => partPDFData p = None) before ->
  inlinePDFPart part s ->
  ExtractPDFURL input = "" ->
  HasPrefix s "%PDF" = false \/ allBase64 s = true ->
  exists e,
    generateFor env input msg w = (Fail e, w)
    /\ AppErrors.Code e = (-32602)%Z.
Proof.
  intros Hparts Hb Hp Hurl Hs.
  assert (Hn : HasPrefix s "%PDF" = false).
  { destruct Hs as [Hs | Hs]; [exact Hs | now apply base64_no_signature]. }
  unfold generateFor, extractPDFData. rewrite Hurl, Hparts.
  rewrite (firstPDFData_first before after part _ Hb
             (partPDFData_inline part s Hp)).
  cbn [String.eqb negb]. apply GenerateFromPDFData_rejects.
  intros H. apply signature_of_string in H. congruence.
Qed.

Lemma inline_pdf_needs_signature_witness :
  allBase64 "JVBERi0xLjQK" = true
  /\ exists e,
       generateFor
         (MoreExamples.envWith MoreExamples.threePages Examples.twoCards
            Examples.inlinePDF)
         "Make cards from the attachment" Examples.inlinePDF start
       = (Fail e, start)
       /\ AppErrors.Code e = (-32602)%Z.
Proof.
  split; [reflexivity |].
  apply (inline_pdf_needs_signature
           (MoreExamples.envWith MoreExamples.threePages Examples.twoCards
              Examples.inlinePDF)
           "Make cards from the attachment" Examples.inlinePDF
           [mkMessagePart KindText "Make cards from the attachment" ANil] []
           (mkMessagePart KindData "" (Examples.pdfPayload "JVBERi0xLjQK"))
           "JVBERi0xLjQK" start eq_refl).
  - constructor; [reflexivity | constructor].
  - split; [reflexivity |]. eexists. split; [reflexivity |].
    split; reflexivity.
  - reflexivity.
  - right. reflexivity.
Defined.

End HandlerMore.

(** ** Properties of the upload endpoint *)
Module UploadFacts.

Import StringFacts ServiceFacts ServiceMore GenerationMore HandlerMore.
Import Spec Props.
Import PDFService.

Lemma GenerateFromPDFData_set (env : Env) (pdfData : list byte) (w w' : Trace)
    (set : FlashcardSet) :
  GenerateFromPDFData env pdfData w = (Ok set, w') ->
  Source set = "uploaded_pdf" /\ Title set = "Study Flashcards"
  /\ Flashcards set <> []
  /\ TotalCards set = Z.of_nat (List.length (Flashcards set)).
Proof.
  intros H. apply GenerateFromPDFData_ok in H as (t & w1 & H).
  destruct (generateFlashcards_tags _ _ _ _ _ _ H) as [Hs Ht].
  destruct (generateFlashcards_ok _ _ _ _ _ _ H) as [Hn Hc].
  repeat split; assumption.
Qed.

(** X22. The upload endpoint answers 405 exactly to a verb other than
    POST, and 200 exactly when it sends a FlashcardSet; that set then has
    the source "uploaded_pdf", the title "Study Flashcards" and at least
    one card, counted by [TotalCards].  Every other answer is 400 or 500
    with a plain text, and an answer 400 or 405 comes without any
    effect. *)
Theorem upload_statuses (env : Env) (r : UploadRequest) (w w' : Trace)
    (wr : UploadWrite) :
  uploadHandler env r w = (Some wr, w') ->
  (uploadStatus wr = 405%Z <-> uploadMethod r <> "POST")
  /\ (uploadStatus wr = 200%Z <-> exists set, uploadBody wr = FlashcardsJSON set)
  /\ (uploadStatus wr = 200%Z \/ uploadStatus wr = 400%Z
      \/ uploadStatus wr = 405%Z \/ uploadStatus wr = 500%Z)
  /\ (forall set,
         uploadBody wr = FlashcardsJSON set ->
         uploadContentType wr = "application/json"
         /\ Source set = "uploaded_pdf" /\ Title set = "Study Flashcards"
         /\ Flashcards set <> []
         /\ TotalCards set = Z.of_nat (List.length (Flashcards set)))
  /\ (uploadStatus wr = 400%Z \/ uploadStatus wr = 405%Z -> w' = w).
Proof.
  assert (Plain : forall m code,
             (code = 400 \/ code = 405 \/ code = 500)%Z ->
             (code = 405%Z <-> uploadMethod r <> "POST") ->
             (code = 400%Z \/ code = 405%Z -> w' = w) ->
             wr = httpError m code ->
             (uploadStatus wr = 405%Z <-> uploadMethod r <> "POST")
             /\ (uploadStatus wr = 200%Z
                 <-> exists set, uploadBody wr = FlashcardsJSON set)
             /\ (uploadStatus wr = 200%Z \/ uploadStatus wr = 400%Z
                 \/ uploadStatus wr = 405%Z \/ uploadStatus wr = 500%Z)
             /\ (forall set,
                    uploadBody wr = FlashcardsJSON set ->
                    uploadContentType wr = "application/json"
                    /\ Source set = "uploaded_pdf"
                    /\ Title set = "Study Flashcards"
                    /\ Flashcards set <> []
                    /\ TotalCards set = Z.of_nat (List.length (Flashcards set)))
             /\ (uploadStatus wr = 400%Z \/ uploadStatus wr = 405%Z -> w' = w)).
  { intros m code Hc H405 Hw ->. cbn [httpError uploadStatus uploadBody].
    split; [exact H405 |]. split.
    { split; [lia | intros [set H]; discriminate H]. }
    split; [lia |]. split; [intros set H; discriminate H | exact Hw]. }
  unfold uploadHandler, MethodPost.
  destruct (String.eqb_spec (uploadMethod r) "POST") as [Hm | Hm]; cbn [negb].
  2: { intros H. injection H as <- <-.
       eapply Plain; [| | | reflexivity]; [lia | tauto | reflexivity]. }
  assert (N405 : forall code, code <> 405%Z ->
                   (code = 405%Z <-> uploadMethod r <> "POST")) by tauto.
  destruct (parseFormError r).
  { intros H. injection H as <- <-.
    eapply Plain; [| apply N405 | | reflexivity]; [lia | lia | reflexivity]. }
  destruct (pdfFormFile r) as [err | file].
  { intros H. injection H as <- <-.
    eapply Plain; [| apply N405 | | reflexivity]; [lia | lia | reflexivity]. }
  destruct (readError file).
  { intros H. injection H as <- <-.
    eapply Plain; [| apply N405 | | reflexivity]; [lia | lia | lia]. }
  destruct (GenerateFromPDFData env (readBuffer file) w)
    as [[set | e |] w1] eqn:E; try discriminate.
  - intros H. injection H as <- <-.
    cbn [uploadStatus uploadBody uploadContentType].
    split; [split; [discriminate | contradiction] |].
    split; [split; [now eexists | reflexivity] |].
    split; [now left |].
    split; [| intros [H | H]; discriminate H].
    intros set' H. injection H as <-.
    split; [reflexivity |]. exact (GenerateFromPDFData_set env _ w _ _ E).
  - intros H. injection H as <- <-.
    eapply Plain; [| apply N405 | | reflexivity]; [lia | lia | lia].
Qed.

Lemma upload_statuses_witness :
  exists wr w',
    uploadHandler
      (MoreExamples.envWith MoreExamples.threePages Examples.twoCards
         Examples.plainText)
      MoreExamples.pdfUpload start = (Some wr, w')
    /\ uploadStatus wr = 200%Z
    /\ exists set, uploadBody wr = FlashcardsJSON set.
Proof.
  do 2 eexists. split; [lazy; reflexivity |]. split; [reflexivity |].
  apply (proj1 (proj2 (upload_statuses
                         (MoreExamples.envWith MoreExamples.threePages
                            Examples.twoCards Examples.plainText)
                         MoreExamples.pdfUpload start _ _ eq_refl))).
  reflexivity.
Defined.

(** X23. An uploaded file that read without error but does not start with
    "%PDF" is answered 500, with the text of the InvalidParams error of
    the validation behind "Failed to generate flashcards: ", and the
    trace of effects is unchanged: the model is not asked. *)
Theorem upload_not_a_pdf (env : Env) (r : UploadRequest) (file : FormFile)
    (w : Trace) :
  uploadMethod r = "POST" ->
  parseFormError r = None ->
  pdfFormFile r = inr file ->
  readError file = None ->
  ~ hasPDFSignature (readBuffer file) ->
  exists e,
    uploadHandler env r w
    = (Some (mkUploadWrite 500 "text/plain; charset=utf-8"
               (PlainText ("Failed to generate flashcards: "
                           ++ errorText env e ++ nl))), w)
    /\ AppErrors.Code e = (-32602)%Z
    /\ ValidatePDF (readBuffer file) = Some e.
Proof.
  intros Hm Hp Hf Hr Hs. unfold uploadHandler, MethodPost.
  rewrite Hm, Hp, Hf, Hr. change (String.eqb "POST" "POST") with true.
  cbn [negb]. unfold GenerateFromPDFData.
  destruct (ValidatePDF (readBuffer file)) as [e |] eqn:E.
  - exists e. unfold fail, httpError. rewrite append_assoc.
    split; [reflexivity |]. split; [| reflexivity].
    apply (proj2 (ValidatePDF_spec _) e E).
  - apply (proj1 (ValidatePDF_spec _)) in E. contradiction.
Qed.

Lemma upload_not_a_pdf_witness :
  exists e,
    uploadHandler
      (MoreExamples.envWith MoreExamples.threePages Examples.twoCards
         Examples.plainText)
      MoreExamples.htmlUpload start
    = (Some (mkUploadWrite 500 "text/plain; charset=utf-8"
               (PlainText ("Failed to generate flashcards: "
                           ++ AppErrors.Message e ++ nl))), start)
    /\ AppErrors.Code e = (-32602)%Z.
Proof.
  destruct (upload_not_a_pdf
              (MoreExamples.envWith MoreExamples.threePages Examples.twoCards
                 Examples.plainText)
              MoreExamples.htmlUpload
              (mkFormFile 6 (list_byte_of_string "<html>") None) start
              eq_refl eq_refl eq_refl eq_refl)
    as (e & H & Hc & _).
  - intros [rest H]. discriminate H.
  - exists e. split; [exact H | exact Hc].
Defined.

(** X24. The buffer that the upload hands to the PDF pipeline always has
    the declared size: the bytes that the one read delivered, cut at that
    size, and zero bytes for all that it did not deliver; nothing is read
    a second time. *)
Theorem upload_buffer (file : FormFile) :
  List.length (readBuffer file) = Size file
  /\ (Size file <= List.length (delivered file) ->
      readBuffer file = firstn (Size file) (delivered file))
  /\ (List.length (delivered file) < Size file ->
      readBuffer file
      = (delivered file
         ++ repeat x00 (Size file - List.length (delivered file)))%list).
Proof.
  unfold readBuffer. split; [| split].
  - rewrite length_app, repeat_length, length_firstn. lia.
  - intros H. rewrite length_firstn.
    replace (Size file - Nat.min (Size file) (List.length (delivered file)))
      with 0 by lia.
    apply app_nil_r.
  - intros H. rewrite firstn_all2 by lia. reflexivity.
Qed.

Lemma upload_buffer_witness :
  List.length (delivered MoreExamples.shortRead) < Size MoreExamples.shortRead
  /\ readBuffer MoreExamples.shortRead
     = (list_byte_of_string "%PDF" ++ [x00; x00; x00; x00])%list.
Proof.
  assert (H : List.length (delivered MoreExamples.shortRead)
              < Size MoreExamples.shortRead) by (simpl; lia).
  split; [exact H |].
  exact (proj2 (proj2 (upload_buffer MoreExamples.shortRead)) H).
Defined.

End UploadFacts.

(** ** How parsing and routing compose *)
Module CompositionFacts.

Import StringFacts RoundTrip MoreStringFacts ServiceFacts GenerationMore.
Import HandlerFacts HandlerMore Spec Props.

Lemma endsWithNewline_cons (c d : ascii) (r : string) :
  endsWithNewline (String c (String d r)) = endsWithNewline (String d r).
Proof. reflexivity. Qed.

(** Splitting a text that does not end in a newline, followed by a blank
    line and more text, splits the two texts apart. *)
Lemma splitFrom_concat (b a : string) :
  endsWithNewline a = false ->
  forall cur k,
    k <= String.length a ->
    splitFrom blankLine k cur (a ++ blankLine ++ b)
    = (splitFrom blankLine k cur a ++ splitFrom blankLine 0 "" b)%list.
Proof.
  induction a as [| c a IH]; intros Ha cur k Hk.
  - simpl in Hk. replace k with 0 by lia. reflexivity.
  - assert (Ha' : endsWithNewline a = false).
    { destruct a as [| d r]; [reflexivity |].
      now rewrite endsWithNewline_cons in Ha. }
    destruct k as [| k].
    + cbn [append]. rewrite !splitFrom_cons, !HasPrefix_blank.
      destruct (Ascii.eqb LF c) eqn:Ec; cbn [andb].
      * destruct a as [| d r].
        { cbn [endsWithNewline] in Ha. congruence. }
        cbn [append]. rewrite !HasPrefix_nl.
        change (String d (r ++ blankLine ++ b))
          with (String d r ++ blankLine ++ b).
        destruct (Ascii.eqb LF d).
        -- change (String.length blankLine - 1) with 1.
           rewrite (IH Ha' "" 1) by (simpl; lia). reflexivity.
        -- now rewrite (IH Ha' _ 0) by (simpl; lia).
      * now rewrite (IH Ha' _ 0) by lia.
    + cbn [append splitFrom]. simpl in Hk. apply (IH Ha'). lia.
Qed.

(** X25. The parser works block by block: the cards of a response made of
    a text that does not end in a newline, a blank line and a second text
    are the cards of the first text followed by the cards of the
    second. *)
Theorem parser_concat (a b : string) :
  endsWithNewline a = false ->
  parseFlashcards (a ++ nl ++ nl ++ b)
  = (parseFlashcards a ++ parseFlashcards b)%list.
Proof.
  intros Ha. unfold parseFlashcards. rewrite !parseCards_flat_map.
  cbn [app]. unfold Split.
  change (nl ++ nl) with blankLine.
  change (a ++ nl ++ nl ++ b) with (a ++ blankLine ++ b).
  rewrite (splitFrom_concat b a Ha "" 0) by lia.
  now rewrite filter_app, flat_map_app.
Qed.

Lemma parser_concat_witness :
  endsWithNewline ("Q: a" ++ nl ++ "A: b") = false
  /\ parseFlashcards
       (("Q: a" ++ nl ++ "A: b") ++ nl ++ nl ++ ("A: d" ++ nl ++ "Q: c"))
     = [mkFlashcard "a" "b" "Concept"; mkFlashcard "c" "d" "Concept"].
Proof.
  split; [reflexivity |].
  rewrite (parser_concat ("Q: a" ++ nl ++ "A: b") ("A: d" ++ nl ++ "Q: c")
             eq_refl).
  reflexivity.
Defined.

Lemma firstPDFData_none (parts : list MessagePart) :
  Forall (fun p => partKind p <> KindData) parts -> firstPDFData parts = None.
Proof.
  induction 1 as [| p parts Hp _ IH]; [reflexivity |].
  cbn [firstPDFData]. unfold partPDFData.
  destruct (String.eqb_spec (partKind p) KindData); [contradiction | exact IH].
Qed.

(** X26. A request whose text names no PDF URL and whose message has no
    part of kind data goes to the model as text: when the text is not
    blank, exactly one prompt is sent, the template with the text of the
    first text part word for word. *)
Theorem text_route_prompt (env : Env) (input : string) (msg : Message)
    (w : Trace) :
  ExtractPDFURL input = "" ->
  noPartOfKind KindData msg ->
  TrimSpace input <> "" ->
  prompts (snd (generateFor env input msg w))
  = (prompts w ++ [promptFor input])%list
  /\ occursIn input (promptFor input).
Proof.
  intros Hu Hd Ht. split; [| apply text_in_prompt].
  unfold generateFor, extractPDFData, GenerateFromText.
  rewrite Hu, (firstPDFData_none _ Hd). cbn [String.eqb negb].
  now apply nonempty_text_prompts.
Qed.

Lemma text_route_prompt_witness :
  noPartOfKind KindData Examples.plainText
  /\ prompts
       (snd (generateFor
               (Examples.env Examples.twoCards Examples.plainText)
               "Generate flashcards about basic mathematics."
               Examples.plainText start))
     = [promptFor "Generate flashcards about basic mathematics."].
Proof.
  assert (H : noPartOfKind KindData Examples.plainText).
  { constructor; [discriminate | constructor]. }
  split; [exact H |].
  refine (proj1 (text_route_prompt
                   (Examples.env Examples.twoCards Examples.plainText)
                   "Generate flashcards about basic mathematics."
                   Examples.plainText start eq_refl H _)).
  discriminate.
Defined.

End CompositionFacts.
